(** * The Threads crawl pipeline: Fetcher and Reporter

    A shallow embedding of [scripts/threads_scraper.py] (the Fetcher) and
    [scripts/generate_report.py] (the Reporter), and the properties of the
    specification that concern them.

    Layout:
    - [Py]       the Python data the two scripts share: text, JSON values,
                 dictionaries, floats, the file system and the effect monad;
    - [Scraper]  [scroll_for_content], [extract_content], [main] and the
                 script's exit code;
    - [Jinja]    the part of Jinja2 that the two report templates use;
    - [Report]   the two templates and [generate_reports];
    - [FloatFacts], [ScraperSpec], [ReportSpec]  the properties. *)

From Stdlib Require Import ZArith NArith List String Ascii Bool Lia SpecFloat.
From stdpp Require Import gmap strings.
Import ListNotations.

Local Open Scope Z_scope.
Set Warnings "-register-all".

(* ===================================================================== *)
(** * Python data *)
(* ===================================================================== *)

Module Py.

(** A Python [str] is a sequence of Unicode code points; [len], slicing and
    iteration all count code points. *)
Definition str := list N.

(** The bytes of a Rocq string literal. *)
Definition bytes_of (s : string) : list N :=
  map N_of_ascii (list_ascii_of_string s).

(** UTF-8 decoding of well-formed input: [need] continuation bytes are
    still expected for the code point accumulated in [acc]. *)
Fixpoint utf8_decode (bs : list N) (need : nat) (acc : N) : str :=
  match bs with
  | [] => []
  | b :: bs' =>
      match need with
      | O =>
          if (b <? 128)%N then b :: utf8_decode bs' 0%nat 0%N
          else if (b <? 224)%N then utf8_decode bs' 1%nat (b - 192)%N
          else if (b <? 240)%N then utf8_decode bs' 2%nat (b - 224)%N
          else utf8_decode bs' 3%nat (b - 240)%N
      | S n =>
          let acc' := (acc * 64 + (b - 128))%N in
          match n with
          | O => acc' :: utf8_decode bs' 0%nat 0%N
          | S _ => utf8_decode bs' n acc'
          end
      end
  end.

(** A string literal of the (UTF-8 encoded) Python source. *)
Definition u (s : string) : str := utf8_decode (bytes_of s) 0%nat 0%N.

(** The literals of this file avoid the double quote character; where the
    Python source has one, the literal has a backquote (a character the two
    scripts never use) and [q] puts U+0022 back. *)
Definition q (s : string) : str :=
  map (fun c => if (c =? 96)%N then 34%N else c) (u s).

Arguments u : simpl never.
Arguments q : simpl never.

Fixpoint str_eqb (a b : str) : bool :=
  match a, b with
  | [], [] => true
  | x :: a', y :: b' => (x =? y)%N && str_eqb a' b'
  | _, _ => false
  end.

(** Decimal digits of a natural number, as [str(int)] prints them. *)
Fixpoint digits_fuel (fuel : nat) (n : N) (acc : str) : str :=
  match fuel with
  | O => acc
  | S fuel' =>
      let acc' := (48 + n mod 10)%N :: acc in
      if (n <? 10)%N then acc' else digits_fuel fuel' (n / 10)%N acc'
  end.

Definition digits (n : N) : str := digits_fuel (S (N.to_nat (N.log2 n))) n [].

Definition int_str (z : Z) : str :=
  if z <? 0 then 45%N :: digits (Z.to_N (- z)) else digits (Z.to_N z).

Arguments int_str : simpl never.

(** ** Results and effects

    A call either returns a value or raises.  Effects are threaded through
    a state; what was done before an exception stays done. *)

Inductive result (E A : Type) : Type :=
| Ok (a : A)
| Raise (e : E).
Arguments Ok {E A} a.
Arguments Raise {E A} e.

Definition is_ok {E A} (r : result E A) : bool :=
  match r with Ok _ => true | Raise _ => false end.

Definition M (S E A : Type) : Type := S -> S * result E A.

Definition ret {S E A} (a : A) : M S E A := fun s => (s, Ok a).
Definition raise {S E A} (e : E) : M S E A := fun s => (s, Raise e).
Definition bind {S E A B} (m : M S E A) (k : A -> M S E B) : M S E B :=
  fun s => match m s with
           | (s', Ok a) => k a s'
           | (s', Raise e) => (s', Raise e)
           end.
Definition lift {S E A} (r : result E A) : M S E A := fun s => (s, r).
Definition map_error {S E E' A} (f : E -> E') (m : M S E A) : M S E' A :=
  fun s => match m s with
           | (s', Ok a) => (s', Ok a)
           | (s', Raise e) => (s', Raise (f e))
           end.
Definition modify {S E} (f : S -> S) : M S E unit := fun s => (f s, Ok tt).
Definition gets {S E A} (f : S -> A) : M S E A := fun s => (s, Ok (f s)).

(** [try: m except h]: the handler runs on the state the body left. *)
Definition try_except {S E A} (m : M S E A) (h : E -> M S E A) : M S E A :=
  fun s => match m s with
           | (s', Ok a) => (s', Ok a)
           | (s', Raise e) => h e s'
           end.

(** [try: m finally: f]. *)
Definition try_finally {S E A} (m : M S E A) (f : M S E unit) : M S E A :=
  fun s => match m s with
           | (s', r) =>
               match f s' with
               | (s'', Ok _) => (s'', r)
               | (s'', Raise e) => (s'', Raise e)
               end
           end.


Declare Scope py_scope.
Delimit Scope py_scope with py.
Notation "x <- m ;; k" := (bind m (fun x => k))
  (at level 63, m at next level, right associativity, only parsing) : py_scope.
Notation "m ;;; k" := (bind m (fun _ => k))
  (at level 63, right associativity, only parsing) : py_scope.

(** ** Floats

    A Python [float] is an IEEE 754 binary64 number: [spec_float] with
    precision 53 and [emax] 1024, computed with the operations of
    [SpecFloat]. *)

Definition float := spec_float.

Inductive error : Type :=
| TypeError
| ZeroDivisionError
| OverflowError
| UndefinedError
| FileExistsError
| FileNotFoundError
| IsADirectoryError
| NotADirectoryError
| OSError                 (* an OSError of no subclass *)
| UnicodeEncodeError
| JSONDecodeError.

Definition finite_or_overflow (f : float) : result error float :=
  match f with
  | S754_infinity _ => Raise OverflowError
  | _ => Ok f
  end.

(** [float(n)]: the nearest double, [OverflowError] beyond the range. *)
Definition float_of_int (n : Z) : result error float :=
  finite_or_overflow (binary_normalize 53 1024 n 0 false).

(** [a / b] on two ints: the correctly rounded quotient. *)
Definition int_true_div (a b : Z) : result error float :=
  match a, b with
  | _, Z0 => Raise ZeroDivisionError
  | Z0, _ => Ok (S754_zero (b <? 0))
  | _, _ =>
      finite_or_overflow
        (SFdiv 53 1024 (S754_finite (a <? 0) (Z.to_pos (Z.abs a)) 0)
                       (S754_finite (b <? 0) (Z.to_pos (Z.abs b)) 0))
  end.

(** [x / n] and [x - n] for a float [x] and an int [n]: the int is
    converted first. *)
Definition float_div_int (x : float) (n : Z) : result error float :=
  match float_of_int n with
  | Raise e => Raise e
  | Ok y => if n =? 0 then Raise ZeroDivisionError else Ok (SFdiv 53 1024 x y)
  end.

Definition float_sub_int (x : float) (n : Z) : result error float :=
  match float_of_int n with
  | Raise e => Raise e
  | Ok y => Ok (SFsub 53 1024 x y)
  end.

(** A finite float [m * 2^e] as a fraction of two naturals. *)
Definition frac (m : positive) (e : Z) : Z * Z :=
  (Z.pos m * 2 ^ Z.max e 0, 2 ^ Z.max (- e) 0).

(** Exact comparison of a float with an int ([None] for NaN). *)
Definition float_cmp_int (x : float) (n : Z) : option comparison :=
  match x with
  | S754_nan => None
  | S754_infinity s => Some (if s then Lt else Gt)
  | S754_zero _ => Some (0 ?= n)
  | S754_finite s m e =>
      let '(num, den) := frac m e in
      Some ((if s then - num else num) ?= n * den)
  end.

(** Same value, for two finite positive floats. *)
Definition same_value (m1 : positive) (e1 : Z) (x : float) : bool :=
  match x with
  | S754_finite _ m2 e2 =>
      let '(n1, d1) := frac m1 e1 in
      let '(n2, d2) := frac m2 e2 in
      n1 * d2 =? n2 * d1
  | _ => false
  end.

(** [num / den] rounded to the nearest integer, ties to even. *)
Definition round_half_even (num den : Z) : Z :=
  let qt := num / den in
  match 2 * (num mod den) ?= den with
  | Lt => qt
  | Gt => qt + 1
  | Eq => if Z.even qt then qt else qt + 1
  end.

(** The double nearest to [c * 10^k], for [c > 0]. *)
Definition nearest_decimal (s : bool) (c : Z) (k : Z) : float :=
  SFdiv 53 1024 (S754_finite s (Z.to_pos (c * 10 ^ Z.max k 0)) 0)
                (S754_finite false (Z.to_pos (10 ^ Z.max (- k) 0)) 0).

(** [round(x, ndigits)] on a float: the correctly rounded decimal with
    [ndigits] digits after the point, read back as a double. *)
Definition float_round (x : float) (ndigits : Z) : result error float :=
  match x with
  | S754_finite s m e =>
      if 323 <? ndigits then Ok x
      else if ndigits <? -308 then Ok (S754_zero s)
      else
        let '(num, den) := frac m e in
        let t := round_half_even (num * 10 ^ Z.max ndigits 0)
                                 (den * 10 ^ Z.max (- ndigits) 0) in
        if t =? 0 then Ok (S754_zero s)
        else finite_or_overflow (nearest_decimal s t (- ndigits))
  | _ => Ok x
  end.

(** [round(n, ndigits)] on an int. *)
Definition int_round (n : Z) (ndigits : Z) : Z :=
  if 0 <=? ndigits then n
  else
    let p := 10 ^ (- ndigits) in
    let t := round_half_even (Z.abs n) p * p in
    if n <? 0 then - t else t.

(** *** [repr] of a float: the shortest decimal that reads back as the
    same double. *)

(** The least [k], searching upwards from [k], with [num/den < 10^k]. *)
Fixpoint decimal_point (fuel : nat) (num den : Z) (k : Z) : Z :=
  match fuel with
  | O => k
  | S fuel' =>
      if num * 10 ^ Z.max (- k) 0 <? den * 10 ^ Z.max k 0 then k
      else decimal_point fuel' num den (k + 1)
  end.

(** A lower bound for the decimal point, from the binary logarithms:
    [num/den > 2^(l-1)] for [l] the difference of the two, and 1233/4096
    is just below the decimal logarithm of 2. *)
Definition decimal_point_start (num den : Z) : Z :=
  (Z.log2 num - Z.log2 den - 1) * 1233 / 4096 - 1.

(** The [n]-digit decimals next to [m * 2^e] (whose decimal point is at
    [k]): the one below, the one above, and which of the two is closer. *)
Definition neighbours (m : positive) (e : Z) (k : Z) (n : Z) : Z * Z * comparison :=
  let '(num, den) := frac m e in
  let num' := num * 10 ^ Z.max (n - k) 0 in
  let den' := den * 10 ^ Z.max (k - n) 0 in
  (num' / den', num' / den' + 1, 2 * (num' mod den') ?= den').

(** The shortest digit string, tried from one digit up. *)
Fixpoint shortest (fuel : nat) (m : positive) (e : Z) (k : Z) (n : Z) : Z * Z :=
  let '(lo, hi, side) := neighbours m e k n in
  let ok c := (0 <? c) && same_value m e (nearest_decimal false c (k - n)) in
  let pick :=
    match ok lo, ok hi with
    | true, true =>
        match side with
        | Lt => Some lo
        | Gt => Some hi
        | Eq => Some (if Z.even lo then lo else hi)
        end
    | true, false => Some lo
    | false, true => Some hi
    | false, false => None
    end in
  match pick, fuel with
  | Some c, _ => (c, n)
  | None, O => (match side with Gt => hi | _ => lo end, n)
  | None, S fuel' => shortest fuel' m e k (n + 1)
  end.

Definition zeros (n : Z) : str := repeat 48%N (Z.to_nat n).

(** Layout of the digits [ds] with the decimal point after [decpt] of
    them, as [repr] does: plain notation for exponents from -4 to 16. *)
Definition float_layout (ds : str) (decpt : Z) : str :=
  let len := Z.of_nat (length ds) in
  if (-4 <? decpt) && (decpt <=? 16) then
    if decpt <=? 0 then u "0." ++ zeros (- decpt) ++ ds
    else if len <=? decpt then ds ++ zeros (decpt - len) ++ u ".0"
    else firstn (Z.to_nat decpt) ds ++ u "." ++ skipn (Z.to_nat decpt) ds
  else
    let ex := decpt - 1 in
    let mant := match ds with
                | [] => []
                | d :: [] => [d]
                | d :: rest => d :: u "." ++ rest
                end in
    let exd := digits (Z.to_N (Z.abs ex)) in
    mant ++ u "e" ++ (if ex <? 0 then u "-" else u "+")
         ++ (if Z.abs ex <? 10 then u "0" else []) ++ exd.

Definition float_repr (x : float) : str :=
  match x with
  | S754_nan => u "nan"
  | S754_infinity s => if s then u "-inf" else u "inf"
  | S754_zero s => if s then u "-0.0" else u "0.0"
  | S754_finite s m e =>
      let '(num, den) := frac m e in
      let k := decimal_point 8 num den (decimal_point_start num den) in
      let '(c, n) := shortest 16 m e k 1 in
      let '(c, k) := if c =? 10 ^ n then (1, k + 1) else (c, k) in
      (if s then u "-" else []) ++ float_layout (digits (Z.to_N c)) k
  end.


(** ** Library data

    What the scripts take from Python's Unicode tables: the upper-case
    mapping and the printable test outside ASCII. *)

Class Unicode : Type := {
  upper_non_ascii : N -> str;
  isprintable_non_ascii : N -> bool
}.

(** Tables that know ASCII only, for closed examples: every other
    character counts as printable and has no upper case of its own. *)
Definition ascii_tables : Unicode := {|
  upper_non_ascii := fun c => [c];
  isprintable_non_ascii := fun _ => true
|}.

Section Text.
Context {unicode : Unicode}.

(** [str.upper]. *)
Definition upper_char (c : N) : str :=
  if (c <? 128)%N then
    if (97 <=? c)%N && (c <=? 122)%N then [(c - 32)%N] else [c]
  else upper_non_ascii c.

Definition upper (s : str) : str := flat_map upper_char s.

Definition hex_digit (n : N) : N :=
  if (n <? 10)%N then (48 + n)%N else (87 + n)%N.

Fixpoint hex (width : nat) (n : N) : str :=
  match width with
  | O => []
  | S w => hex w (n / 16)%N ++ [hex_digit (n mod 16)%N]
  end.

(** One character of [repr(s)] inside the quote [quote]. *)
Definition repr_char (quote c : N) : str :=
  if (c =? quote)%N || (c =? 92)%N then [92%N; c]
  else if (c =? 9)%N then u "\t"
  else if (c =? 10)%N then u "\n"
  else if (c =? 13)%N then u "\r"
  else if (c <? 32)%N || (c =? 127)%N then u "\x" ++ hex 2 c
  else if (c <? 127)%N then [c]
  else if isprintable_non_ascii c then [c]
  else if (c <? 256)%N then u "\x" ++ hex 2 c
  else if (c <? 65536)%N then u "\u" ++ hex 4 c
  else u "\U" ++ hex 8 c.

(** [repr] of a [str]: single quotes unless the text has a single quote
    and no double quote. *)
Definition repr_str (s : str) : str :=
  let quote := if existsb (N.eqb 39) s && negb (existsb (N.eqb 34) s)
               then 34%N else 39%N in
  quote :: flat_map (repr_char quote) s ++ [quote].

(** ** JSON values, as [json.load] builds them and [json.dump] takes them *)

Inductive json : Type :=
| JNull
| JBool (b : bool)
| JInt (n : Z)
| JFloat (x : float)
| JStr (s : str)
| JList (l : list json)
| JDict (d : list (str * json)).

(** A Python [dict] with [str] keys, in insertion order. *)
Definition dict := list (str * json).

Fixpoint dict_get (k : str) (d : dict) : option json :=
  match d with
  | [] => None
  | (k', v) :: d' => if str_eqb k' k then Some v else dict_get k d'
  end.

(** [d[k] = v]. *)
Fixpoint dict_set (k : str) (v : json) (d : dict) : dict :=
  match d with
  | [] => [(k, v)]
  | (k', v') :: d' =>
      if str_eqb k' k then (k, v) :: d' else (k', v') :: dict_set k v d'
  end.

(** [d.setdefault(k, v)]. *)
Definition setdefault (k : str) (v : json) (d : dict) : dict :=
  match dict_get k d with
  | Some _ => d
  | None => d ++ [(k, v)]
  end.

Fixpoint join (sep : str) (parts : list str) : str :=
  match parts with
  | [] => []
  | [x] => x
  | x :: rest => x ++ sep ++ join sep rest
  end.

Fixpoint py_repr (v : json) : str :=
  match v with
  | JNull => u "None"
  | JBool b => if b then u "True" else u "False"
  | JInt n => int_str n
  | JFloat x => float_repr x
  | JStr s => repr_str s
  | JList l => u "[" ++ join (u ", ") (map py_repr l) ++ u "]"
  | JDict d =>
      u "{" ++ join (u ", ")
                 (map (fun kv => repr_str (fst kv) ++ u ": " ++ py_repr (snd kv)) d)
            ++ u "}"
  end.

(** [str(v)]. *)
Definition py_str (v : json) : str :=
  match v with
  | JStr s => s
  | _ => py_repr v
  end.

End Text.

(** [json.dumps(v, ensure_ascii=False, indent=2)]. *)
Definition json_escape_char (c : N) : str :=
  if (c =? 34)%N then [92%N; 34%N]
  else if (c =? 92)%N then [92%N; 92%N]
  else if (c =? 10)%N then u "\n"
  else if (c =? 13)%N then u "\r"
  else if (c =? 9)%N then u "\t"
  else if (c =? 8)%N then u "\b"
  else if (c =? 12)%N then u "\f"
  else if (c <? 32)%N then u "\u" ++ hex 4 c
  else [c].

Definition json_string (s : str) : str :=
  34%N :: flat_map json_escape_char s ++ [34%N].

Definition json_float (x : float) : str :=
  match x with
  | S754_nan => u "NaN"
  | S754_infinity s => if s then u "-Infinity" else u "Infinity"
  | _ => float_repr x
  end.

Definition newline_indent (level : nat) : str :=
  10%N :: repeat 32%N (2 * level).

Fixpoint json_dumps_at (level : nat) (v : json) : str :=
  match v with
  | JNull => u "null"
  | JBool b => if b then u "true" else u "false"
  | JInt n => int_str n
  | JFloat x => json_float x
  | JStr s => json_string s
  | JList [] => u "[]"
  | JList l =>
      u "[" ++ newline_indent (S level)
        ++ join (u "," ++ newline_indent (S level)) (map (json_dumps_at (S level)) l)
        ++ newline_indent level ++ u "]"
  | JDict [] => u "{}"
  | JDict d =>
      u "{" ++ newline_indent (S level)
        ++ join (u "," ++ newline_indent (S level))
             (map (fun kv => json_string (fst kv) ++ u ": " ++ json_dumps_at (S level) (snd kv)) d)
        ++ newline_indent level ++ u "}"
  end.

Definition json_dumps (v : json) : str := json_dumps_at 0 v.

(** [json.dump(v, f, ensure_ascii=False, indent=2)] writes the same text in
    chunks, one [f.write] each: a scalar on its own; in a list, each
    scalar item together with the bracket or separator before it; in a
    dict, the brace, the indentation, each separator, key, colon and scalar
    value on their own. *)
Definition is_container (v : json) : bool :=
  match v with
  | JList _ | JDict _ => true
  | _ => false
  end.

Fixpoint list_items (first : bool) (opening separator : str)
    (items : list (json * list str)) : list str :=
  match items with
  | [] => []
  | (x, chunks) :: rest =>
      (let buf := if first then opening else separator in
       if is_container x then buf :: chunks else [buf ++ concat chunks])
      ++ list_items false opening separator rest
  end.

Fixpoint dict_items (first : bool) (separator : str)
    (items : list (str * list str)) : list str :=
  match items with
  | [] => []
  | (k, chunks) :: rest =>
      (if first then [] else [separator])
      ++ [json_string k; u ": "] ++ chunks
      ++ dict_items false separator rest
  end.

Fixpoint json_chunks_at (level : nat) (v : json) : list str :=
  match v with
  | JList [] => [u "[]"]
  | JList l =>
      list_items true (u "[" ++ newline_indent (S level)) (u "," ++ newline_indent (S level))
        (combine l (map (json_chunks_at (S level)) l))
      ++ [newline_indent level; u "]"]
  | JDict [] => [u "{}"]
  | JDict d =>
      [u "{"; newline_indent (S level)]
      ++ dict_items true (u "," ++ newline_indent (S level))
           (map (fun kv => (fst kv, json_chunks_at (S level) (snd kv))) d)
      ++ [newline_indent level; u "}"]
  | _ => [json_dumps_at level v]
  end.

Definition json_chunks (v : json) : list str := json_chunks_at 0 v.

(** ** Text files are UTF-8

    The codec refuses a surrogate code point, which a [str] can hold. *)
Definition is_surrogate (c : N) : bool := ((55296 <=? c) && (c <=? 57343))%N.

Definition encodes (s : str) : bool := forallb (fun c => negb (is_surrogate c)) s.

(** [for chunk in chunks: f.write(chunk)] on a file just opened: the text
    the file holds when it is closed - the chunks before the first that
    cannot be encoded - and whether every chunk was written. *)
Fixpoint write_all (chunks : list str) : str * bool :=
  match chunks with
  | [] => ([], true)
  | chunk :: rest =>
      if encodes chunk
      then let (text, all) := write_all rest in (chunk ++ text, all)
      else ([], false)
  end.

(** ** The file system and the console *)

(** What a name in a directory can be: a directory, a regular file, or one
    of two entries that are neither - a socket, and a symbolic link that
    leads nowhere (its target's directory is missing too).  [mkdir] finds
    both in its way, [stat] finds the socket only, [open] opens neither.
    A symbolic link to an entry that exists stands for that entry. *)
Inductive node : Type :=
| Dir
| File (content : str)
| Socket
| DeadLink.

(** The calls a script makes on the outside: the file system and the
    browser page. *)
Inductive call : Type :=
| Mkdir (path : string)
| Exists (path : string)
| OpenRead (path : string)
| OpenWrite (path : string)
| Start
| Launch
| NewContext (viewport : Z * Z) (user_agent : str)
| NewPage
| Goto (url : str) (timeout : Z)
| IsVisible (selector : str)
| Click (selector : str)
| WaitForLoadState (timeout : Z)
| Screenshot (path : string)
| ScrollTo
| WaitForTimeout (ms : Z)
| ScrollHeight
| Title
| QueryPosts
| Content
| Close
| Stop.

(** The state the scripts act on: the files, the calls made so far (oldest
    first) and the lines printed so far. *)
Record world : Type := {
  fs : gmap string node;
  calls : list call;
  stdout : list str
}.

Definition with_fs (f : gmap string node -> gmap string node) (w : world) : world :=
  {| fs := f (fs w); calls := calls w; stdout := stdout w |}.

Definition log (c : call) (w : world) : world :=
  {| fs := fs w; calls := calls w ++ [c]; stdout := stdout w |}.

Definition say (line : str) (w : world) : world :=
  {| fs := fs w; calls := calls w; stdout := stdout w ++ [line] |}.

Definition called {E} (c : call) : M world E unit := modify (log c).

Definition print {E} (line : str) : M world E unit := modify (say line).

(** [dir / name] on paths. *)
Definition path_join (dir name : string) : string := dir +:+ "/" +:+ name.

(** The directory part of a relative path (empty for a single name). *)
Fixpoint dirname (p : string) : string :=
  match p with
  | EmptyString => EmptyString
  | String c rest =>
      if existsb (Ascii.eqb "/"%char) (list_ascii_of_string rest)
      then String c (dirname rest)
      else EmptyString
  end.

(** Is the directory holding [p] there?  The working directory is. *)
Definition parent_check (p : string) (files : gmap string node) : result error unit :=
  if String.eqb (dirname p) EmptyString then Ok tt
  else match files !! dirname p with
       | Some Dir => Ok tt
       | Some (File _) | Some Socket => Raise NotADirectoryError
       | Some DeadLink | None => Raise FileNotFoundError
       end.

(** [Path(p).mkdir(exist_ok=True)]: an existing directory is accepted,
    any other existing entry is not. *)
Definition mkdir_exist_ok (p : string) : M world error unit :=
  (called (Mkdir p) ;;;
   files <- gets fs ;;
   match files !! p with
   | Some Dir => ret tt
   | Some _ => raise FileExistsError
   | None =>
       lift (parent_check p files) ;;;
       modify (with_fs (insert p Dir))
   end)%py.

(** [Path(p).exists()]: what [stat] finds. *)
Definition path_exists (p : string) : M world error bool :=
  (called (Exists p) ;;;
   files <- gets fs ;;
   ret match files !! p with
       | Some DeadLink | None => false
       | Some _ => true
       end)%py.

(** [with open(p, 'r', encoding='utf-8') as f: f.read()]. *)
Definition read_text (p : string) : M world error str :=
  (called (OpenRead p) ;;;
   files <- gets fs ;;
   match files !! p with
   | Some (File c) => ret c
   | Some Dir => raise IsADirectoryError
   | Some Socket => raise OSError
   | Some DeadLink => raise FileNotFoundError
   | None =>
       lift (parent_check p files) ;;;
       raise FileNotFoundError
   end)%py.

(** [with open(p, 'w', encoding='utf-8') as f: for chunk in chunks:
    f.write(chunk)].  Opening creates the file or empties it; a chunk that
    cannot be encoded raises, and the file keeps the chunks before it. *)
Definition write_chunks (p : string) (chunks : list str) : M world error unit :=
  (called (OpenWrite p) ;;;
   files <- gets fs ;;
   match files !! p with
   | Some Dir => raise IsADirectoryError
   | Some Socket => raise OSError
   | Some DeadLink => raise FileNotFoundError
   | Some (File _) | None =>
       lift (parent_check p files) ;;;
       modify (with_fs (insert p (File (fst (write_all chunks))))) ;;;
       if snd (write_all chunks) then ret tt else raise UnicodeEncodeError
   end)%py.

(** [with open(p, 'w', encoding='utf-8') as f: f.write(text)]. *)
Definition write_text (p : string) (text : str) : M world error unit :=
  write_chunks p [text].

(** [with open(p, 'w', encoding='utf-8') as f:
    json.dump(v, f, ensure_ascii=False, indent=2)]. *)
Definition json_dump (p : string) (v : json) : M world error unit :=
  write_chunks p (json_chunks v).

End Py.


(* ===================================================================== *)
(** * The Fetcher: [scripts/threads_scraper.py] *)
(* ===================================================================== *)

Module Scraper.
Import Py.

(** ** The browser

    An exception of the browser library: its place in the class hierarchy
    and its message, [str(e)]. *)
Inductive exn_class : Type :=
| PlaywrightTimeout       (* playwright's TimeoutError, an Exception *)
| OtherException          (* any other subclass of Exception *)
| NotException.           (* BaseException only: cancellation, interrupt *)

Record exn : Type := { class : exn_class; message : str }.

Definition is_Exception (e : exn) : bool :=
  match class e with NotException => false | _ => true end.

Definition is_PlaywrightTimeout (e : exn) : bool :=
  match class e with PlaywrightTimeout => true | _ => false end.

(** What [main] can raise: an exception of the browser, or an [OSError]
    of its own file operations. *)
Inductive raised : Type :=
| Browser (e : exn)
| Os (e : error).

(** A JavaScript string: UTF-16 code units. *)
Definition jsstr := list N.

Inductive shot : Type := BeforeScroll | AfterScroll | ErrorState.

(** One run of the browser, as the script meets it: the outcome of every
    awaited call (loops index their calls by iteration), the page's [url]
    attribute and the clock readings. *)
Record browser : Type := {
  start : result exn unit;
  launch : result exn unit;
  new_context : result exn unit;
  new_page : result exn unit;
  goto : result exn unit;
  is_visible : nat -> result exn bool;
  click : nat -> result exn unit;
  popup_pause : nat -> result exn unit;
  wait_for_load_state : result exn unit;
  screenshot : shot -> result exn str;
  scroll_to : nat -> result exn unit;
  wait_for_timeout : nat -> result exn unit;
  scroll_height : nat -> result exn Z;
  title : result exn str;
  page_url : str;
  inner_texts : result exn (list (option jsstr));
  content : result exn str;
  close : result exn unit;
  stop : result exn unit;
  timestamp : string;
  utc_now : str
}.

Definition page_call {A} (c : call) (outcome : result exn A) : M world exn A :=
  (called c ;;; lift outcome)%py.

(** ** Configuration *)

Record config : Type := {
  url : str;
  timeout : Z;
  viewport : Z * Z;
  user_agent : str;
  max_scrolls : Z;
  scroll_pause_ms : Z;
  output_dir : string;
  screenshot_dir : string
}.

(** [CONFIG], for the value of the environment variable [TARGET_URL]. *)
Definition CONFIG (target_url : option str) : config := {|
  url := match target_url with
         | Some v => v
         | None => u "https://www.threads.com/?hl=ko"
         end;
  timeout := 60000;
  viewport := (1920, 1080);
  user_agent := u "Mozilla/5.0 (Windows NT 10.0; Win64; x64) AppleWebKit/537.36 (KHTML, like Gecko) Chrome/120.0.0.0 Safari/537.36";
  max_scrolls := 5;
  scroll_pause_ms := 2000;
  output_dir := "output";
  screenshot_dir := "screenshots"
|}.

(** ** [create_browser_context] *)

Definition create_browser_context (cfg : config) (b : browser) : M world exn unit :=
  (page_call Launch (launch b) ;;;
   page_call (NewContext (viewport cfg) (user_agent cfg)) (new_context b))%py.

(** ** [handle_popups] *)

Definition popup_selectors : list str := [
  q "button[aria-label=`Close`]";
  q "[data-testid=`close-button`]";
  q "button:has-text(`Not now`)";
  q "button:has-text(`Accept`)";
  q "button:has-text(`확인`)";
  q "[role=`dialog`] button"
].

(** The bare [except: pass] swallows whatever the attempt raises. *)
Definition handle_popup (b : browser) (i : nat) (selector : str) : M world exn unit :=
  try_except
    (visible <- page_call (IsVisible selector) (is_visible b i) ;;
     if visible : bool then
       page_call (Click selector) (click b i) ;;;
       page_call (WaitForTimeout 500) (popup_pause b i)
     else ret tt)%py
    (fun _ => ret tt).

Fixpoint handle_popups_from (b : browser) (i : nat) (selectors : list str) : M world exn unit :=
  match selectors with
  | [] => ret tt
  | selector :: rest =>
      (handle_popup b i selector ;;; handle_popups_from b (S i) rest)%py
  end.

Definition handle_popups (b : browser) : M world exn unit :=
  handle_popups_from b 0%nat popup_selectors.

(** ** [scroll_for_content] *)

(** The body of [for i in range(max_scrolls)], over the indices still to
    come. *)
Fixpoint scroll_loop (b : browser) (max_scrolls pause_ms : Z)
    (range : list nat) (prev_height : Z) : M world exn unit :=
  match range with
  | [] => ret tt
  | i :: rest =>
      (page_call ScrollTo (scroll_to b i) ;;;
       page_call (WaitForTimeout pause_ms) (wait_for_timeout b i) ;;;
       new_height <- page_call ScrollHeight (scroll_height b i) ;;
       if new_height =? prev_height then
         print (u "✓ Content loaded after " ++ int_str (Z.of_nat i + 1) ++ u " scrolls")
       else
         print (u "Scrolling... " ++ int_str (Z.of_nat i + 1) ++ u "/" ++ int_str max_scrolls) ;;;
         scroll_loop b max_scrolls pause_ms rest new_height)%py
  end.

Definition scroll_for_content (b : browser) (max_scrolls pause_ms : Z) : M world exn unit :=
  scroll_loop b max_scrolls pause_ms (seq 0 (Z.to_nat max_scrolls)) (-1).

(** ** [extract_content] *)

(** White space and line terminators, as [String.prototype.trim] removes
    them. *)
Definition js_space (c : N) : bool :=
  ((9 <=? c) && (c <=? 13) || (c =? 32) || (c =? 160) || (c =? 5760)
   || (8192 <=? c) && (c <=? 8202) || (c =? 8232) || (c =? 8233)
   || (c =? 8239) || (c =? 8287) || (c =? 12288) || (c =? 65279))%N.

Fixpoint trim_start (s : jsstr) : jsstr :=
  match s with
  | c :: rest => if js_space c then trim_start rest else s
  | [] => []
  end.

Definition js_trim (s : jsstr) : jsstr := rev (trim_start (rev (trim_start s))).

(** [text.substring(0, n)] and [posts.slice(0, n)]. *)
Definition substring0 (n : nat) (s : jsstr) : jsstr := firstn n s.
Definition slice0 {A} (n : nat) (l : list A) : list A := firstn n l.

(** The callback of [forEach]: what one element pushes onto [posts].
    [innerText?.trim()] is undefined when the element has no [innerText]. *)
Definition push_post (inner_text : option jsstr) : list jsstr :=
  match inner_text with
  | None => []
  | Some t =>
      let text := js_trim t in
      if negb (Nat.eqb (length text) 0) && (10 <? length text)%nat
      then [substring0 500 text]
      else []
  end.

(** The script evaluated in the page, on the [innerText] of the elements
    that match [[data-pressable-container]], in document order. *)
Definition posts_script (elements : list (option jsstr)) : list jsstr :=
  slice0 50 (flat_map push_post elements).

(** A JavaScript string as the Python [str] the caller receives: a
    surrogate pair becomes one code point. *)
Fixpoint of_utf16 (s : jsstr) : str :=
  match s with
  | hi :: ((lo :: rest) as tl) =>
      if ((55296 <=? hi) && (hi <? 56320) && (56320 <=? lo) && (lo <? 57344))%N
      then (65536 + (hi - 55296) * 1024 + (lo - 56320))%N :: of_utf16 rest
      else hi :: of_utf16 tl
  | _ => s
  end.

Definition len {A} (l : list A) : Z := Z.of_nat (length l).

Definition extract_content (b : browser) : M world exn dict :=
  (title <- page_call Title (title b) ;;
   let url := page_url b in
   posts <- page_call QueryPosts (inner_texts b) ;;
   let content := map of_utf16 (posts_script posts) in
   html <- page_call Content (Scraper.content b) ;;
   ret [ (u "url", JStr url);
         (u "title", JStr title);
         (u "scraped_at", JStr (utc_now b));
         (u "posts_count", JInt (len content));
         (u "posts", JList (map JStr content));
         (u "html_length", JInt (len html)) ])%py.

(** ** [main] *)

(** [page.screenshot(path=file)]: the browser writes the image. *)
Definition take_screenshot (b : browser) (s : shot) (file : string) : M world exn unit :=
  (png <- page_call (Screenshot file) (screenshot b s) ;;
   modify (with_fs (insert file (File png))))%py.

(** The body of the [try]. *)
Definition attempt (cfg : config) (b : browser) : M world exn dict :=
  (page_call (Goto (url cfg) (timeout cfg)) (goto b) ;;;
   handle_popups b ;;;
   try_except
     (page_call (WaitForLoadState 15000) (wait_for_load_state b))
     (fun e =>
        if is_PlaywrightTimeout e
        then print (u "Network idle timeout - continuing with available content")
        else raise e) ;;;
   take_screenshot b BeforeScroll
     (path_join (screenshot_dir cfg) ("before_scroll_" +:+ timestamp b +:+ ".png")) ;;;
   scroll_for_content b (max_scrolls cfg) (scroll_pause_ms cfg) ;;;
   take_screenshot b AfterScroll
     (path_join (screenshot_dir cfg) ("after_scroll_" +:+ timestamp b +:+ ".png")) ;;;
   data <- extract_content b ;;
   let data := dict_set (u "status") (JStr (u "success")) data in
   print (u "✓ Extracted "
            ++ match dict_get (u "posts_count") data with
               | Some (JInt n) => int_str n
               | _ => []
               end
            ++ u " posts") ;;;
   ret data)%py.

(** The [except Exception as e] clause; what is not an [Exception] passes
    through. *)
Definition on_exception (cfg : config) (b : browser) (e : exn) : M world exn dict :=
  if is_Exception e then
    (print (u "✗ Error: " ++ message e) ;;;
     let data := [ (u "url", JStr (url cfg));
                   (u "scraped_at", JStr (utc_now b));
                   (u "status", JStr (u "error"));
                   (u "error", JStr (message e)) ] in
     try_except
       (take_screenshot b ErrorState
          (path_join (screenshot_dir cfg) ("error_" +:+ timestamp b +:+ ".png")))
       (fun _ => ret tt) ;;;
     ret data)%py
  else raise e.

(** The [async with async_playwright()] block: the record of the run. *)
Definition crawl (cfg : config) (b : browser) : M world exn dict :=
  (page_call Start (start b) ;;;
   try_finally
     (create_browser_context cfg b ;;;
      page_call NewPage (new_page b) ;;;
      print (u "Navigating to: " ++ url cfg) ;;;
      try_finally
        (try_except (attempt cfg b) (on_exception cfg b))
        (page_call Close (close b)))
     (page_call Stop (stop b)))%py.

Definition main (target_url : option str) (b : browser) : M world raised dict :=
  let cfg := CONFIG target_url in
  (map_error Os (mkdir_exist_ok (output_dir cfg)) ;;;
   map_error Os (mkdir_exist_ok (screenshot_dir cfg)) ;;;
   data <- map_error Browser (crawl cfg b) ;;
   let output_file := path_join (output_dir cfg) ("threads_" +:+ timestamp b +:+ ".json") in
   map_error Os (json_dump output_file (JDict data)) ;;;
   let latest_file := path_join (output_dir cfg) "latest.json" in
   map_error Os (json_dump latest_file (JDict data)) ;;;
   print (u "✓ Results saved to: " ++ u output_file) ;;;
   ret data)%py.



(** ** Counting what the scroll loop did *)

Definition is_scroll (c : call) : bool :=
  match c with ScrollTo => true | _ => false end.

Definition is_measurement (c : call) : bool :=
  match c with ScrollHeight => true | _ => false end.

(** The scrolls performed and the heights measured so far.  Every pass of
    the loop starts with one scroll. *)
Definition scrolls (w : world) : nat := List.length (filter is_scroll (calls w)).
Definition measurements (w : world) : nat := List.length (filter is_measurement (calls w)).

(** *** Sample runs *)

(** A world with no files, no calls and nothing printed. *)
Definition empty_world : world := {| fs := ∅; calls := []; stdout := [] |}.

(** A run in which navigation and the title query end as given and every
    other call succeeds: no popup shows, the page measures [heights], has
    the given [innerText]s and is found at [final_url]. *)
Definition sample (goto_outcome : result exn unit) (title_outcome : result exn str)
    (heights : list Z) (texts : list (option jsstr)) (final_url : str) : browser := {|
  start := Ok tt;
  launch := Ok tt;
  new_context := Ok tt;
  new_page := Ok tt;
  goto := goto_outcome;
  is_visible := fun _ => Ok false;
  click := fun _ => Ok tt;
  popup_pause := fun _ => Ok tt;
  wait_for_load_state := Ok tt;
  screenshot := fun _ => Ok [];
  scroll_to := fun _ => Ok tt;
  wait_for_timeout := fun _ => Ok tt;
  scroll_height := fun i => Ok (nth i heights 0);
  title := title_outcome;
  page_url := final_url;
  inner_texts := Ok texts;
  content := Ok (u "<html><body></body></html>");
  close := Ok tt;
  stop := Ok tt;
  timestamp := "20240101_000000";
  utc_now := u "2024-01-01T00:00:00+00:00"
|}.

(** A run in which every call succeeds. *)
Definition calm (heights : list Z) (texts : list (option jsstr)) (final_url : str) : browser :=
  sample (Ok tt) (Ok (u "Threads")) heights texts final_url.

End Scraper.

(* ===================================================================== *)
(** * Jinja2, as far as the report templates go *)
(* ===================================================================== *)

Module Jinja.
Import Py.

(** A value at run time: one taken from the context or computed from it,
    or jinja2's [Undefined], which a missing name evaluates to. *)
Inductive value : Type :=
| Val (v : json)
| Undefined.

Inductive filter : Type :=
| upper
| length
| round (precision : Z).

(** The expressions of the two templates.  Their binary operators always
    have a literal on the right, which the constructor carries. *)
Inductive expr : Type :=
| Name (x : str)                      (* x *)
| LoopIndex                           (* loop.index *)
| Slice (e : expr) (stop : nat)       (* e[:stop] *)
| Filter (e : expr) (f : filter)      (* e | f *)
| DivBy (e : expr) (n : Z)            (* e / n *)
| Minus (e : expr) (n : Z)            (* e - n *)
| EqualsStr (e : expr) (s : str)      (* e == 's' *)
| Greater (e : expr) (n : Z).         (* e > n *)

Inductive node : Type :=
| Data (text : str)                                  (* text outside tags *)
| Output (e : expr)                                  (* {{ e }} *)
| If (test : expr) (body orelse : list node)         (* {% if %} {% else %} {% endif %} *)
| For (target : str) (iter : expr) (body : list node).   (* {% for %} {% endfor %} *)

Definition template := list node.

(** Where names are looked up: the loop variables in scope (innermost
    first), then the variables passed to [render]; and the iteration count
    of the innermost loop. *)
Record frame : Type := {
  locals : dict;
  context : dict;
  loop_index : option Z
}.

Section Render.
Context {unicode : Unicode}.

Definition resolve (fr : frame) (x : str) : value :=
  match dict_get x (locals fr) with
  | Some v => Val v
  | None =>
      match dict_get x (context fr) with
      | Some v => Val v
      | None => Undefined
      end
  end.

(** [str(v)]; [Undefined] prints as the empty string. *)
Definition to_str (v : value) : str :=
  match v with
  | Val j => py_str j
  | Undefined => []
  end.

(** Truth of a value in [{% if %}]. *)
Definition truth (v : value) : bool :=
  match v with
  | Undefined => false
  | Val JNull => false
  | Val (JBool b) => b
  | Val (JInt n) => negb (n =? 0)
  | Val (JFloat (S754_zero _)) => false
  | Val (JFloat _) => true
  | Val (JStr s) => negb (Nat.eqb (List.length s) 0)
  | Val (JList l) => negb (Nat.eqb (List.length l) 0)
  | Val (JDict d) => negb (Nat.eqb (List.length d) 0)
  end.

Definition int_of_bool (b : bool) : Z := if b then 1 else 0.

(** [v[:stop]]: Python's own slicing, which strings and lists have (a
    dict raises as well: [TypeError] up to Python 3.11, [KeyError] since). *)
Definition slice (v : value) (stop : nat) : result error value :=
  match v with
  | Val (JStr s) => Ok (Val (JStr (firstn stop s)))
  | Val (JList l) => Ok (Val (JList (firstn stop l)))
  | Val _ => Raise TypeError
  | Undefined => Raise UndefinedError
  end.

(** The filters: [upper] is [str(v).upper()], [length] is [len],
    [round(p)] is [round(v, p)]. *)
Definition apply_filter (f : filter) (v : value) : result error value :=
  match f with
  | upper => Ok (Val (JStr (Py.upper (to_str v))))
  | length =>
      match v with
      | Val (JStr s) => Ok (Val (JInt (Z.of_nat (List.length s))))
      | Val (JList l) => Ok (Val (JInt (Z.of_nat (List.length l))))
      | Val (JDict d) => Ok (Val (JInt (Z.of_nat (List.length d))))
      | Val _ => Raise TypeError
      | Undefined => Ok (Val (JInt 0))
      end
  | round precision =>
      match v with
      | Val (JFloat x) =>
          match float_round x precision with
          | Ok y => Ok (Val (JFloat y))
          | Raise e => Raise e
          end
      | Val (JInt n) => Ok (Val (JInt (int_round n precision)))
      | Val (JBool b) => Ok (Val (JInt (int_round (int_of_bool b) precision)))
      | _ => Raise TypeError
      end
  end.

Definition float_value (r : result error float) : result error value :=
  match r with
  | Ok x => Ok (Val (JFloat x))
  | Raise e => Raise e
  end.

(** [v / n]: true division. *)
Definition div_by (v : value) (n : Z) : result error value :=
  match v with
  | Val (JInt a) => float_value (int_true_div a n)
  | Val (JBool b) => float_value (int_true_div (int_of_bool b) n)
  | Val (JFloat x) => float_value (float_div_int x n)
  | Val _ => Raise TypeError
  | Undefined => Raise UndefinedError
  end.

(** [v - n]. *)
Definition minus (v : value) (n : Z) : result error value :=
  match v with
  | Val (JInt a) => Ok (Val (JInt (a - n)))
  | Val (JBool b) => Ok (Val (JInt (int_of_bool b - n)))
  | Val (JFloat x) => float_value (float_sub_int x n)
  | Val _ => Raise TypeError
  | Undefined => Raise UndefinedError
  end.

(** [v == 's']: only an equal string is equal to a string. *)
Definition equals_str (v : value) (s : str) : bool :=
  match v with
  | Val (JStr t) => str_eqb t s
  | _ => false
  end.

(** [v > n]: numbers compare by value, anything else does not compare
    with an int. *)
Definition greater (v : value) (n : Z) : result error bool :=
  match v with
  | Val (JInt a) => Ok (n <? a)
  | Val (JBool b) => Ok (n <? int_of_bool b)
  | Val (JFloat x) =>
      Ok match float_cmp_int x n with Some Gt => true | _ => false end
  | Val _ => Raise TypeError
  | Undefined => Raise UndefinedError
  end.

Fixpoint eval (fr : frame) (e : expr) : result error value :=
  match e with
  | Name x => Ok (resolve fr x)
  | LoopIndex =>
      match loop_index fr with
      | Some i => Ok (Val (JInt i))
      | None => Raise UndefinedError
      end
  | Slice e stop =>
      match eval fr e with
      | Ok v => slice v stop
      | Raise err => Raise err
      end
  | Filter e f =>
      match eval fr e with
      | Ok v => apply_filter f v
      | Raise err => Raise err
      end
  | DivBy e n =>
      match eval fr e with
      | Ok v => div_by v n
      | Raise err => Raise err
      end
  | Minus e n =>
      match eval fr e with
      | Ok v => minus v n
      | Raise err => Raise err
      end
  | EqualsStr e s =>
      match eval fr e with
      | Ok v => Ok (Val (JBool (equals_str v s)))
      | Raise err => Raise err
      end
  | Greater e n =>
      match eval fr e with
      | Ok v =>
          match greater v n with
          | Ok b => Ok (Val (JBool b))
          | Raise err => Raise err
          end
      | Raise err => Raise err
      end
  end.

(** What a [for] loop runs over: the items of a list, the characters of a
    string, the keys of a dict, nothing for [Undefined]. *)
Definition items_of (v : value) : result error (list json) :=
  match v with
  | Val (JList l) => Ok l
  | Val (JStr s) => Ok (map (fun c => JStr [c]) s)
  | Val (JDict d) => Ok (map (fun kv => JStr (fst kv)) d)
  | Val _ => Raise TypeError
  | Undefined => Ok []
  end.

(** The outputs of a sequence of steps, concatenated; the first error
    ends the rendering. *)
Fixpoint concat_map {A} (f : A -> result error str) (l : list A) : result error str :=
  match l with
  | [] => Ok []
  | x :: rest =>
      match f x with
      | Raise err => Raise err
      | Ok out =>
          match concat_map f rest with
          | Raise err => Raise err
          | Ok outs => Ok (out ++ outs)
          end
      end
  end.

(** The frame of the [i]-th pass (from 1) of a loop over [item]. *)
Definition enter_loop (fr : frame) (target : str) (i_item : Z * json) : frame :=
  {| locals := (target, snd i_item) :: locals fr;
     context := context fr;
     loop_index := Some (fst i_item) |}.

Definition numbered (l : list json) : list (Z * json) :=
  combine (map (fun i => Z.of_nat i) (seq 1 (List.length l))) l.

Fixpoint render_node (n : node) (fr : frame) {struct n} : result error str :=
  match n with
  | Data text => Ok text
  | Output e =>
      match eval fr e with
      | Ok v => Ok (to_str v)
      | Raise err => Raise err
      end
  | If test body orelse =>
      match eval fr test with
      | Ok v =>
          if truth v
          then concat_map (fun n' => render_node n' fr) body
          else concat_map (fun n' => render_node n' fr) orelse
      | Raise err => Raise err
      end
  | For target iter body =>
      match eval fr iter with
      | Ok v =>
          match items_of v with
          | Ok l =>
              concat_map
                (fun i_item =>
                   concat_map (fun n' => render_node n' (enter_loop fr target i_item)) body)
                (numbered l)
          | Raise err => Raise err
          end
      | Raise err => Raise err
      end
  end.

(** [Template(t).render] called with the entries of [data] as keyword
    arguments.  The call binds [self] itself, so a keyword of that name is
    a [TypeError]. *)
Definition render (t : template) (data : dict) : result error str :=
  match dict_get (u "self") data with
  | Some _ => Raise TypeError
  | None =>
      concat_map
        (fun n => render_node n {| locals := []; context := data; loop_index := None |})
        t
  end.

End Render.
End Jinja.

(* ===================================================================== *)
(** * The Reporter: [scripts/generate_report.py] *)
(* ===================================================================== *)

Module Report.
Import Py Jinja.

Definition REPORTS_DIR : string := "reports".
Definition OUTPUT_DIR : string := "output".

(** The two templates, parsed: jinja2 drops the one newline that ends the
    source text and keeps all other white space. *)
Definition HTML_TEMPLATE : template := [
  Data (q "
<!DOCTYPE html>
<html lang=`ko`>
<head>
    <meta charset=`UTF-8`>
    <meta name=`viewport` content=`width=device-width, initial-scale=1.0`>
    <title>Threads Crawl Report - ");
  Output (Name (u "date"));
  Data (q "</title>
    <style>
        body { font-family: -apple-system, BlinkMacSystemFont, 'Segoe UI', Roboto, sans-serif; max-width: 900px; margin: 0 auto; padding: 20px; background: #f5f5f5; }
        .header { background: linear-gradient(135deg, #667eea 0%, #764ba2 100%); color: white; padding: 30px; border-radius: 12px; margin-bottom: 20px; }
        .stats { display: grid; grid-template-columns: repeat(auto-fit, minmax(150px, 1fr)); gap: 15px; margin-bottom: 20px; }
        .stat-card { background: white; padding: 20px; border-radius: 8px; text-align: center; box-shadow: 0 2px 4px rgba(0,0,0,0.1); }
        .stat-value { font-size: 2em; font-weight: bold; color: #667eea; }
        .stat-label { color: #666; margin-top: 5px; }
        .posts { background: white; border-radius: 8px; padding: 20px; }
        .post { border-bottom: 1px solid #eee; padding: 15px 0; }
        .post:last-child { border-bottom: none; }
        .status-success { color: #10b981; }
        .status-error { color: #ef4444; }
        .timestamp { color: #888; font-size: 0.9em; }
    </style>
</head>
<body>
    <div class=`header`>
        <h1>📊 Threads Crawl Report</h1>
        <p class=`timestamp`>Generated: ");
  Output (Name (u "scraped_at"));
  Data (q "</p>
    </div>
    
    <div class=`stats`>
        <div class=`stat-card`>
            <div class=`stat-value ");
  If (EqualsStr (Name (u "status")) (u "success"))
      [Data (u "status-success")]
      [Data (u "status-error")];
  Data (q "`>
                ");
  Output (Filter (Name (u "status")) upper);
  Data (q "
            </div>
            <div class=`stat-label`>Status</div>
        </div>
        <div class=`stat-card`>
            <div class=`stat-value`>");
  Output (Name (u "posts_count"));
  Data (q "</div>
            <div class=`stat-label`>Posts Captured</div>
        </div>
        <div class=`stat-card`>
            <div class=`stat-value`>");
  Output (Filter (DivBy (Name (u "html_length")) 1024) (round 1));
  Data (q "KB</div>
            <div class=`stat-label`>Page Size</div>
        </div>
    </div>
    
    <div class=`posts`>
        <h2>📝 Captured Content</h2>
        ");
  For (u "post") (Slice (Name (u "posts")) 20)
      [Data (q "
        <div class=`post`>"); Output (Slice (Name (u "post")) 300); If (Greater (Filter (Name (u "post")) length) 300)
        [Data (u "...")]
        []; Data (u "</div>
        ")];
  Data (u "
        ");
  If (Greater (Filter (Name (u "posts")) length) 20)
      [Data (q "
        <p style=`color: #888; text-align: center;`>... and "); Output (Minus (Filter (Name (u "posts")) length) 20); Data (u " more posts</p>
        ")]
      [];
  Data (u "
    </div>
</body>
</html>")
].

Definition MARKDOWN_TEMPLATE : template := [
  Data (u "# Threads Crawl Report

**Date:** ");
  Output (Name (u "date"));
  Data (u "  
**URL:** ");
  Output (Name (u "url"));
  Data (u "  
**Status:** ");
  Output (Name (u "status"));
  Data (u "

## Summary

| Metric | Value |
|--------|-------|
| Posts Captured | ");
  Output (Name (u "posts_count"));
  Data (u " |
| Page Size | ");
  Output (Filter (DivBy (Name (u "html_length")) 1024) (round 1));
  Data (u " KB |
| Scraped At | ");
  Output (Name (u "scraped_at"));
  Data (u " |

## Sample Content

");
  For (u "post") (Slice (Name (u "posts")) 10)
      [Data (u "
### Post "); Output LoopIndex; Data (u "
"); Output (Slice (Name (u "post")) 200); If (Greater (Filter (Name (u "post")) length) 200)
        [Data (u "...")]
        []; Data (u "

")];
  Data (u "

---
*Report generated automatically by GitHub Actions*")
].

Section Reporter.
Context {unicode : Unicode}.

(** [json.load(f)] on the text of the file, from Python's library. *)
Variable json_load : str -> result error json.

(** [datetime.now().strftime('%Y-%m-%d %H:%M')] when the report is made. *)
Variable now : str.

(** "Add computed fields": the date, and a default for each absent field. *)
Definition with_defaults (data : dict) : dict :=
  let data := dict_set (u "date") (JStr now) data in
  let data := setdefault (u "posts") (JList []) data in
  let data := setdefault (u "posts_count") (JInt 0) data in
  let data := setdefault (u "html_length") (JInt 0) data in
  setdefault (u "status") (JStr (u "unknown")) data.

Definition generate_reports : M world error unit :=
  (mkdir_exist_ok REPORTS_DIR ;;;
   let latest_file := path_join OUTPUT_DIR "latest.json" in
   present <- path_exists latest_file ;;
   if negb present then
     print (u "No data file found")
   else
     text <- read_text latest_file ;;
     loaded <- lift (json_load text) ;;
     match loaded with
     | JDict data =>
         let data := with_defaults data in
         html_content <- lift (render HTML_TEMPLATE data) ;;
         let html_file := path_join REPORTS_DIR "index.html" in
         write_text html_file html_content ;;;
         print (u "✓ Generated: " ++ u html_file) ;;;
         md_content <- lift (render MARKDOWN_TEMPLATE data) ;;
         let md_file := path_join REPORTS_DIR "report.md" in
         write_text md_file md_content ;;;
         print (u "✓ Generated: " ++ u md_file)
     | _ => raise TypeError
     end)%py.

End Reporter.
End Report.

(* ===================================================================== *)
(** * Facts about floats *)
(* ===================================================================== *)

Module FloatFacts.
Import Py.

(** ** Binary digits *)

Lemma digits2_pos_size p : digits2_pos p = Pos.size p.
Proof. induction p; cbn; congruence. Qed.

Lemma Zdigits2_nonneg z : 0 <= Zdigits2 z.
Proof. destruct z; cbn; lia. Qed.

Lemma Zdigits2_lt z : 0 <= z -> z < 2 ^ Zdigits2 z.
Proof.
  destruct z as [|p|p]; cbn [Zdigits2]; intros Hz; [reflexivity| |lia].
  rewrite digits2_pos_size. pose proof (Pos.size_gt p) as H.
  apply Pos2Z.pos_lt_pos in H. rewrite Pos2Z.inj_pow in H. exact H.
Qed.

Lemma Zdigits2_le z k : 0 <= z -> 0 <= k -> z < 2 ^ k -> Zdigits2 z <= k.
Proof.
  destruct z as [|p|p]; cbn [Zdigits2]; intros Hz Hk Hlt; [exact Hk| |lia].
  rewrite digits2_pos_size. pose proof (Pos.size_le p) as H.
  apply Pos2Z.pos_le_pos in H. rewrite Pos2Z.inj_pow in H.
  assert (Hp : 2 ^ Z.pos (Pos.size p) < 2 ^ (k + 1)).
  { rewrite Z.pow_add_r, Z.pow_1_r by lia. lia. }
  apply Z.pow_lt_mono_r_iff in Hp; lia.
Qed.

(** ** Shifting right *)

Lemma shr_1_m mrs : 0 <= shr_m mrs -> shr_m (shr_1 mrs) = shr_m mrs / 2.
Proof.
  destruct mrs as [m r s]. cbn [shr_m]. intros Hm.
  rewrite <- Z.div2_div.
  destruct m as [|[p|p|]|p]; try reflexivity; lia.
Qed.

Lemma iter_shr_m p : forall mrs,
  0 <= shr_m mrs -> shr_m (SpecFloat.iter_pos shr_1 p mrs) = shr_m mrs / 2 ^ Z.pos p.
Proof.
  induction p as [p IH|p IH|]; intros mrs Hm; cbn [SpecFloat.iter_pos].
  - assert (H1 : 0 <= shr_m (shr_1 mrs)).
    { rewrite shr_1_m by exact Hm. apply Z.div_pos; lia. }
    assert (H2 : 0 <= shr_m (SpecFloat.iter_pos shr_1 p (shr_1 mrs))).
    { rewrite IH by exact H1. apply Z.div_pos; lia. }
    rewrite IH, IH, shr_1_m by assumption.
    rewrite !Z.div_div by lia. f_equal.
    rewrite Pos2Z.inj_xI, Z.pow_add_r, Z.pow_mul_r by lia.
    change (2 ^ 2) with 4. change (2 ^ 1) with 2.
    rewrite <- Z.pow_twice_r. rewrite Z.pow_mul_r by lia. change (2 ^ 2) with 4. lia.
  - assert (H2 : 0 <= shr_m (SpecFloat.iter_pos shr_1 p mrs)).
    { rewrite IH by exact Hm. apply Z.div_pos; lia. }
    rewrite IH, IH by assumption.
    rewrite !Z.div_div by lia. f_equal.
    rewrite Pos2Z.inj_xO. rewrite <- Z.pow_twice_r. reflexivity.
  - rewrite shr_1_m by exact Hm. reflexivity.
Qed.

Lemma shr_record_of_loc_m m l : shr_m (shr_record_of_loc m l) = m.
Proof. destruct l as [|[]]; reflexivity. Qed.

(** [shr_fexp] moves to the exponent the format asks for and divides the
    mantissa accordingly. *)
Lemma shr_fexp_spec m e l :
  0 <= m ->
  snd (shr_fexp 53 1024 m e l) = Z.max e (fexp 53 1024 (Zdigits2 m + e))
  /\ shr_m (fst (shr_fexp 53 1024 m e l))
     = m / 2 ^ (snd (shr_fexp 53 1024 m e l) - e).
Proof.
  intros Hm. unfold shr_fexp, shr.
  destruct (fexp 53 1024 (Zdigits2 m + e) - e) as [|p|p] eqn:Hn; cbn [fst snd].
  - split; [lia|]. rewrite Z.sub_diag, Z.pow_0_r, Z.div_1_r.
    apply shr_record_of_loc_m.
  - split; [lia|]. rewrite iter_shr_m by (rewrite shr_record_of_loc_m; exact Hm).
    rewrite shr_record_of_loc_m. f_equal. f_equal. lia.
  - split; [lia|]. rewrite Z.sub_diag, Z.pow_0_r, Z.div_1_r.
    apply shr_record_of_loc_m.
Qed.

Lemma Zdigits2_div m k :
  0 <= m -> 0 <= k -> Zdigits2 (m / 2 ^ k) <= Z.max (Zdigits2 m - k) 0.
Proof.
  intros Hm Hk. pose proof (Zdigits2_lt m Hm) as Hlt.
  pose proof (Zdigits2_nonneg m) as Hd.
  assert (Hpk : 0 < 2 ^ k) by (apply Z.pow_pos_nonneg; lia).
  apply Zdigits2_le; [apply Z.div_pos; lia | lia |].
  apply Z.div_lt_upper_bound; [exact Hpk|].
  rewrite <- Z.pow_add_r by lia.
  eapply Z.lt_le_trans; [exact Hlt|].
  apply Z.pow_le_mono_r; lia.
Qed.

Lemma Zdigits2_succ m k : 0 <= m -> 0 <= k -> Zdigits2 m <= k -> Zdigits2 (m + 1) <= k + 1.
Proof.
  intros Hm Hk Hd. apply Zdigits2_le; [lia | lia |].
  pose proof (Zdigits2_lt m Hm) as Hlt.
  assert (2 ^ Zdigits2 m <= 2 ^ k) by (apply Z.pow_le_mono_r; lia).
  rewrite Z.pow_add_r, Z.pow_1_r by lia. lia.
Qed.

Lemma Zdigits2_mono a b : 0 <= a <= b -> Zdigits2 a <= Zdigits2 b.
Proof.
  intros [Ha Hab]. apply Zdigits2_le; [lia | apply Zdigits2_nonneg |].
  pose proof (Zdigits2_lt b ltac:(lia)). lia.
Qed.

Lemma round_nearest_even_range m l :
  m <= round_nearest_even m l <= m + 1.
Proof.
  unfold round_nearest_even. destruct l as [|[]]; try destruct (Z.even m); lia.
Qed.

(** Rounding a mantissa below [2^1023] does not overflow, and the result
    has at most one more digit in front. *)
Lemma binary_round_aux_bound sx mx ex lx :
  0 <= mx -> ex <= 971 -> Zdigits2 mx + ex <= 1023 ->
  match binary_round_aux 53 1024 sx mx ex lx with
  | S754_finite _ m e =>
      Z.pos (digits2_pos m) + e <= Z.max (Zdigits2 mx + ex) (Z.max ex (-1074)) + 1
  | S754_zero _ => True
  | _ => False
  end.
Proof.
  intros Hmx Hex Hd. unfold binary_round_aux.
  pose proof (shr_fexp_spec mx ex lx Hmx) as [He1 Hm1].
  destruct (shr_fexp 53 1024 mx ex lx) as [mrs1 e1]. cbn [fst snd] in He1, Hm1.
  pose proof (round_nearest_even_range (shr_m mrs1) (loc_of_shr_record mrs1)) as Hr.
  set (m1r := round_nearest_even (shr_m mrs1) (loc_of_shr_record mrs1)) in *.
  pose proof (Zdigits2_nonneg mx) as Hdn.
  assert (He1x : 0 <= e1 - ex) by lia.
  assert (Hm1n : 0 <= shr_m mrs1).
  { rewrite Hm1. apply Z.div_pos; [lia | apply Z.pow_pos_nonneg; lia]. }
  assert (Hd1 : Zdigits2 (shr_m mrs1) <= Z.max (Zdigits2 mx - (e1 - ex)) 0).
  { rewrite Hm1. apply Zdigits2_div; lia. }
  assert (Hd1r : Zdigits2 m1r <= Z.max (Zdigits2 mx - (e1 - ex)) 0 + 1).
  { etransitivity; [apply (Zdigits2_mono m1r (shr_m mrs1 + 1)); lia|].
    apply Zdigits2_succ; lia. }
  assert (Hm1r : 0 <= m1r) by lia.
  pose proof (shr_fexp_spec m1r e1 loc_Exact Hm1r) as [He2 Hm2].
  destruct (shr_fexp 53 1024 m1r e1 loc_Exact) as [mrs2 e2]. cbn [fst snd] in He2, Hm2.
  unfold fexp, emin in He1, He2.
  assert (He2x : 0 <= e2 - e1) by lia.
  destruct (shr_m mrs2) as [|m|m] eqn:Hmm.
  - exact I.
  - assert (He2max : e2 <= 971) by lia.
    replace (e2 <=? 1024 - 53) with true by (symmetry; apply Z.leb_le; lia).
    assert (Hd2 : Zdigits2 (Z.pos m) <= Z.max (Zdigits2 m1r - (e2 - e1)) 0).
    { rewrite Hm2. apply Zdigits2_div; lia. }
    cbn [Zdigits2] in Hd2. lia.
  - assert (0 <= m1r / 2 ^ (e2 - e1))
      by (apply Z.div_pos; [lia | apply Z.pow_pos_nonneg; lia]).
    lia.
Qed.

Lemma SFdiv_core_binary_bound a b :
  0 <= fst (fst (SFdiv_core_binary 53 1024 (Z.pos a) 0 (Z.pos b) 0))
  /\ snd (fst (SFdiv_core_binary 53 1024 (Z.pos a) 0 (Z.pos b) 0)) <= 0
  /\ Zdigits2 (fst (fst (SFdiv_core_binary 53 1024 (Z.pos a) 0 (Z.pos b) 0)))
     + snd (fst (SFdiv_core_binary 53 1024 (Z.pos a) 0 (Z.pos b) 0))
     <= Zdigits2 (Z.pos a).
Proof.
  unfold SFdiv_core_binary. lazy zeta.
  set (e' := Z.min (fexp 53 1024 _) _).
  assert (He' : e' <= 0) by (unfold e'; lia).
  set (m' := match 0 - 0 - e' with 0 => _ | Z.pos _ => _ | Z.neg _ => _ end).
  assert (Hm' : m' = Z.pos a * 2 ^ (- e')).
  { unfold m'. destruct (0 - 0 - e') as [|p|p] eqn:Hs.
    - replace (- e') with 0 by lia. rewrite Z.pow_0_r. lia.
    - rewrite Z.shiftl_mul_pow2 by lia. f_equal. f_equal. lia.
    - lia. }
  clearbody m'.
  pose proof (Z_div_mod m' (Z.pos b) ltac:(lia)) as Hdiv.
  change IntDef.Z.div_eucl with Z.div_eucl.
  destruct (Z.div_eucl m' (Z.pos b)) as [qt r]. destruct Hdiv as [Hqr Hr].
  cbn [fst snd].
  assert (Hpow : 0 < 2 ^ (- e')) by (apply Z.pow_pos_nonneg; lia).
  assert (Hqn : 0 <= qt) by nia.
  assert (Hqm : qt <= m') by nia.
  split; [exact Hqn|]. split; [exact He'|].
  pose proof (Zdigits2_nonneg (Z.pos a)).
  assert (Hdq : Zdigits2 qt <= Zdigits2 (Z.pos a) - e').
  { apply Zdigits2_le; [lia | lia |].
    eapply Z.le_lt_trans; [exact Hqm|]. rewrite Hm'.
    replace (Zdigits2 (Z.pos a) - e') with (Zdigits2 (Z.pos a) + - e') by lia.
    pose proof (Zdigits2_lt (Z.pos a) ltac:(lia)) as Hlt.
    rewrite Z.pow_add_r by lia. nia. }
  lia.
Qed.

(** The quotient of two positive integers, the first below [2^1023],
    is a finite float with at most one digit more than the dividend. *)
Lemma SFdiv_ints_bound s1 s2 a b :
  Zdigits2 (Z.pos a) <= 1023 ->
  match SFdiv 53 1024 (S754_finite s1 a 0) (S754_finite s2 b 0) with
  | S754_finite _ m e => Z.pos (digits2_pos m) + e <= Zdigits2 (Z.pos a) + 1
  | S754_zero _ => True
  | _ => False
  end.
Proof.
  intros Ha. cbn [SFdiv].
  pose proof (SFdiv_core_binary_bound a b) as (Hqn & He' & Hd).
  destruct (SFdiv_core_binary 53 1024 (Z.pos a) 0 (Z.pos b) 0) as [[qt e'] l].
  cbn [fst snd] in *.
  assert (He971 : e' <= 971) by lia.
  assert (Hd1023 : Zdigits2 qt + e' <= 1023) by lia.
  pose proof (binary_round_aux_bound (xorb s1 s2) qt e' l Hqn He971 Hd1023) as Hb.
  destruct (binary_round_aux 53 1024 (xorb s1 s2) qt e' l); try exact Hb.
  assert (0 < Zdigits2 (Z.pos a)) by (cbn; lia). lia.
Qed.

(** A float that is zero or finite with [m * 2^e < 2^k]. *)
Definition below (k : Z) (x : float) : Prop :=
  match x with
  | S754_zero _ => True
  | S754_finite _ m e => Z.pos (digits2_pos m) + e <= k
  | _ => False
  end.

(** True division of an int below [2^k] in magnitude does not overflow. *)
Lemma int_true_div_below n d k :
  d <> 0 -> 0 <= k <= 1023 -> Z.abs n < 2 ^ k ->
  exists x, int_true_div n d = Ok x /\ below (k + 1) x.
Proof.
  intros Hd Hk Hn. unfold int_true_div.
  destruct (Z.eq_dec n 0) as [->|Hn0].
  - destruct d; [lia| |]; eexists; split; reflexivity || exact I.
  - assert (Hdig : Zdigits2 (Z.pos (Z.to_pos (Z.abs n))) <= k).
    { apply Zdigits2_le; [lia | lia |]. rewrite Z2Pos.id by lia. exact Hn. }
    pose proof (SFdiv_ints_bound (n <? 0) (d <? 0) (Z.to_pos (Z.abs n))
                  (Z.to_pos (Z.abs d)) ltac:(lia)) as Hb.
    destruct n as [|n|n], d as [|d|d]; try lia;
      match goal with
      | |- context [SFdiv ?p ?e ?x ?y] =>
          destruct (SFdiv p e x y) as [z|z| |z m e0]; try contradiction;
          eexists; (split; [reflexivity|]); cbn [below]; try exact I; lia
      end.
Qed.

Lemma round_half_even_range num den :
  0 <= num -> 0 < den ->
  0 <= round_half_even num den <= num / den + 1.
Proof.
  intros Hnum Hden. unfold round_half_even.
  assert (0 <= num / den) by (apply Z.div_pos; lia).
  destruct (2 * (num mod den) ?= den); try destruct (Z.even (num / den)); lia.
Qed.

(** Rounding to one decimal a float below [2^k] does not overflow. *)
Lemma float_round_below x k :
  0 <= k <= 1018 -> below k x -> exists y, float_round x 1 = Ok y.
Proof.
  intros Hk Hx. destruct x as [s|s| |s m e]; cbn [below] in Hx; try contradiction.
  - eexists. reflexivity.
  - unfold float_round.
    change (323 <? 1) with false. change (1 <? -308) with false. cbv iota.
    unfold frac. change (Z.max 1 0) with 1. change (Z.max (- (1)) 0) with 0.
    rewrite Z.pow_0_r, Z.pow_1_r, Z.mul_1_r.
    set (num := Z.pos m * 2 ^ Z.max e 0 * 10).
    set (den := 2 ^ Z.max (- e) 0).
    assert (Hden : 0 < den) by (apply Z.pow_pos_nonneg; lia).
    assert (Hpe : 0 < 2 ^ Z.max e 0) by (apply Z.pow_pos_nonneg; lia).
    assert (Hnum : 0 <= num) by (unfold num; nia).
    pose proof (round_half_even_range num den Hnum Hden) as Ht.
    set (t := round_half_even num den) in *.
    destruct (t =? 0) eqn:Ht0; [eexists; reflexivity|].
    apply Z.eqb_neq in Ht0.
    assert (Hq : num / den < 2 ^ (k + 4)).
    { apply Z.div_lt_upper_bound; [exact Hden|].
      unfold num, den. rewrite <- Z.pow_add_r by lia.
      pose proof (Zdigits2_lt (Z.pos m) ltac:(lia)) as Hm. cbn [Zdigits2] in Hm.
      assert (Hle : 2 ^ (Z.pos (digits2_pos m) + Z.max e 0 + 4)
                    <= 2 ^ (Z.max (- e) 0 + (k + 4)))
        by (apply Z.pow_le_mono_r; lia).
      rewrite !Z.pow_add_r in Hle by lia. change (2 ^ 4) with 16 in Hle.
      rewrite !Z.pow_add_r by lia. change (2 ^ 4) with 16.
      assert (0 < 2 ^ Z.pos (digits2_pos m)) by (apply Z.pow_pos_nonneg; lia).
      nia. }
    unfold nearest_decimal.
    change (Z.max (- (1)) 0) with 0. change (Z.max (- - (1)) 0) with 1.
    rewrite Z.pow_0_r, Z.mul_1_r.
    assert (Hdig : Zdigits2 (Z.pos (Z.to_pos t)) <= 1023).
    { etransitivity; [apply (Zdigits2_le _ (k + 5)); [lia | lia |]|lia].
      rewrite Z2Pos.id by lia.
      rewrite Z.pow_add_r with (c := 5), Z.pow_add_r with (c := 4) in * by lia.
      change (2 ^ 5) with 32. change (2 ^ 4) with 16 in Hq.
      assert (0 < 2 ^ k) by (apply Z.pow_pos_nonneg; lia). lia. }
    pose proof (SFdiv_ints_bound s false (Z.to_pos t) (Z.to_pos (10 ^ 1)) Hdig) as Hb.
    destruct (SFdiv 53 1024 (S754_finite s (Z.to_pos t) 0)
                (S754_finite false (Z.to_pos (10 ^ 1)) 0)); try contradiction;
      eexists; reflexivity.
Qed.

End FloatFacts.

(* ===================================================================== *)
(** * Facts about text files *)
(* ===================================================================== *)

Module TextFacts.
Import Py.

(** ** The chunks of [json.dump] make up the text of [json.dumps] *)

(** Induction on a JSON value, with the items of a list and the values of a
    dict as smaller. *)
Section JsonInduction.
Variable P : json -> Prop.
Hypothesis P_null : P JNull.
Hypothesis P_bool : forall b, P (JBool b).
Hypothesis P_int : forall n, P (JInt n).
Hypothesis P_float : forall x, P (JFloat x).
Hypothesis P_str : forall s, P (JStr s).
Hypothesis P_list : forall l, Forall P l -> P (JList l).
Hypothesis P_dict : forall d, Forall (fun kv => P (snd kv)) d -> P (JDict d).

Fixpoint json_induction (v : json) : P v :=
  match v with
  | JNull => P_null
  | JBool b => P_bool b
  | JInt n => P_int n
  | JFloat x => P_float x
  | JStr s => P_str s
  | JList l =>
      P_list l
        ((fix items (l : list json) : Forall P l :=
            match l with
            | [] => @List.Forall_nil _ P
            | x :: rest => @List.Forall_cons _ P x rest (json_induction x) (items rest)
            end) l)
  | JDict d =>
      P_dict d
        ((fix items (d : list (str * json)) : Forall (fun kv => P (snd kv)) d :=
            match d with
            | [] => @List.Forall_nil _ _
            | (k, x) :: rest =>
                @List.Forall_cons _ (fun kv => P (snd kv)) (k, x) rest
                  (json_induction x) (items rest)
            end) d)
  end.

End JsonInduction.

Lemma join_cons (sep x : str) (rest : list str) :
  join sep (x :: rest) = x ++ concat (map (fun y => sep ++ y) rest).
Proof.
  revert x. induction rest as [|y rest IH]; intros x.
  - cbn. rewrite app_nil_r. reflexivity.
  - change (join sep (x :: y :: rest)) with (x ++ sep ++ join sep (y :: rest)).
    rewrite IH. cbn [map concat]. rewrite <- app_assoc. reflexivity.
Qed.

Section Chunks.
Variable level : nat.
Variable opening separator : str.

Lemma list_items_concat (l : list json) :
  Forall (fun x => concat (json_chunks_at level x) = json_dumps_at level x) l ->
  forall first,
    concat (list_items first opening separator (combine l (map (json_chunks_at level) l)))
    = match l with
      | [] => []
      | x :: rest =>
          (if first then opening else separator)
          ++ json_dumps_at level x
          ++ concat (map (fun y => separator ++ y) (map (json_dumps_at level) rest))
      end.
Proof.
  induction 1 as [|x rest Hx Hrest IH]; intros first; [reflexivity|].
  cbn [map combine list_items]. rewrite concat_app, (IH false).
  cbv zeta.
  assert (Htail : match rest with
                  | [] => []
                  | x0 :: rest0 =>
                      separator ++ json_dumps_at level x0
                      ++ concat (map (fun y => separator ++ y)
                                   (map (json_dumps_at level) rest0))
                  end
                  = concat (map (fun y => separator ++ y) (map (json_dumps_at level) rest))).
  { destruct rest as [|y rest']; [reflexivity|]. cbn [map concat].
    rewrite <- app_assoc. reflexivity. }
  rewrite Htail.
  destruct (is_container x); cbn [concat]; rewrite ?app_nil_r, Hx, <- ?app_assoc; reflexivity.
Qed.

Lemma dict_items_concat (d : list (str * json)) :
  Forall (fun kv => concat (json_chunks_at level (snd kv)) = json_dumps_at level (snd kv)) d ->
  forall first,
    concat (dict_items first separator
              (map (fun kv => (fst kv, json_chunks_at level (snd kv))) d))
    = match d with
      | [] => []
      | kv :: rest =>
          (if first then [] else separator)
          ++ (json_string (fst kv) ++ u ": " ++ json_dumps_at level (snd kv))
          ++ concat (map (fun y => separator ++ y)
                       (map (fun kv => json_string (fst kv) ++ u ": "
                                       ++ json_dumps_at level (snd kv)) rest))
      end.
Proof.
  induction 1 as [|kv rest Hkv Hrest IH]; intros first; [reflexivity|].
  cbn [map dict_items fst snd]. rewrite !concat_app, (IH false). cbn [concat].
  rewrite app_nil_r, Hkv.
  assert (Htail : match rest with
                  | [] => []
                  | kv0 :: rest0 =>
                      separator
                      ++ (json_string (fst kv0) ++ u ": " ++ json_dumps_at level (snd kv0))
                      ++ concat (map (fun y => separator ++ y)
                                   (map (fun kv => json_string (fst kv) ++ u ": "
                                                   ++ json_dumps_at level (snd kv)) rest0))
                  end
                  = concat (map (fun y => separator ++ y)
                              (map (fun kv => json_string (fst kv) ++ u ": "
                                              ++ json_dumps_at level (snd kv)) rest))).
  { destruct rest as [|kv' rest']; [reflexivity|]. cbn [map concat].
    rewrite <- !app_assoc. reflexivity. }
  rewrite Htail.
  destruct first; cbn [concat app]; rewrite ?app_nil_r, <- ?app_assoc; reflexivity.
Qed.

End Chunks.

Lemma json_chunks_at_concat (v : json) :
  forall level, concat (json_chunks_at level v) = json_dumps_at level v.
Proof.
  induction v as [| b | n | x | s | l IH | d IH] using json_induction; intros level;
    try (cbn [json_chunks_at concat]; apply app_nil_r).
  - destruct l as [|x rest]; [cbn [json_chunks_at concat]; apply app_nil_r|].
    change (json_chunks_at level (JList (x :: rest)))
      with (list_items true (u "[" ++ newline_indent (S level))
              (u "," ++ newline_indent (S level))
              (combine (x :: rest) (map (json_chunks_at (S level)) (x :: rest)))
            ++ [newline_indent level; u "]"]).
    rewrite concat_app, list_items_concat.
    + change (json_dumps_at level (JList (x :: rest)))
        with (u "[" ++ newline_indent (S level)
              ++ join (u "," ++ newline_indent (S level))
                   (map (json_dumps_at (S level)) (x :: rest))
              ++ newline_indent level ++ u "]").
      cbn [map]. rewrite join_cons. cbn [concat]. rewrite app_nil_r, <- !app_assoc.
      reflexivity.
    + eapply List.Forall_impl; [|exact IH]. intros y Hy. apply Hy.
  - destruct d as [|kv rest]; [cbn [json_chunks_at concat]; apply app_nil_r|].
    change (json_chunks_at level (JDict (kv :: rest)))
      with ([u "{"; newline_indent (S level)]
            ++ dict_items true (u "," ++ newline_indent (S level))
                 (map (fun kv => (fst kv, json_chunks_at (S level) (snd kv))) (kv :: rest))
            ++ [newline_indent level; u "}"]).
    rewrite !concat_app, dict_items_concat.
    + change (json_dumps_at level (JDict (kv :: rest)))
        with (u "{" ++ newline_indent (S level)
              ++ join (u "," ++ newline_indent (S level))
                   (map (fun kv => json_string (fst kv) ++ u ": "
                                   ++ json_dumps_at (S level) (snd kv)) (kv :: rest))
              ++ newline_indent level ++ u "}").
      cbn [map]. rewrite join_cons. cbn [concat app]. rewrite !app_nil_r, <- !app_assoc.
      reflexivity.
    + eapply List.Forall_impl; [|exact IH]. intros y Hy. apply Hy.
Qed.

Lemma json_chunks_concat (v : json) : concat (json_chunks v) = json_dumps v.
Proof. apply json_chunks_at_concat. Qed.

(** ** What can be encoded *)

Lemma encodes_app a b : encodes (a ++ b) = encodes a && encodes b.
Proof. apply forallb_app. Qed.

Lemma encodes_concat chunks : encodes (concat chunks) = forallb encodes chunks.
Proof.
  induction chunks as [|c rest IH]; [reflexivity|].
  cbn [concat forallb]. rewrite encodes_app, IH. reflexivity.
Qed.

Lemma write_all_written chunks :
  snd (write_all chunks) = encodes (concat chunks)
  /\ (encodes (concat chunks) = true -> fst (write_all chunks) = concat chunks).
Proof.
  induction chunks as [|c rest [IHs IHf]]; [split; reflexivity|].
  cbn [write_all concat]. rewrite encodes_app.
  destruct (encodes c); cbn [andb]; [|split; [reflexivity | discriminate]].
  destruct (write_all rest) as [text all]. cbn [fst snd] in *.
  split; [exact IHs|]. intros H. rewrite (IHf H). reflexivity.
Qed.

(** ** A write that returns *)

Lemma write_chunks_ok p chunks w w' :
  write_chunks p chunks w = (w', Ok tt) ->
  fs w' = <[p := File (concat chunks)]> (fs w) /\ encodes (concat chunks) = true.
Proof.
  destruct (write_all_written chunks) as [Hsnd Hfst].
  unfold write_chunks, called, modify, gets, lift, raise, ret, bind; cbn [fs log].
  destruct (fs w !! p) as [[|c| |]|]; try discriminate;
    destruct (parent_check p (fs w)) as [[]|e]; try discriminate;
    rewrite Hsnd; destruct (encodes (concat chunks)); try discriminate;
    intros H; inversion H; subst w'; cbn [fs with_fs log];
    rewrite (Hfst eq_refl); auto.
Qed.

Lemma json_dump_ok p v w w' :
  json_dump p v w = (w', Ok tt) -> fs w' = <[p := File (json_dumps v)]> (fs w).
Proof.
  intros H. apply write_chunks_ok in H as [H _]. rewrite json_chunks_concat in H. exact H.
Qed.

End TextFacts.

(* ===================================================================== *)
(** * Properties of the Fetcher *)
(* ===================================================================== *)

Module ScraperSpec.
Import Py Scraper.

(** ** Inversion of the effect combinators *)

Section Inversion.
Context {S E A B : Type}.

Lemma bind_ok (m : M S E A) (k : A -> M S E B) s s' b :
  bind m k s = (s', Ok b) ->
  exists a s1, m s = (s1, Ok a) /\ k a s1 = (s', Ok b).
Proof.
  unfold bind. destruct (m s) as [s1 [a|e]]; intros H.
  - exists a, s1. auto.
  - discriminate.
Qed.

End Inversion.

(** ** The scroll loop *)

Lemma scrolls_log c w :
  scrolls (log c w) = (scrolls w + if is_scroll c then 1 else 0)%nat.
Proof.
  unfold scrolls, log; cbn. rewrite filter_app, length_app; cbn.
  destruct (is_scroll c); reflexivity.
Qed.

Lemma scrolls_say line w : scrolls (say line w) = scrolls w.
Proof. reflexivity. Qed.

(** One pass of the loop, call by call. *)
Lemma scroll_loop_cons b max_scrolls pause_ms i rest prev w :
  scroll_loop b max_scrolls pause_ms (i :: rest) prev w =
  match scroll_to b i with
  | Raise e => (log ScrollTo w, Raise e)
  | Ok _ =>
      match wait_for_timeout b i with
      | Raise e => (log (WaitForTimeout pause_ms) (log ScrollTo w), Raise e)
      | Ok _ =>
          let w3 := log ScrollHeight (log (WaitForTimeout pause_ms) (log ScrollTo w)) in
          match scroll_height b i with
          | Raise e => (w3, Raise e)
          | Ok h =>
              if h =? prev
              then (say (u "✓ Content loaded after " ++ int_str (Z.of_nat i + 1) ++ u " scrolls") w3,
                    Ok tt)
              else scroll_loop b max_scrolls pause_ms rest h
                     (say (u "Scrolling... " ++ int_str (Z.of_nat i + 1) ++ u "/"
                             ++ int_str max_scrolls) w3)
          end
      end
  end.
Proof.
  cbn [scroll_loop]. unfold bind, page_call, called, print, modify, lift, bind.
  destruct (scroll_to b i) as [[]|e]; [|reflexivity].
  destruct (wait_for_timeout b i) as [[]|e]; [|reflexivity].
  destruct (scroll_height b i) as [h|e]; [|reflexivity].
  cbv zeta. destruct (h =? prev); reflexivity.
Qed.

(** One pass adds one scroll; the passes left are those of [range]. *)
Lemma scroll_loop_scrolls b max_scrolls pause_ms range :
  forall prev w,
    (scrolls (fst (scroll_loop b max_scrolls pause_ms range prev w))
     <= scrolls w + List.length range)%nat.
Proof.
  induction range as [|i rest IH]; intros prev w.
  - cbn. lia.
  - rewrite scroll_loop_cons. cbn [List.length].
    destruct (scroll_to b i) as [[]|e]; [|cbn [fst]; rewrite scrolls_log; cbn; lia].
    destruct (wait_for_timeout b i) as [[]|e];
      [|cbn [fst]; rewrite !scrolls_log; cbn; lia].
    cbv zeta.
    destruct (scroll_height b i) as [h|e];
      [|cbn [fst]; rewrite !scrolls_log; cbn; lia].
    destruct (h =? prev).
    + cbn [fst]. rewrite scrolls_say, !scrolls_log; cbn. lia.
    + etransitivity; [apply IH|].
      rewrite scrolls_say, !scrolls_log; cbn. lia.
Qed.

(** The loop does not pass a measurement that repeats the one before:
    started at index [a] with [a <= k + 1], where measurements [k] and
    [k + 1] are both [h], it scrolls at most [k + 2 - a] times. *)
Lemma scroll_loop_stops b max_scrolls pause_ms k h :
  scroll_height b k = Ok h ->
  scroll_height b (S k) = Ok h ->
  forall n a prev w,
    (a <= S k)%nat ->
    (a = S k -> prev = h) ->
    (scrolls (fst (scroll_loop b max_scrolls pause_ms (seq a n) prev w))
     <= scrolls w + (S (S k) - a))%nat.
Proof.
  intros Hk HSk. induction n as [|n IH]; intros a prev w Ha Hprev.
  - cbn. lia.
  - cbn [seq]. rewrite scroll_loop_cons.
    destruct (scroll_to b a) as [[]|e]; [|cbn [fst]; rewrite scrolls_log; cbn; lia].
    destruct (wait_for_timeout b a) as [[]|e];
      [|cbn [fst]; rewrite !scrolls_log; cbn; lia].
    cbv zeta.
    destruct (scroll_height b a) as [h'|e] eqn:Hh;
      [|cbn [fst]; rewrite !scrolls_log; cbn; lia].
    destruct (h' =? prev) eqn:Hcmp.
    + cbn [fst]. rewrite scrolls_say, !scrolls_log; cbn. lia.
    + destruct (Nat.eq_dec a (S k)) as [->|Hne].
      * rewrite HSk in Hh. inversion Hh; subst h'.
        rewrite (Hprev eq_refl), Z.eqb_refl in Hcmp. discriminate.
      * etransitivity; [apply IH; [lia|]|].
        -- intros Heq. assert (a = k) by lia. subst a.
           rewrite Hk in Hh. inversion Hh. reflexivity.
        -- rewrite scrolls_say, !scrolls_log; cbn. lia.
Qed.

(** With every call of the loop succeeding, the loop returns. *)
Lemma scroll_loop_returns b max_scrolls pause_ms range :
  (forall i, scroll_to b i = Ok tt /\ wait_for_timeout b i = Ok tt
             /\ is_ok (scroll_height b i) = true) ->
  forall prev w, snd (scroll_loop b max_scrolls pause_ms range prev w) = Ok tt.
Proof.
  intros Hcalls. induction range as [|i rest IH]; intros prev w.
  - reflexivity.
  - rewrite scroll_loop_cons.
    destruct (Hcalls i) as (-> & -> & Hh). cbv zeta.
    destruct (scroll_height b i) as [h|e]; [|discriminate].
    destruct (h =? prev); [reflexivity | apply IH].
Qed.

(** C4: whatever the page does and whatever [max_scrolls] is, the scroll
    loop makes at most [max_scrolls] passes (none when [max_scrolls] is
    negative), one scroll each, and then ends; it ends by returning when
    none of its page calls raises, also if the height never settles. *)
Theorem scroll_for_content_bounded (b : browser) (max_scrolls pause_ms : Z) (w : world) :
  (scrolls (fst (scroll_for_content b max_scrolls pause_ms w))
   <= scrolls w + Z.to_nat max_scrolls)%nat
  /\ ((forall i, scroll_to b i = Ok tt /\ wait_for_timeout b i = Ok tt
                 /\ is_ok (scroll_height b i) = true) ->
      snd (scroll_for_content b max_scrolls pause_ms w) = Ok tt).
Proof.
  unfold scroll_for_content. split.
  - etransitivity; [apply scroll_loop_scrolls|]. rewrite length_seq. lia.
  - intros Hcalls. apply scroll_loop_returns, Hcalls.
Qed.

(** The run of the specification's example: heights 1000, 2000, 2000. *)
Definition example_scroll : world * result exn unit :=
  scroll_for_content (calm [1000; 2000; 2000] [] []) 5 2000 empty_world.

(** C5, as the code has it: when two consecutive height measurements are
    equal (the ones of passes [k] and [k + 1], counted from 0) the loop
    does not go past the second of them, so it makes at most [k + 2]
    passes.  For the heights 1000, 2000, 2000 and [max_scrolls = 5] it
    stops after 3 passes: 3 scrolls, 3 measurements, the third equal to the
    second. *)
Theorem scroll_stops_when_height_repeats :
  (forall (b : browser) (max_scrolls pause_ms : Z) (w : world) (k : nat) (h : Z),
      scroll_height b k = Ok h ->
      scroll_height b (S k) = Ok h ->
      (scrolls (fst (scroll_for_content b max_scrolls pause_ms w))
       <= scrolls w + (k + 2))%nat)
  /\ (scrolls (fst example_scroll) = 3%nat
      /\ measurements (fst example_scroll) = 3%nat
      /\ snd example_scroll = Ok tt
      /\ stdout (fst example_scroll)
         = [u "Scrolling... 1/5"; u "Scrolling... 2/5"; u "✓ Content loaded after 3 scrolls"]).
Proof.
  split.
  - intros b max_scrolls pause_ms w k h Hk HSk. unfold scroll_for_content.
    etransitivity.
    + apply (scroll_loop_stops b max_scrolls pause_ms k h Hk HSk); [lia|].
      intros Heq. discriminate.
    + lia.
  - vm_compute. auto.
Qed.

(** The general part of C5 at the example: measurements 1 and 2 agree, so
    at most 3 passes. *)
Lemma scroll_stops_when_height_repeats_witness :
  (scrolls (fst example_scroll) <= scrolls empty_world + (1 + 2))%nat.
Proof.
  apply (proj1 scroll_stops_when_height_repeats
           (calm [1000; 2000; 2000] [] []) 5 2000 empty_world 1%nat 2000);
    reflexivity.
Defined.

(** C5 as the specification words its example (3 passes with 2 scrolls)
    fails: the third pass scrolls too. *)
Lemma example_scroll_counts_three :
  measurements (fst example_scroll) = 3%nat /\ scrolls (fst example_scroll) <> 2%nat.
Proof. vm_compute. split; [reflexivity | discriminate]. Qed.

(** ** Extraction *)

Lemma of_utf16_pair hi lo rest :
  of_utf16 (hi :: lo :: rest) =
  if ((55296 <=? hi) && (hi <? 56320) && (56320 <=? lo) && (lo <? 57344))%N
  then (65536 + (hi - 55296) * 1024 + (lo - 56320))%N :: of_utf16 rest
  else hi :: of_utf16 (lo :: rest).
Proof. reflexivity. Qed.

Lemma length_of_utf16_fuel n : forall s, (List.length s <= n)%nat ->
  (List.length (of_utf16 s) <= List.length s)%nat.
Proof.
  induction n as [|n IH]; intros s Hn.
  - destruct s; [reflexivity | cbn in Hn; lia].
  - destruct s as [|hi [|lo rest]]; [reflexivity | reflexivity |].
    rewrite of_utf16_pair.
    destruct ((55296 <=? hi)%N && (hi <? 56320)%N && (56320 <=? lo)%N && (lo <? 57344)%N).
    + cbn [List.length] in *.
      assert (Hrest : (List.length rest <= n)%nat) by lia.
      apply IH in Hrest. lia.
    + cbn [List.length] in *.
      assert (Htl : (List.length (lo :: rest) <= n)%nat) by (cbn [List.length]; lia).
      apply IH in Htl. cbn [List.length] in Htl. lia.
Qed.

(** Pairing surrogates never lengthens a text. *)
Lemma length_of_utf16 s : (List.length (of_utf16 s) <= List.length s)%nat.
Proof. apply (length_of_utf16_fuel (List.length s)). lia. Qed.

Lemma push_post_bounded el :
  Forall (fun p => (List.length p <= 500)%nat) (push_post el).
Proof.
  destruct el as [t|]; cbn; [|constructor].
  destruct (negb _ && _); constructor; [|constructor].
  unfold substring0. rewrite length_firstn. lia.
Qed.

Lemma posts_script_bounded els :
  (List.length (posts_script els) <= 50)%nat
  /\ Forall (fun p => (List.length p <= 500)%nat) (posts_script els).
Proof.
  unfold posts_script, slice0. split.
  - rewrite length_firstn. lia.
  - apply Forall_take, Forall_flat_map, Forall_forall.
    intros el _. apply push_post_bounded.
Qed.

Lemma page_call_ok {A} c (r : result exn A) w w' a :
  page_call c r w = (w', Ok a) -> r = Ok a.
Proof.
  unfold page_call, called, modify, lift, bind. destruct r; intros H; inversion H; auto.
Qed.

(** The record [extract_content] builds from what the page answered. *)
Definition extracted (b : browser) (t : str) (texts : list (option jsstr)) (html : str) : dict :=
  let content := map of_utf16 (posts_script texts) in
  [ (u "url", JStr (page_url b));
    (u "title", JStr t);
    (u "scraped_at", JStr (utc_now b));
    (u "posts_count", JInt (len content));
    (u "posts", JList (map JStr content));
    (u "html_length", JInt (len html)) ].

Lemma extract_content_ok b w d :
  snd (extract_content b w) = Ok d ->
  exists t texts html,
    title b = Ok t /\ inner_texts b = Ok texts /\ content b = Ok html
    /\ d = extracted b t texts html.
Proof.
  unfold extract_content, page_call, called, modify, lift, bind, ret; cbn.
  destruct (title b) as [t|e]; [|discriminate]; cbn.
  destruct (inner_texts b) as [texts|e]; [|discriminate]; cbn.
  destruct (content b) as [html|e]; [|discriminate]; cbn.
  intros H. inversion H. exists t, texts, html. auto.
Qed.

(** C1: in every record the extraction step produces, [posts_count] is the
    length of [posts], [posts] has at most 50 entries and each entry has
    at most 500 characters. *)
Theorem extract_content_bounds (b : browser) (w : world) (d : dict) :
  snd (extract_content b w) = Ok d ->
  exists posts : list str,
    dict_get (u "posts") d = Some (JList (map JStr posts))
    /\ dict_get (u "posts_count") d = Some (JInt (Z.of_nat (List.length posts)))
    /\ (List.length posts <= 50)%nat
    /\ Forall (fun p => (List.length p <= 500)%nat) posts.
Proof.
  intros H. apply extract_content_ok in H as (t & texts & html & _ & _ & _ & ->).
  exists (map of_utf16 (posts_script texts)).
  destruct (posts_script_bounded texts) as [Hn Hall].
  repeat split.
  - rewrite length_map. exact Hn.
  - apply List.Forall_map. revert Hall. apply List.Forall_impl.
    intros p Hlen. pose proof (length_of_utf16 p). lia.
Qed.

(** A page with 60 long posts, a short one and an element without text. *)
Definition crowded : browser :=
  calm [1000] (None :: Some (u "  short  ") :: repeat (Some (repeat 65%N 600)) 60)
       (u "https://www.threads.com/").

Lemma extract_content_bounds_witness :
  exists posts : list str,
    dict_get (u "posts") (extracted crowded (u "Threads")
                            (None :: Some (u "  short  ") :: repeat (Some (repeat 65%N 600)) 60)
                            (u "<html><body></body></html>"))
      = Some (JList (map JStr posts))
    /\ dict_get (u "posts_count") (extracted crowded (u "Threads")
                            (None :: Some (u "  short  ") :: repeat (Some (repeat 65%N 600)) 60)
                            (u "<html><body></body></html>"))
      = Some (JInt (Z.of_nat (List.length posts)))
    /\ (List.length posts <= 50)%nat
    /\ Forall (fun p => (List.length p <= 500)%nat) posts.
Proof.
  apply (extract_content_bounds crowded empty_world). reflexivity.
Defined.

(** ** The record [main] returns *)

(** The record of a successful attempt, and the one built in the
    [except] clause. *)
Definition success_record (b : browser) (t : str) (texts : list (option jsstr)) (html : str) : dict :=
  dict_set (u "status") (JStr (u "success")) (extracted b t texts html).

Definition error_record (cfg : config) (b : browser) (e : exn) : dict :=
  [ (u "url", JStr (url cfg));
    (u "scraped_at", JStr (utc_now b));
    (u "status", JStr (u "error"));
    (u "error", JStr (message e)) ].

(** How a record came about: from a page that answered the three queries
    of the extraction, or from an exception the attempt raised. *)
Inductive produced (cfg : config) (b : browser) (d : dict) : Prop :=
| by_extraction t texts html :
    title b = Ok t -> inner_texts b = Ok texts -> content b = Ok html ->
    d = success_record b t texts html ->
    produced cfg b d
| by_exception e w1 :
    snd (attempt cfg b w1) = Raise e -> is_Exception e = true ->
    d = error_record cfg b e ->
    produced cfg b d.

Lemma snd_bind_ok {S E A B} (m : M S E A) (k : A -> M S E B) s b :
  snd (bind m k s) = Ok b ->
  exists a s1, m s = (s1, Ok a) /\ snd (k a s1) = Ok b.
Proof.
  unfold bind. destruct (m s) as [s1 [a|e]]; intros H.
  - exists a, s1. auto.
  - discriminate.
Qed.

Lemma attempt_ok cfg b w d :
  snd (attempt cfg b w) = Ok d ->
  exists t texts html,
    title b = Ok t /\ inner_texts b = Ok texts /\ content b = Ok html
    /\ d = success_record b t texts html.
Proof.
  unfold attempt. intros H.
  do 6 (apply snd_bind_ok in H as (? & ? & _ & H)).
  apply snd_bind_ok in H as (d0 & w0 & Hex & H).
  apply snd_bind_ok in H as (? & ? & _ & H).
  cbn in H. inversion H; subst d.
  apply (f_equal snd) in Hex. cbn [snd] in Hex.
  apply extract_content_ok in Hex as (t & texts & html & ? & ? & ? & ->).
  exists t, texts, html. auto.
Qed.

Lemma on_exception_ok cfg b e w d :
  snd (on_exception cfg b e w) = Ok d ->
  is_Exception e = true /\ d = error_record cfg b e.
Proof.
  unfold on_exception. destruct (is_Exception e); [|discriminate].
  intros H.
  apply snd_bind_ok in H as (? & ? & _ & H).
  apply snd_bind_ok in H as (? & ? & _ & H).
  cbn in H. inversion H. auto.
Qed.

Lemma snd_try_finally_ok {S E A} (m : M S E A) (f : M S E unit) s a :
  snd (try_finally m f s) = Ok a -> snd (m s) = Ok a.
Proof.
  unfold try_finally. destruct (m s) as [s1 r].
  destruct (f s1) as [s2 [[]|e]]; cbn; intros H; [exact H | discriminate].
Qed.

Lemma crawl_ok cfg b w d : snd (crawl cfg b w) = Ok d -> produced cfg b d.
Proof.
  unfold crawl. intros H.
  apply snd_bind_ok in H as (? & ? & _ & H).
  apply snd_try_finally_ok in H.
  do 3 (apply snd_bind_ok in H as (? & ? & _ & H)).
  apply snd_try_finally_ok in H.
  unfold try_except in H.
  match type of H with context [attempt cfg b ?w0] =>
    destruct (attempt cfg b w0) as [w1 [d1|e]] eqn:Hat
  end.
  - cbn in H. inversion H; subst d1.
    apply (f_equal snd) in Hat. cbn [snd] in Hat.
    apply attempt_ok in Hat as (t & texts & html & ? & ? & ? & ->).
    eapply by_extraction; eauto.
  - apply on_exception_ok in H as [He ->].
    eapply by_exception; eauto. rewrite Hat. reflexivity.
Qed.

Lemma snd_map_error_ok {S E E' A} (g : E -> E') (m : M S E A) s a :
  snd (map_error g m s) = Ok a -> snd (m s) = Ok a.
Proof.
  unfold map_error. destruct (m s) as [s1 [a1|e]]; cbn; intros H;
    [inversion H; reflexivity | discriminate].
Qed.

Lemma main_ok target b w d :
  snd (main target b w) = Ok d -> produced (CONFIG target) b d.
Proof.
  unfold main. intros H.
  apply snd_bind_ok in H as (? & ? & _ & H).
  apply snd_bind_ok in H as (? & ? & _ & H).
  apply snd_bind_ok in H as (d0 & w0 & Hcrawl & H).
  do 3 (apply snd_bind_ok in H as (? & ? & _ & H)).
  cbn in H. inversion H; subst d0.
  apply (f_equal snd) in Hcrawl. cbn [snd] in Hcrawl.
  apply snd_map_error_ok, crawl_ok in Hcrawl. exact Hcrawl.
Qed.

(** *** What is written to [output/latest.json] *)

Lemma map_error_ok_state {S E E' A} (g : E -> E') (m : M S E A) s s' a :
  map_error g m s = (s', Ok a) -> m s = (s', Ok a).
Proof.
  unfold map_error. destruct (m s) as [s1 [a1|e]]; intros H; inversion H; reflexivity.
Qed.

Lemma main_writes_latest target b w d :
  snd (main target b w) = Ok d ->
  fs (fst (main target b w)) !! "output/latest.json"
  = Some (File (json_dumps (JDict d))).
Proof.
  destruct (main target b w) as [w' r] eqn:Hmain. cbn [fst snd]. intros ->.
  unfold main in Hmain.
  do 4 (apply bind_ok in Hmain as (? & ? & _ & Hmain)).
  apply bind_ok in Hmain as ([] & w1 & Hwrite & Hmain).
  apply bind_ok in Hmain as ([] & w2 & Hprint & Hmain).
  cbn in Hmain, Hprint. inversion Hmain; subst. inversion Hprint; subst.
  apply map_error_ok_state, TextFacts.json_dump_ok in Hwrite.
  cbn [fs say]. rewrite Hwrite. apply lookup_insert_eq.
Qed.

(** ** Status, error and url of the record *)

(** C2, as the code has it: the record [main] returns is the one written
    to [output/latest.json]; when its status is "error" its [error] field
    is present and holds the message of the exception the attempt raised
    (empty when that message is), and it has no [posts] field; when its
    status is "success" it has no [error] field. *)
Theorem written_record_error_field (target : option str) (b : browser) (w : world) (d : dict) :
  snd (main target b w) = Ok d ->
  fs (fst (main target b w)) !! "output/latest.json" = Some (File (json_dumps (JDict d)))
  /\ (dict_get (u "status") d = Some (JStr (u "error")) ->
      (exists e w1, snd (attempt (CONFIG target) b w1) = Raise e
                    /\ dict_get (u "error") d = Some (JStr (message e)))
      /\ dict_get (u "posts") d = None)
  /\ (dict_get (u "status") d = Some (JStr (u "success")) ->
      dict_get (u "error") d = None).
Proof.
  intros H. split; [apply main_writes_latest, H|].
  apply main_ok in H as [t texts html _ _ _ ->|e w1 Hat _ ->].
  - split; [intros Hs; vm_compute in Hs; discriminate | reflexivity].
  - split; [|intros Hs; vm_compute in Hs; discriminate].
    intros _. split; [|reflexivity]. exists e, w1. split; [exact Hat | reflexivity].
Qed.

(** A run whose navigation times out. *)
Definition timed_out : browser :=
  sample (Raise {| class := PlaywrightTimeout; message := u "Timeout 60000ms exceeded" |})
         (Ok (u "Threads")) [] [] (u "about:blank").

Lemma written_record_error_field_witness :
  fs (fst (main None timed_out empty_world)) !! "output/latest.json"
  = Some (File (json_dumps (JDict (error_record (CONFIG None) timed_out
        {| class := PlaywrightTimeout; message := u "Timeout 60000ms exceeded" |}))))
  /\ (dict_get (u "status") (error_record (CONFIG None) timed_out
        {| class := PlaywrightTimeout; message := u "Timeout 60000ms exceeded" |})
      = Some (JStr (u "error")) ->
      (exists e w1, snd (attempt (CONFIG None) timed_out w1) = Raise e
                    /\ dict_get (u "error") (error_record (CONFIG None) timed_out
                         {| class := PlaywrightTimeout; message := u "Timeout 60000ms exceeded" |})
                       = Some (JStr (message e)))
      /\ dict_get (u "posts") (error_record (CONFIG None) timed_out
           {| class := PlaywrightTimeout; message := u "Timeout 60000ms exceeded" |}) = None)
  /\ (dict_get (u "status") (error_record (CONFIG None) timed_out
        {| class := PlaywrightTimeout; message := u "Timeout 60000ms exceeded" |})
      = Some (JStr (u "success")) ->
      dict_get (u "error") (error_record (CONFIG None) timed_out
        {| class := PlaywrightTimeout; message := u "Timeout 60000ms exceeded" |}) = None).
Proof.
  apply (written_record_error_field None timed_out empty_world). vm_compute. reflexivity.
Defined.

(** A run whose navigation fails with an exception that has no message,
    as Python's [Exception()] has none. *)
Definition failed_silently : browser :=
  sample (Raise {| class := OtherException; message := [] |})
         (Ok (u "Threads")) [] [] (u "about:blank").

(** C2 as stated fails: here the status is "error" and the [error] field
    is the empty string. *)
Lemma error_field_can_be_empty :
  exists d, snd (main None failed_silently empty_world) = Ok d
            /\ dict_get (u "status") d = Some (JStr (u "error"))
            /\ dict_get (u "error") d = Some (JStr []).
Proof.
  exists (error_record (CONFIG None) failed_silently {| class := OtherException; message := [] |}).
  vm_compute. auto.
Qed.

(** C6, as the code has it: a "success" record holds the page's own URL,
    the final one; an "error" record holds the configured target URL. *)
Theorem record_url (target : option str) (b : browser) (w : world) (d : dict) :
  snd (main target b w) = Ok d ->
  (dict_get (u "status") d = Some (JStr (u "success")) ->
   dict_get (u "url") d = Some (JStr (page_url b)))
  /\ (dict_get (u "status") d = Some (JStr (u "error")) ->
      dict_get (u "url") d = Some (JStr (url (CONFIG target)))).
Proof.
  intros H. apply main_ok in H as [t texts html _ _ _ ->|e w1 _ _ ->].
  - split; [reflexivity | intros Hs; vm_compute in Hs; discriminate].
  - split; [intros Hs; vm_compute in Hs; discriminate | reflexivity].
Qed.

(** A run that is redirected to the login page and then loses the page. *)
Definition redirected : browser :=
  sample (Ok tt)
         (Raise {| class := OtherException;
                   message := u "Page.title: Target page, context or browser has been closed" |})
         [1000; 1000] [] (u "https://www.threads.com/login").

Lemma record_url_witness :
  (dict_get (u "status") (error_record (CONFIG None) redirected
      {| class := OtherException;
         message := u "Page.title: Target page, context or browser has been closed" |})
   = Some (JStr (u "success")) ->
   dict_get (u "url") (error_record (CONFIG None) redirected
      {| class := OtherException;
         message := u "Page.title: Target page, context or browser has been closed" |})
   = Some (JStr (page_url redirected)))
  /\ (dict_get (u "status") (error_record (CONFIG None) redirected
        {| class := OtherException;
           message := u "Page.title: Target page, context or browser has been closed" |})
      = Some (JStr (u "error")) ->
      dict_get (u "url") (error_record (CONFIG None) redirected
        {| class := OtherException;
           message := u "Page.title: Target page, context or browser has been closed" |})
      = Some (JStr (url (CONFIG None)))).
Proof.
  apply (record_url None redirected empty_world). vm_compute. reflexivity.
Defined.

(** C6 as stated fails: the page ended at the login URL, and the error
    record holds the configured URL instead. *)
Lemma error_record_url_is_not_final :
  exists d, snd (main None redirected empty_world) = Ok d
            /\ dict_get (u "status") d = Some (JStr (u "error"))
            /\ page_url redirected = u "https://www.threads.com/login"
            /\ dict_get (u "url") d = Some (JStr (u "https://www.threads.com/?hl=ko"))
            /\ dict_get (u "url") d <> Some (JStr (page_url redirected)).
Proof.
  exists (error_record (CONFIG None) redirected
            {| class := OtherException;
               message := u "Page.title: Target page, context or browser has been closed" |}).
  vm_compute. repeat split; try reflexivity. discriminate.
Qed.



End ScraperSpec.

(* ===================================================================== *)
(** * Properties of the Reporter *)
(* ===================================================================== *)

Module ReportSpec.
Import Py Jinja Report FloatFacts.

(** ** Dictionaries *)

Lemma str_eqb_eq a : forall b, str_eqb a b = true <-> a = b.
Proof.
  induction a as [|x a IH]; intros [|y b]; cbn; split; try congruence.
  - intros H. apply andb_true_iff in H as [Hxy Hab].
    apply N.eqb_eq in Hxy. apply IH in Hab. congruence.
  - intros H. inversion H; subst. apply andb_true_iff. split.
    + apply N.eqb_refl.
    + apply IH. reflexivity.
Qed.

Lemma str_eqb_refl a : str_eqb a a = true.
Proof. apply str_eqb_eq. reflexivity. Qed.

Lemma dict_get_set k k' v d :
  dict_get k (dict_set k' v d) = if str_eqb k' k then Some v else dict_get k d.
Proof.
  induction d as [|[k0 v0] d IH]; cbn.
  - reflexivity.
  - destruct (str_eqb k0 k') eqn:H0; cbn.
    + apply str_eqb_eq in H0. subst k0. destruct (str_eqb k' k); reflexivity.
    + rewrite IH. destruct (str_eqb k0 k) eqn:H1; [|reflexivity].
      destruct (str_eqb k' k) eqn:H2; [|reflexivity].
      apply str_eqb_eq in H1, H2. subst. rewrite str_eqb_refl in H0. discriminate.
Qed.

Lemma dict_get_app k d d' :
  dict_get k (d ++ d') = match dict_get k d with
                         | Some v => Some v
                         | None => dict_get k d'
                         end.
Proof.
  induction d as [|[k0 v0] d IH]; cbn; [reflexivity|].
  destruct (str_eqb k0 k); [reflexivity | exact IH].
Qed.

Lemma dict_get_setdefault k k' v d :
  dict_get k (setdefault k' v d)
  = match dict_get k d with
    | Some x => Some x
    | None => if str_eqb k' k then Some v else None
    end.
Proof.
  unfold setdefault. destruct (dict_get k' d) as [x|] eqn:Hk'.
  - destruct (dict_get k d) eqn:Hk; [reflexivity|].
    destruct (str_eqb k' k) eqn:He; [|reflexivity].
    apply str_eqb_eq in He. subst. congruence.
  - rewrite dict_get_app. cbn. destruct (dict_get k d); reflexivity.
Qed.

(** Decide the comparison of two literal keys. *)
Ltac keys :=
  repeat match goal with
         | |- context [str_eqb (u ?a) (u ?b)] =>
             let r := eval vm_compute in (str_eqb (u a) (u b)) in
             change (str_eqb (u a) (u b)) with r
         end.

Section Defaults.
Variable now : str.
Variable data : dict.

(** The four defaults, and the fields [with_defaults] leaves alone. *)
Lemma with_defaults_get k :
  dict_get k (with_defaults now data)
  = if str_eqb (u "date") k then Some (JStr now)
    else match dict_get k data with
         | Some v => Some v
         | None =>
             if str_eqb (u "posts") k then Some (JList [])
             else if str_eqb (u "posts_count") k then Some (JInt 0)
             else if str_eqb (u "html_length") k then Some (JInt 0)
             else if str_eqb (u "status") k then Some (JStr (u "unknown"))
             else None
         end.
Proof.
  unfold with_defaults. rewrite !dict_get_setdefault, dict_get_set.
  destruct (str_eqb (u "date") k) eqn:Hd.
  - reflexivity.
  - destruct (dict_get k data); [reflexivity|].
    destruct (str_eqb (u "posts") k); [reflexivity|].
    destruct (str_eqb (u "posts_count") k); [reflexivity|].
    destruct (str_eqb (u "html_length") k); reflexivity.
Qed.

End Defaults.

(** ** Rendering without an exception *)

Section Rendering.
Context {unicode : Unicode}.

Lemma concat_map_ok {A} (f : A -> result error str) l :
  (forall x, In x l -> is_ok (f x) = true) -> is_ok (concat_map f l) = true.
Proof.
  induction l as [|x l IH]; intros H; cbn [concat_map]; [reflexivity|].
  pose proof (H x (or_introl eq_refl)) as Hx.
  destruct (f x) as [out|e]; [|discriminate].
  specialize (IH (fun y Hy => H y (or_intror Hy))).
  destruct (concat_map f l); [reflexivity | discriminate].
Qed.

Definition nodes_ok (fr : frame) (body : list node) : Prop :=
  forall n, In n body -> is_ok (render_node n fr) = true.

Lemma data_ok text fr : is_ok (render_node (Data text) fr) = true.
Proof. reflexivity. Qed.

Lemma output_name_ok x fr : is_ok (render_node (Output (Name x)) fr) = true.
Proof. reflexivity. Qed.

Lemma output_upper_ok x fr :
  is_ok (render_node (Output (Filter (Name x) upper)) fr) = true.
Proof. reflexivity. Qed.

Lemma output_loop_index_ok fr i :
  loop_index fr = Some i -> is_ok (render_node (Output LoopIndex) fr) = true.
Proof. intros H. cbn [render_node eval]. rewrite H. reflexivity. Qed.

Lemma if_equals_ok x s body orelse fr :
  nodes_ok fr body -> nodes_ok fr orelse ->
  is_ok (render_node (If (EqualsStr (Name x) s) body orelse) fr) = true.
Proof.
  intros Hb Ho. cbn [render_node eval].
  destruct (truth _); apply concat_map_ok; assumption.
Qed.

(** [len] of a string or of a list compares with an int. *)
Definition sized (v : value) : Prop :=
  (exists s, v = Val (JStr s)) \/ (exists l, v = Val (JList l)).

Lemma if_longer_ok x k body orelse fr :
  sized (resolve fr x) -> nodes_ok fr body -> nodes_ok fr orelse ->
  is_ok (render_node (If (Greater (Filter (Name x) length) k) body orelse) fr) = true.
Proof.
  intros Hx Hb Ho. cbn [render_node eval].
  destruct Hx as [[s ->]|[l ->]]; cbn [apply_filter greater];
    destruct (truth _); apply concat_map_ok; assumption.
Qed.

Lemma output_remaining_ok x k fr :
  sized (resolve fr x) ->
  is_ok (render_node (Output (Minus (Filter (Name x) length) k)) fr) = true.
Proof.
  intros [[s Hx]|[l Hx]]; cbn [render_node eval]; rewrite Hx; reflexivity.
Qed.

Lemma output_slice_ok x k fr :
  sized (resolve fr x) ->
  is_ok (render_node (Output (Slice (Name x) k)) fr) = true.
Proof.
  intros [[s Hx]|[l Hx]]; cbn [render_node eval]; rewrite Hx; reflexivity.
Qed.

(** The page size in kilobytes, rounded to one decimal. *)
Lemma output_kilobytes_ok x n fr :
  resolve fr x = Val (JInt n) -> Z.abs n < 2 ^ 1000 ->
  is_ok (render_node (Output (Filter (DivBy (Name x) 1024) (round 1))) fr) = true.
Proof.
  intros Hx Hn. cbn [render_node eval]. rewrite Hx. cbn [div_by].
  destruct (int_true_div_below n 1024 1000 ltac:(lia) ltac:(lia) Hn) as (y & -> & Hy).
  cbn [float_value apply_filter].
  destruct (float_round_below y 1001 ltac:(lia) Hy) as (z & ->).
  reflexivity.
Qed.

Lemma in_firstn {A} (x : A) k l : In x (firstn k l) -> In x l.
Proof.
  intros H. rewrite <- (firstn_skipn k l). apply in_or_app. left. exact H.
Qed.

Lemma in_numbered (l : list json) i item :
  In (i, item) (numbered l) -> In item l.
Proof. unfold numbered. apply in_combine_r. Qed.

(** A loop over the first [k] of a list of strings: each pass sees a
    string in its target and a count in [loop.index]. *)
Lemma for_strings_ok target x k body fr l :
  resolve fr x = Val (JList (map JStr l)) ->
  (forall i s, nodes_ok (enter_loop fr target (i, JStr s)) body) ->
  is_ok (render_node (For target (Slice (Name x) k) body) fr) = true.
Proof.
  intros Hx Hbody. cbn [render_node eval]. rewrite Hx. cbn [slice items_of].
  apply concat_map_ok. intros [i item] Hin.
  apply in_numbered in Hin. apply in_firstn, in_map_iff in Hin as (s & <- & _).
  apply concat_map_ok. apply Hbody.
Qed.

(** Split a goal about the nodes of a literal list into one per node. *)
Ltac each_node :=
  unfold nodes_ok;
  let n := fresh "n" in
  let H := fresh "Hin" in
  intros n H; cbn [In] in H;
  repeat (destruct H as [<-|H]); try contradiction.

(** The nodes that render whatever the frame holds. *)
Ltac plain_node :=
  first [ apply data_ok | apply output_name_ok | apply output_upper_ok ].

Section Templates.
Variable D : dict.
Variable l : list str.
Variable n : Z.
Hypothesis Hposts : dict_get (u "posts") D = Some (JList (map JStr l)).
Hypothesis Hlength : dict_get (u "html_length") D = Some (JInt n).
Hypothesis Hn : Z.abs n < 2 ^ 1000.

Let top : frame := {| locals := []; context := D; loop_index := None |}.

Lemma top_posts : resolve top (u "posts") = Val (JList (map JStr l)).
Proof. unfold resolve, top. cbn [locals context dict_get]. rewrite Hposts. reflexivity. Qed.

Lemma top_html_length : resolve top (u "html_length") = Val (JInt n).
Proof. unfold resolve, top. cbn [locals context dict_get]. rewrite Hlength. reflexivity. Qed.

Lemma pass_post i s : sized (resolve (enter_loop top (u "post") (i, JStr s)) (u "post")).
Proof. left. exists s. reflexivity. Qed.

Lemma html_nodes_ok : nodes_ok top HTML_TEMPLATE.
Proof.
  unfold HTML_TEMPLATE. each_node; try plain_node.
  - apply if_equals_ok; each_node; plain_node.
  - eapply output_kilobytes_ok; [apply top_html_length | exact Hn].
  - eapply for_strings_ok; [apply top_posts|]. intros i s. each_node; try plain_node.
    + apply output_slice_ok, pass_post.
    + apply if_longer_ok; [apply pass_post | |]; each_node; plain_node.
  - apply if_longer_ok; [right; eexists; apply top_posts | |]; each_node; try plain_node.
    apply output_remaining_ok. right. eexists. apply top_posts.
Qed.

Lemma markdown_nodes_ok : nodes_ok top MARKDOWN_TEMPLATE.
Proof.
  unfold MARKDOWN_TEMPLATE. each_node; try plain_node.
  - eapply output_kilobytes_ok; [apply top_html_length | exact Hn].
  - eapply for_strings_ok; [apply top_posts|]. intros i s. each_node; try plain_node.
    + eapply output_loop_index_ok. reflexivity.
    + apply output_slice_ok, pass_post.
    + apply if_longer_ok; [apply pass_post | |]; each_node; plain_node.
Qed.

Lemma templates_ok :
  dict_get (u "self") D = None ->
  is_ok (render HTML_TEMPLATE D) = true /\ is_ok (render MARKDOWN_TEMPLATE D) = true.
Proof.
  intros Hself. unfold render. rewrite Hself.
  split; apply concat_map_ok; [apply html_nodes_ok | apply markdown_nodes_ok].
Qed.

End Templates.

End Rendering.

(** C3, as the code has it: rendering is total on records of the
    CrawlResult shape.  For every JSON object (the empty one too) that has
    no member named "self", whose "posts", if present, is a list of
    strings and whose "html_length", if present, is an integer below
    [2^1000] in magnitude, the HTML and the Markdown report both render
    without an exception; a field that is absent is looked up as
    posts = [], posts_count = 0, html_length = 0, status = "unknown". *)
Theorem rendering_total_on_typed_records
    (unicode : Unicode) (now : str) (data : dict) :
  dict_get (u "self") data = None ->
  (dict_get (u "posts") data = None
   \/ exists l, dict_get (u "posts") data = Some (JList (map JStr l))) ->
  (dict_get (u "html_length") data = None
   \/ exists n, dict_get (u "html_length") data = Some (JInt n) /\ Z.abs n < 2 ^ 1000) ->
  (exists html md,
      render HTML_TEMPLATE (with_defaults now data) = Ok html
      /\ render MARKDOWN_TEMPLATE (with_defaults now data) = Ok md)
  /\ (dict_get (u "posts") data = None ->
      dict_get (u "posts") (with_defaults now data) = Some (JList []))
  /\ (dict_get (u "posts_count") data = None ->
      dict_get (u "posts_count") (with_defaults now data) = Some (JInt 0))
  /\ (dict_get (u "html_length") data = None ->
      dict_get (u "html_length") (with_defaults now data) = Some (JInt 0))
  /\ (dict_get (u "status") data = None ->
      dict_get (u "status") (with_defaults now data) = Some (JStr (u "unknown"))).
Proof.
  intros Hself Hposts Hlength. split.
  - assert (Hp : exists l, dict_get (u "posts") (with_defaults now data)
                           = Some (JList (map JStr l))).
    { rewrite with_defaults_get. keys.
      destruct Hposts as [->|[l ->]]; [exists []; reflexivity | exists l; reflexivity]. }
    assert (Hl : exists n, dict_get (u "html_length") (with_defaults now data)
                           = Some (JInt n) /\ Z.abs n < 2 ^ 1000).
    { rewrite with_defaults_get. keys.
      destruct Hlength as [->|(n & -> & Hn)].
      - exists 0. split; [reflexivity|]. apply Z.pow_pos_nonneg; lia.
      - exists n. split; [reflexivity | exact Hn]. }
    assert (Hs : dict_get (u "self") (with_defaults now data) = None).
    { rewrite with_defaults_get. keys. rewrite Hself. reflexivity. }
    destruct Hp as [l Hp], Hl as (n & Hl & Hn).
    destruct (templates_ok _ l n Hp Hl Hn Hs) as [Hhtml Hmd].
    destruct (render HTML_TEMPLATE (with_defaults now data)) as [html|]; [|discriminate].
    destruct (render MARKDOWN_TEMPLATE (with_defaults now data)) as [md|]; [|discriminate].
    exists html, md. auto.
  - repeat split; intros H; rewrite with_defaults_get; keys; rewrite H; reflexivity.
Qed.

(** The empty object renders. *)
Lemma rendering_total_on_typed_records_witness :
  (exists html md,
      render (unicode := ascii_tables) HTML_TEMPLATE
        (with_defaults (u "2024-01-01 00:00") []) = Ok html
      /\ render (unicode := ascii_tables) MARKDOWN_TEMPLATE
           (with_defaults (u "2024-01-01 00:00") []) = Ok md)
  /\ (dict_get (u "posts") [] = None ->
      dict_get (u "posts") (with_defaults (u "2024-01-01 00:00") []) = Some (JList []))
  /\ (dict_get (u "posts_count") [] = None ->
      dict_get (u "posts_count") (with_defaults (u "2024-01-01 00:00") []) = Some (JInt 0))
  /\ (dict_get (u "html_length") [] = None ->
      dict_get (u "html_length") (with_defaults (u "2024-01-01 00:00") []) = Some (JInt 0))
  /\ (dict_get (u "status") [] = None ->
      dict_get (u "status") (with_defaults (u "2024-01-01 00:00") [])
      = Some (JStr (u "unknown"))).
Proof.
  apply (rendering_total_on_typed_records ascii_tables (u "2024-01-01 00:00") []);
    [reflexivity | left; reflexivity | left; reflexivity].
Defined.

(** C3 as stated fails: a JSON object whose "html_length" is a string
    makes both templates raise, at [html_length / 1024]. *)
Lemma string_html_length_raises :
  render (unicode := ascii_tables) HTML_TEMPLATE
    (with_defaults (u "2024-01-01 00:00") [(u "html_length", JStr (u "2048"))])
  = Raise TypeError
  /\ render (unicode := ascii_tables) MARKDOWN_TEMPLATE
       (with_defaults (u "2024-01-01 00:00") [(u "html_length", JStr (u "2048"))])
     = Raise TypeError.
Proof. vm_compute. auto. Qed.

(** ** The specification's example record *)

Definition example_record : dict :=
  [ (u "status", JStr (u "success"));
    (u "posts", JList [JStr (repeat 65%N 600)]);
    (u "posts_count", JInt 1);
    (u "html_length", JInt 2048);
    (u "scraped_at", JStr (u "2024-01-01T00:00:00Z")) ].

(** The HTML report of the example record, around its date, its page-size
    card and its one post. *)
Definition example_top : str :=
  q "
<!DOCTYPE html>
<html lang=`ko`>
<head>
    <meta charset=`UTF-8`>
    <meta name=`viewport` content=`width=device-width, initial-scale=1.0`>
    <title>Threads Crawl Report - ".

Definition example_header : str :=
  q "</title>
    <style>
        body { font-family: -apple-system, BlinkMacSystemFont, 'Segoe UI', Roboto, sans-serif; max-width: 900px; margin: 0 auto; padding: 20px; background: #f5f5f5; }
        .header { background: linear-gradient(135deg, #667eea 0%, #764ba2 100%); color: white; padding: 30px; border-radius: 12px; margin-bottom: 20px; }
        .stats { display: grid; grid-template-columns: repeat(auto-fit, minmax(150px, 1fr)); gap: 15px; margin-bottom: 20px; }
        .stat-card { background: white; padding: 20px; border-radius: 8px; text-align: center; box-shadow: 0 2px 4px rgba(0,0,0,0.1); }
        .stat-value { font-size: 2em; font-weight: bold; color: #667eea; }
        .stat-label { color: #666; margin-top: 5px; }
        .posts { background: white; border-radius: 8px; padding: 20px; }
        .post { border-bottom: 1px solid #eee; padding: 15px 0; }
        .post:last-child { border-bottom: none; }
        .status-success { color: #10b981; }
        .status-error { color: #ef4444; }
        .timestamp { color: #888; font-size: 0.9em; }
    </style>
</head>
<body>
    <div class=`header`>
        <h1>📊 Threads Crawl Report</h1>
        <p class=`timestamp`>Generated: 2024-01-01T00:00:00Z</p>
    </div>
    
    <div class=`stats`>
        <div class=`stat-card`>
            <div class=`stat-value status-success`>
                SUCCESS
            </div>
            <div class=`stat-label`>Status</div>
        </div>
        <div class=`stat-card`>
            <div class=`stat-value`>1</div>
            <div class=`stat-label`>Posts Captured</div>
        </div>
        <div class=`stat-card`>
            ".

Definition example_between : str :=
  q "
            <div class=`stat-label`>Page Size</div>
        </div>
    </div>
    
    <div class=`posts`>
        <h2>📝 Captured Content</h2>
        
        ".

Definition example_bottom : str :=
  u "
        
        
    </div>
</body>
</html>".

(** C7: for the example record the HTML report's post list shows exactly
    300 characters "A" followed by the ellipsis, and the page-size card
    shows "2.0KB". *)
Theorem example_record_html (unicode : Unicode) (now : str) :
  render HTML_TEMPLATE (with_defaults now example_record)
  = Ok (example_top ++ now ++ example_header
          ++ q "<div class=`stat-value`>2.0KB</div>"
          ++ example_between
          ++ q "<div class=`post`>" ++ repeat 65%N 300 ++ u "...</div>"
          ++ example_bottom).
Proof. vm_compute. reflexivity. Qed.

(** ** The Reporter and the file system *)

(** What every step after the first keeps: the calls already made, and
    the directory [reports] once it is there. *)
Definition keeps (w w' : world) : Prop :=
  (exists rest, calls w' = calls w ++ rest)
  /\ (fs w !! "reports" = Some Dir -> fs w' !! "reports" = Some Dir).

Definition steady {A} (m : M world error A) : Prop :=
  forall w, keeps w (fst (m w)).

Lemma keeps_refl w : keeps w w.
Proof. split; [exists []; symmetry; apply app_nil_r | auto]. Qed.

Lemma keeps_trans w1 w2 w3 : keeps w1 w2 -> keeps w2 w3 -> keeps w1 w3.
Proof.
  intros [[r1 H1] F1] [[r2 H2] F2]. split; [|auto].
  exists (r1 ++ r2). rewrite H2, H1. symmetry. apply app_assoc.
Qed.

Lemma steady_bind {A B} (m : M world error A) (k : A -> M world error B) :
  steady m -> (forall a, steady (k a)) -> steady (bind m k).
Proof.
  intros Hm Hk w. unfold bind. specialize (Hm w).
  destruct (m w) as [w1 [a|e]]; cbn [fst] in *; [|exact Hm].
  eapply keeps_trans; [exact Hm | apply Hk].
Qed.

Lemma steady_ret {A} (a : A) : steady (ret a).
Proof. intros w. apply keeps_refl. Qed.

Lemma steady_raise {A} e : steady (raise (A := A) e).
Proof. intros w. apply keeps_refl. Qed.

Lemma steady_lift {A} (r : result error A) : steady (lift r).
Proof. intros w. apply keeps_refl. Qed.

Lemma steady_gets {A} (f : world -> A) : steady (gets f).
Proof. intros w. apply keeps_refl. Qed.

Lemma steady_called c : steady (called c).
Proof. intros w. split; [exists [c]; reflexivity | auto]. Qed.

Lemma steady_print line : steady (print line).
Proof. intros w. split; [exists []; symmetry; apply app_nil_r | auto]. Qed.

Lemma steady_path_exists p : steady (path_exists p).
Proof.
  unfold path_exists. apply steady_bind; [apply steady_called | intros _].
  apply steady_bind; [apply steady_gets | intros files]. apply steady_ret.
Qed.

Lemma steady_read_text p : steady (read_text p).
Proof.
  unfold read_text. apply steady_bind; [apply steady_called | intros _].
  apply steady_bind; [apply steady_gets | intros files].
  destruct (files !! p) as [[|c| |]|]; try (apply steady_ret || apply steady_raise).
  apply steady_bind; [apply steady_lift | intros _; apply steady_raise].
Qed.

Lemma steady_write_text p text : p <> "reports" -> steady (write_text p text).
Proof.
  intros Hp. unfold write_text, write_chunks.
  apply steady_bind; [apply steady_called | intros _].
  apply steady_bind; [apply steady_gets | intros files].
  assert (Hins : forall t, steady (modify (E := error) (with_fs (insert p (File t))))).
  { intros t w. split; [exists []; symmetry; apply app_nil_r|].
    cbn. intros H. rewrite lookup_insert_ne by exact Hp. exact H. }
  destruct (files !! p) as [[|c| |]|];
    try apply steady_raise;
    (apply steady_bind; [apply steady_lift | intros _];
     apply steady_bind; [apply Hins | intros _];
     destruct (snd (write_all [text])); [apply steady_ret | apply steady_raise]).
Qed.

Section Reporter.
Context {unicode : Unicode}.
Variable json_load : str -> result error json.
Variable now : str.

(** The steps of [generate_reports] after the directory is made. *)
Definition after_mkdir : M world error unit :=
  (let latest_file := path_join OUTPUT_DIR "latest.json" in
   present <- path_exists latest_file ;;
   if negb present then
     print (u "No data file found")
   else
     text <- read_text latest_file ;;
     loaded <- lift (json_load text) ;;
     match loaded with
     | JDict data =>
         let data := with_defaults now data in
         html_content <- lift (render HTML_TEMPLATE data) ;;
         let html_file := path_join REPORTS_DIR "index.html" in
         write_text html_file html_content ;;;
         print (u "✓ Generated: " ++ u html_file) ;;;
         md_content <- lift (render MARKDOWN_TEMPLATE data) ;;
         let md_file := path_join REPORTS_DIR "report.md" in
         write_text md_file md_content ;;;
         print (u "✓ Generated: " ++ u md_file)
     | _ => raise TypeError
     end)%py.

Lemma generate_reports_split :
  generate_reports json_load now = bind (mkdir_exist_ok REPORTS_DIR) (fun _ => after_mkdir).
Proof. reflexivity. Qed.

Lemma steady_after_mkdir : steady after_mkdir.
Proof.
  unfold after_mkdir. cbv zeta.
  apply steady_bind; [apply steady_path_exists | intros present].
  destruct present; cbn [negb]; [|apply steady_print].
  apply steady_bind; [apply steady_read_text | intros text].
  apply steady_bind; [apply steady_lift | intros loaded].
  destruct loaded; try apply steady_raise.
  apply steady_bind; [apply steady_lift | intros html].
  apply steady_bind; [apply steady_write_text; discriminate | intros _].
  apply steady_bind; [apply steady_print | intros _].
  apply steady_bind; [apply steady_lift | intros md].
  apply steady_bind; [apply steady_write_text; discriminate | intros _].
  apply steady_print.
Qed.

(** What [mkdir] leaves, by what it found at [reports]. *)
Lemma mkdir_reports w :
  mkdir_exist_ok REPORTS_DIR w =
  match fs w !! "reports" with
  | Some Dir => (log (Mkdir "reports") w, Ok tt)
  | Some _ => (log (Mkdir "reports") w, Raise FileExistsError)
  | None => (with_fs (insert "reports" Dir) (log (Mkdir "reports") w), Ok tt)
  end.
Proof.
  unfold mkdir_exist_ok, called, modify, gets, lift, raise, ret, bind, REPORTS_DIR.
  cbn [fs log]. destruct (fs w !! "reports") as [[|c| |]|]; reflexivity.
Qed.

(** With no input file, the steps after [mkdir] check for it and print
    one line. *)
Lemma after_mkdir_absent w :
  fs w !! "output/latest.json" = None ->
  after_mkdir w = (say (u "No data file found") (log (Exists "output/latest.json") w), Ok tt).
Proof.
  intros H. unfold after_mkdir, path_exists, called, print, modify, gets, ret, bind.
  cbn [fs log]. change (path_join OUTPUT_DIR "latest.json") with "output/latest.json".
  rewrite H. reflexivity.
Qed.

(** The world the Reporter leaves when there is no input file and
    [reports] is absent or a directory. *)
Definition idle (w : world) : world :=
  {| fs := match fs w !! "reports" with
           | None => <["reports" := Dir]> (fs w)
           | Some _ => fs w
           end;
     calls := calls w ++ [Mkdir "reports"; Exists "output/latest.json"];
     stdout := stdout w ++ [u "No data file found"] |}.

Lemma generate_reports_absent w :
  fs w !! "output/latest.json" = None ->
  generate_reports json_load now w
  = match fs w !! "reports" with
    | None | Some Dir => (idle w, Ok tt)
    | Some _ => (log (Mkdir "reports") w, Raise FileExistsError)
    end.
Proof.
  intros H. rewrite generate_reports_split. unfold bind at 1. rewrite mkdir_reports.
  unfold idle.
  destruct (fs w !! "reports") as [[|c| |]|] eqn:Hr; try reflexivity.
  - rewrite after_mkdir_absent by exact H. unfold say, log; cbn.
    rewrite <- app_assoc. reflexivity.
  - rewrite after_mkdir_absent
      by (cbn; rewrite lookup_insert_ne by discriminate; exact H).
    unfold say, log, with_fs; cbn. rewrite <- app_assoc. reflexivity.
Qed.

End Reporter.

(** C9, as the code has it: when [output/latest.json] is absent and
    [reports] is absent or a directory, the Reporter returns without an
    exception, opens no file for writing (its calls are the [mkdir] and the
    existence check) and leaves every file as it was. *)
Theorem absent_input_no_report
    (unicode : Unicode) (json_load : str -> result error json) (now : str) (w : world) :
  fs w !! "output/latest.json" = None ->
  fs w !! "reports" = None \/ fs w !! "reports" = Some Dir ->
  snd (generate_reports json_load now w) = Ok tt
  /\ calls (fst (generate_reports json_load now w))
     = calls w ++ [Mkdir "reports"; Exists "output/latest.json"]
  /\ (forall p c, fs (fst (generate_reports json_load now w)) !! p = Some (File c)
                  <-> fs w !! p = Some (File c)).
Proof.
  intros Habsent Hdir. rewrite generate_reports_absent by exact Habsent.
  destruct Hdir as [Hr|Hr]; rewrite Hr.
  - cbn. rewrite Hr. repeat split; intros H.
    + destruct (decide (p = "reports")) as [->|Hp].
      * rewrite lookup_insert_eq in H. discriminate.
      * rewrite lookup_insert_ne in H by auto. exact H.
    + destruct (decide (p = "reports")) as [->|Hp].
      * congruence.
      * rewrite lookup_insert_ne by auto. exact H.
  - cbn. rewrite Hr. repeat split; auto.
Qed.

(** A [json.load] for closed examples whose input is never read. *)
Definition no_json : str -> result error json := fun _ => Raise JSONDecodeError.

Lemma absent_input_no_report_witness :
  snd (generate_reports (unicode := ascii_tables) no_json (u "2024-01-01 00:00") Scraper.empty_world)
  = Ok tt
  /\ calls (fst (generate_reports (unicode := ascii_tables) no_json (u "2024-01-01 00:00")
                   Scraper.empty_world))
     = calls Scraper.empty_world ++ [Mkdir "reports"; Exists "output/latest.json"]
  /\ (forall p c,
         fs (fst (generate_reports (unicode := ascii_tables) no_json (u "2024-01-01 00:00")
                    Scraper.empty_world)) !! p = Some (File c)
         <-> fs Scraper.empty_world !! p = Some (File c)).
Proof.
  apply (absent_input_no_report ascii_tables no_json (u "2024-01-01 00:00") Scraper.empty_world).
  - reflexivity.
  - left. reflexivity.
Defined.

(** A working directory in which [reports] is a regular file. *)
Definition reports_is_a_file : world :=
  {| fs := {[ "reports" := File (u "notes") ]}; calls := []; stdout := [] |}.

(** C9 as stated fails: the input file is absent and the Reporter raises,
    at [mkdir]. *)
Lemma absent_input_can_raise :
  fs reports_is_a_file !! "output/latest.json" = None
  /\ snd (generate_reports (unicode := ascii_tables) no_json (u "2024-01-01 00:00")
            reports_is_a_file)
     = Raise FileExistsError.
Proof. vm_compute. auto. Qed.

(** A working directory in which [reports] is a symbolic link that leads
    nowhere. *)
Definition reports_is_a_dead_link : world :=
  {| fs := {[ "reports" := DeadLink ]}; calls := []; stdout := [] |}.

(** There too [mkdir] finds the name taken and the Reporter raises. *)
Example dead_link_blocks_the_reporter :
  snd (generate_reports (unicode := ascii_tables) no_json (u "2024-01-01 00:00")
         reports_is_a_dead_link)
  = Raise FileExistsError.
Proof. vm_compute. reflexivity. Qed.

(** C10: on every run of the Reporter the first call is the [mkdir] of
    [reports], so it comes before the existence check, and a missing
    [reports] is a directory afterwards; with the input file absent
    nothing else in the file system changes. *)
Theorem reports_dir_made_first
    (unicode : Unicode) (json_load : str -> result error json) (now : str) (w : world) :
  (exists rest, calls (fst (generate_reports json_load now w))
                = calls w ++ Mkdir "reports" :: rest)
  /\ (fs w !! "reports" = None ->
      fs (fst (generate_reports json_load now w)) !! "reports" = Some Dir)
  /\ (fs w !! "output/latest.json" = None ->
      (exists rest, calls (fst (generate_reports json_load now w))
                    = calls w ++ Mkdir "reports" :: rest
                    /\ (rest = [] \/ rest = [Exists "output/latest.json"]))
      /\ fs (fst (generate_reports json_load now w))
         = match fs w !! "reports" with
           | None => <["reports" := Dir]> (fs w)
           | Some _ => fs w
           end).
Proof.
  split; [|split].
  - rewrite generate_reports_split. unfold bind. rewrite mkdir_reports.
    destruct (fs w !! "reports") as [[|c| |]|]; cbn [fst];
      try (exists []; reflexivity).
    + destruct (steady_after_mkdir json_load now (log (Mkdir "reports") w))
        as [[rest Hrest] _].
      exists rest. rewrite Hrest. cbn. rewrite <- app_assoc. reflexivity.
    + destruct (steady_after_mkdir json_load now
                  (with_fs (insert "reports" Dir) (log (Mkdir "reports") w)))
        as [[rest Hrest] _].
      exists rest. rewrite Hrest. cbn. rewrite <- app_assoc. reflexivity.
  - intros Hr. rewrite generate_reports_split. unfold bind. rewrite mkdir_reports, Hr.
    apply (steady_after_mkdir json_load now). cbn. apply lookup_insert_eq.
  - intros Habsent. rewrite generate_reports_absent by exact Habsent.
    destruct (fs w !! "reports") as [[|c| |]|] eqn:Hr; cbn; rewrite ?Hr.
    + split; [|reflexivity]. eexists. split; [reflexivity | right; reflexivity].
    + split; [|reflexivity]. exists []. split; [reflexivity | left; reflexivity].
    + split; [|reflexivity]. exists []. split; [reflexivity | left; reflexivity].
    + split; [|reflexivity]. exists []. split; [reflexivity | left; reflexivity].
    + split; [|reflexivity]. eexists. split; [reflexivity | right; reflexivity].
Qed.

End ReportSpec.

(* ===================================================================== *)
(** * Effects: what a run leaves alone and what it can raise *)
(* ===================================================================== *)

Module Effects.
Import Py.

(** ** What a computation leaves as it found it

    [respects R m]: every run of [m], returning or raising, ends in a state
    related by [R] to the one it started in. *)
Section Respects.
Context {S : Type} (R : S -> S -> Prop) `{!PreOrder R}.

Definition respects {E A} (m : M S E A) : Prop := forall s, R s (fst (m s)).

Lemma respects_ret {E A} (a : A) : respects (ret (E := E) a).
Proof. intros s. reflexivity. Qed.

Lemma respects_raise {E A} (e : E) : respects (raise (A := A) e).
Proof. intros s. reflexivity. Qed.

Lemma respects_lift {E A} (r : result E A) : respects (lift r).
Proof. intros s. reflexivity. Qed.

Lemma respects_gets {E A} (f : S -> A) : respects (gets (E := E) f).
Proof. intros s. reflexivity. Qed.

Lemma respects_modify {E} (f : S -> S) :
  (forall s, R s (f s)) -> respects (modify (E := E) f).
Proof. intros H s. apply H. Qed.

Lemma respects_bind {E A B} (m : M S E A) (k : A -> M S E B) :
  respects m -> (forall a, respects (k a)) -> respects (bind m k).
Proof.
  intros Hm Hk s. unfold bind. specialize (Hm s).
  destruct (m s) as [s1 [a|e]]; cbn [fst] in *; [|exact Hm].
  transitivity s1; [exact Hm | apply Hk].
Qed.

Lemma respects_try_except {E A} (m : M S E A) (h : E -> M S E A) :
  respects m -> (forall e, respects (h e)) -> respects (try_except m h).
Proof.
  intros Hm Hh s. unfold try_except. specialize (Hm s).
  destruct (m s) as [s1 [a|e]]; cbn [fst] in *; [exact Hm|].
  transitivity s1; [exact Hm | apply Hh].
Qed.

Lemma respects_try_finally {E A} (m : M S E A) (f : M S E unit) :
  respects m -> respects f -> respects (try_finally m f).
Proof.
  intros Hm Hf s. unfold try_finally. specialize (Hm s).
  destruct (m s) as [s1 r]; cbn [fst] in *. specialize (Hf s1).
  destruct (f s1) as [s2 [[]|e]]; cbn [fst] in *; transitivity s1; assumption.
Qed.

Lemma respects_map_error {E E' A} (g : E -> E') (m : M S E A) :
  respects m -> respects (map_error g m).
Proof.
  intros Hm s. unfold map_error. specialize (Hm s).
  destruct (m s) as [s1 [a|e]]; exact Hm.
Qed.

(** What follows a step that has been run keeps [R] from where the step
    ended. *)
Lemma respects_rest {E A B} (m : M S E A) (k : A -> M S E B) :
  (forall a, respects (k a)) -> forall s, R (fst (m s)) (fst (bind m k s)).
Proof.
  intros Hk s. unfold bind. destruct (m s) as [s1 [a|e]]; cbn [fst]; [apply Hk | reflexivity].
Qed.

End Respects.

(** ** What a computation can raise *)

Definition raises_only {S E A} (P : E -> Prop) (m : M S E A) : Prop :=
  forall s e, snd (m s) = Raise e -> P e.

Section RaisesOnly.
Context {S E : Type} (P : E -> Prop).



Lemma raises_only_lift {A} (r : result E A) :
  (forall e, r = Raise e -> P e) -> raises_only P (lift (S := S) r).
Proof. intros Hr s e H. apply Hr, H. Qed.




End RaisesOnly.

Lemma try_finally_run {S E A} (m : M S E A) (f : M S E unit) s :
  try_finally m f s
  = (fst (f (fst (m s))),
     match snd (f (fst (m s))) with
     | Ok _ => snd (m s)
     | Raise e => Raise e
     end).
Proof.
  unfold try_finally. destruct (m s) as [s1 r]; cbn [fst snd].
  destruct (f s1) as [s2 [[]|e]]; reflexivity.
Qed.

Lemma fst_try_finally {S E A} (m : M S E A) (f : M S E unit) s :
  fst (try_finally m f s) = fst (f (fst (m s))).
Proof.
  unfold try_finally. destruct (m s) as [s1 r]; cbn [fst].
  destruct (f s1) as [s2 [[]|e]]; reflexivity.
Qed.

(** ** The world: calls, printing, files *)

Lemma respects_called (R : world -> world -> Prop) {E} c :
  (forall w, R w (log c w)) -> respects R (called (E := E) c).
Proof. intros H w. apply H. Qed.

Lemma respects_print (R : world -> world -> Prop) {E} line :
  (forall w, R w (say line w)) -> respects R (print (E := E) line).
Proof. intros H w. apply H. Qed.

Ltac walk_with leaf :=
  repeat first
    [ leaf
    | apply respects_ret; [exact _]
    | apply respects_raise; [exact _]
    | apply respects_lift; [exact _]
    | apply respects_gets; [exact _]
    | apply respects_map_error
    | apply respects_bind; [exact _ | | intros ?]
    | apply respects_try_except; [exact _ | | intros ?]
    | apply respects_try_finally; [exact _ | | ] ].

Ltac walk := walk_with fail.

(** ** Two invariants *)

(** The files outside [touched] are as they were. *)
Definition same_files_outside (touched : string -> Prop) (w w' : world) : Prop :=
  forall p, ~ touched p -> fs w' !! p = fs w !! p.

#[export] Instance same_files_outside_preorder touched : PreOrder (same_files_outside touched).
Proof.
  split.
  - intros w p _. reflexivity.
  - intros w1 w2 w3 H1 H2 p Hp. rewrite (H2 p Hp). apply H1, Hp.
Qed.

(** No call that [P] selects has been made. *)
Definition none_called (P : call -> bool) (w w' : world) : Prop :=
  List.filter P (calls w') = List.filter P (calls w).

#[export] Instance none_called_preorder P : PreOrder (none_called P).
Proof.
  split.
  - intros w. reflexivity.
  - intros w1 w2 w3 H1 H2. unfold none_called in *. congruence.
Qed.

Lemma none_called_log P c w : P c = false -> none_called P w (log c w).
Proof.
  intros H. unfold none_called, log. cbn [calls].
  rewrite List.filter_app. cbn [List.filter]. rewrite H. apply app_nil_r.
Qed.


Lemma respects_write_chunks (R : world -> world -> Prop) `{!PreOrder R} p chunks :
  (forall w, R w (log (OpenWrite p) w)) ->
  (forall text w, R w (with_fs (insert p (File text)) w)) ->
  respects R (write_chunks p chunks).
Proof.
  intros Hlog Hfs. unfold write_chunks. walk; [apply respects_called, Hlog|].
  match goal with |- context [?m !! p] => destruct (m !! p) as [[|c| |]|] end; walk;
    first [ apply respects_modify, Hfs
          | destruct (snd (write_all chunks)); walk ].
Qed.


Lemma respects_json_dump (R : world -> world -> Prop) `{!PreOrder R} p v :
  (forall w, R w (log (OpenWrite p) w)) ->
  (forall text w, R w (with_fs (insert p (File text)) w)) ->
  respects R (json_dump p v).
Proof. apply respects_write_chunks. exact _. Qed.

Lemma same_files_log touched c w : same_files_outside touched w (log c w).
Proof. intros p _. reflexivity. Qed.

Lemma same_files_say touched line w : same_files_outside touched w (say line w).
Proof. intros p _. reflexivity. Qed.

Lemma same_files_insert (touched : string -> Prop) p n w :
  touched p -> same_files_outside touched w (with_fs (insert p n) w).
Proof.
  intros Hp p' Hp'. cbn [fs with_fs]. apply lookup_insert_ne. intros ->. exact (Hp' Hp).
Qed.



(** ** Steps that succeed *)

(** [p] is absent or a directory: [mkdir] of it returns. *)
Definition dir_or_absent (w : world) (p : string) : Prop :=
  fs w !! p = None \/ fs w !! p = Some Dir.

(** [p] is absent or a regular file: it can be opened for writing when its
    directory is there. *)
Definition file_or_absent (w : world) (p : string) : Prop :=
  fs w !! p = None \/ exists c, fs w !! p = Some (File c).

Lemma path_exists_run p w c :
  fs w !! p = Some (File c) -> path_exists p w = (log (Exists p) w, Ok true).
Proof.
  intros H. unfold path_exists, bind, called, modify, gets, ret. cbn [fs log]. rewrite H.
  reflexivity.
Qed.

Lemma read_text_run p w c :
  fs w !! p = Some (File c) -> read_text p w = (log (OpenRead p) w, Ok c).
Proof.
  intros H. unfold read_text, bind, called, modify, gets. cbn [fs log]. rewrite H. reflexivity.
Qed.


Lemma bind_run {S E A B} (m : M S E A) (k : A -> M S E B) s s1 a :
  m s = (s1, Ok a) -> bind m k s = k a s1.
Proof. intros H. unfold bind. rewrite H. reflexivity. Qed.

Lemma mkdir_here p w :
  dirname p = EmptyString -> dir_or_absent w p ->
  mkdir_exist_ok p w
  = ({| fs := <[p := Dir]> (fs w); calls := calls w ++ [Mkdir p]; stdout := stdout w |}, Ok tt).
Proof.
  intros Hd [E|E]; unfold mkdir_exist_ok, bind, called, modify, gets, log;
    cbn [fs calls stdout]; rewrite E.
  - unfold lift, parent_check. rewrite Hd. reflexivity.
  - unfold ret. rewrite insert_id by exact E. reflexivity.
Qed.

Lemma mkdir_blocked p w n :
  fs w !! p = Some n -> n <> Dir ->
  mkdir_exist_ok p w = (log (Mkdir p) w, Raise FileExistsError).
Proof.
  intros H Hn. unfold mkdir_exist_ok, bind, called, modify, gets. cbn [fs log]. rewrite H.
  destruct n; [destruct Hn|..]; reflexivity.
Qed.

(** The state when [p] has been opened for writing and holds [text]. *)
Definition written (p : string) (text : str) (w : world) : world :=
  {| fs := <[p := File text]> (fs w); calls := calls w ++ [OpenWrite p]; stdout := stdout w |}.

Lemma write_chunks_run p chunks w :
  file_or_absent w p -> parent_check p (fs w) = Ok tt ->
  write_chunks p chunks w
  = (written p (fst (write_all chunks)) w,
     if snd (write_all chunks) then Ok tt else Raise UnicodeEncodeError).
Proof.
  intros Hp Hparent. unfold write_chunks, bind, called, modify, gets, lift, log, written.
  cbn [fs calls stdout].
  destruct Hp as [E|[c E]]; rewrite E, Hparent; destruct (snd (write_all chunks)); reflexivity.
Qed.


(** A text that can be encoded is written whole. *)
Lemma write_text_run p text w :
  file_or_absent w p -> parent_check p (fs w) = Ok tt -> encodes text = true ->
  write_text p text w = (written p text w, Ok tt).
Proof.
  intros Hp Hparent Henc. unfold write_text. rewrite write_chunks_run by assumption.
  cbn [write_all]. rewrite Henc, app_nil_r. reflexivity.
Qed.

(** One that cannot leaves the file empty. *)
Lemma write_text_fails p text w :
  file_or_absent w p -> parent_check p (fs w) = Ok tt -> encodes text = false ->
  write_text p text w = (written p [] w, Raise UnicodeEncodeError).
Proof.
  intros Hp Hparent Henc. unfold write_text. rewrite write_chunks_run by assumption.
  cbn [write_all]. rewrite Henc. reflexivity.
Qed.




End Effects.

(* ===================================================================== *)
(** * More on the Fetcher *)
(* ===================================================================== *)

Module ScraperMore.
Import Py Scraper ScraperSpec Effects.

(** ** What the code run on the page leaves alone *)

Lemma page_call_run {A} c (r : result exn A) w : page_call c r w = (log c w, r).
Proof. reflexivity. Qed.

Lemma respects_page_call (R : world -> world -> Prop) `{!PreOrder R} {A} c (r : result exn A) :
  (forall w, R w (log c w)) -> respects R (page_call c r).
Proof.
  intros H. unfold page_call. apply respects_bind; [exact _ | |intros _].
  - apply respects_called, H.
  - apply respects_lift. exact _.
Qed.


(** The calls made between opening the page and closing the browser. *)
Definition on_page (c : call) : bool :=
  match c with
  | Goto _ _ | IsVisible _ | Click _ | WaitForLoadState _ | Screenshot _
  | ScrollTo | WaitForTimeout _ | ScrollHeight | Title | QueryPosts | Content => true
  | _ => false
  end.

(** What the name of a screenshot starts with. *)
Definition shot_name (s : shot) : string :=
  match s with
  | BeforeScroll => "before_scroll_"
  | AfterScroll => "after_scroll_"
  | ErrorState => "error_"
  end.

(** The file of a screenshot. *)
Definition shot_file (cfg : config) (b : browser) (s : shot) : string :=
  path_join (screenshot_dir cfg) (shot_name s +:+ timestamp b +:+ ".png").

Section Page.
Variable R : world -> world -> Prop.
Context `{!PreOrder R}.
Hypothesis R_log : forall c w, on_page c = true -> R w (log c w).
Hypothesis R_say : forall line w, R w (say line w).
Variable cfg : config.
Variable b : browser.
Hypothesis R_shot : forall s png w,
  R w (with_fs (insert (shot_file cfg b s) (File png)) w).

Lemma respects_on_page {A} c (r : result exn A) :
  on_page c = true -> respects R (page_call c r).
Proof. intros H. apply respects_page_call; [exact _|]. intros w. apply R_log, H. Qed.

Lemma respects_handle_popups_from selectors :
  forall i, respects R (handle_popups_from b i selectors).
Proof.
  induction selectors as [|s rest IH]; intros i; cbn [handle_popups_from].
  - apply respects_ret. exact _.
  - apply respects_bind; [exact _ | | intros _; apply IH].
    unfold handle_popup. walk.
    + apply respects_on_page. reflexivity.
    + match goal with v : bool |- _ => destruct v end; walk;
        apply respects_on_page; reflexivity.
Qed.

Lemma respects_scroll_loop max pause range :
  forall prev, respects R (scroll_loop b max pause range prev).
Proof.
  induction range as [|i rest IH]; intros prev; cbn [scroll_loop].
  - apply respects_ret. exact _.
  - walk; try (apply respects_on_page; reflexivity).
    match goal with |- context [?x =? prev] => destruct (x =? prev) end.
    + apply respects_print, R_say.
    + walk; [apply respects_print, R_say | apply IH].
Qed.

Lemma respects_take_screenshot s :
  respects R (take_screenshot b s (shot_file cfg b s)).
Proof.
  unfold take_screenshot. walk; [apply respects_on_page; reflexivity|].
  apply respects_modify. intros w. apply R_shot.
Qed.

Lemma respects_extract_content : respects R (extract_content b).
Proof. unfold extract_content. walk; apply respects_on_page; reflexivity. Qed.

Lemma respects_attempt : respects R (attempt cfg b).
Proof.
  unfold attempt.
  walk_with ltac:(first
    [ apply respects_on_page; reflexivity
    | apply respects_handle_popups_from
    | apply (respects_take_screenshot BeforeScroll)
    | apply (respects_take_screenshot AfterScroll)
    | apply respects_scroll_loop
    | apply respects_extract_content
    | apply respects_print, R_say ]).
  match goal with e : exn |- _ => destruct (is_PlaywrightTimeout e) end.
  - apply respects_print, R_say.
  - apply respects_raise. exact _.
Qed.

Lemma respects_on_exception e : respects R (on_exception cfg b e).
Proof.
  unfold on_exception. destruct (is_Exception e);
    walk_with ltac:(first
      [ apply (respects_take_screenshot ErrorState) | apply respects_print, R_say ]).
Qed.

(** The [try] with its [except Exception] clause. *)
Lemma respects_guarded_attempt :
  respects R (try_except (attempt cfg b) (on_exception cfg b)).
Proof.
  apply respects_try_except; [exact _ | apply respects_attempt | apply respects_on_exception].
Qed.

End Page.

(** ** The parts of [main] *)

(** Saving the record: the two files and the closing line. *)
Definition save (cfg : config) (b : browser) (data : dict) : M world raised dict :=
  (let output_file := path_join (output_dir cfg) ("threads_" +:+ timestamp b +:+ ".json") in
   map_error Os (json_dump output_file (JDict data)) ;;;
   let latest_file := path_join (output_dir cfg) "latest.json" in
   map_error Os (json_dump latest_file (JDict data)) ;;;
   print (u "✓ Results saved to: " ++ u output_file) ;;;
   ret data)%py.

Lemma main_parts target b :
  main target b =
  (map_error Os (mkdir_exist_ok "output") ;;;
   map_error Os (mkdir_exist_ok "screenshots") ;;;
   data <- map_error Browser (crawl (CONFIG target) b) ;;
   save (CONFIG target) b data)%py.
Proof. reflexivity. Qed.

(** Each of [output] and [screenshots] is absent or a directory, so both
    calls of [mkdir] return. *)
Definition dirs_ready (w : world) : Prop :=
  dir_or_absent w "output" /\ dir_or_absent w "screenshots".

(** The state once both directories are there. *)
Definition with_dirs (w : world) : world :=
  {| fs := <["screenshots" := Dir]> (<["output" := Dir]> (fs w));
     calls := calls w ++ [Mkdir "output"; Mkdir "screenshots"];
     stdout := stdout w |}.

Lemma main_from_dirs target b w :
  dirs_ready w ->
  main target b w
  = bind (map_error Browser (crawl (CONFIG target) b)) (save (CONFIG target) b) (with_dirs w).
Proof.
  intros [Ho Hs]. rewrite main_parts.
  unfold bind at 1. unfold map_error at 1. rewrite (mkdir_here "output" w eq_refl Ho).
  unfold bind at 1. unfold map_error at 1. rewrite mkdir_here; [|reflexivity|].
  - cbn [fs calls stdout]. unfold with_dirs. rewrite <- app_assoc. reflexivity.
  - unfold dir_or_absent. cbn [fs]. rewrite lookup_insert_ne by discriminate. exact Hs.
Qed.

(** The state when the page has been opened. *)
Definition opened (cfg : config) (w : world) : world :=
  say (u "Navigating to: " ++ url cfg)
    (log NewPage (log (NewContext (viewport cfg) (user_agent cfg)) (log Launch (log Start w)))).

Lemma crawl_opened cfg b w :
  start b = Ok tt -> launch b = Ok tt -> new_context b = Ok tt -> new_page b = Ok tt ->
  fst (crawl cfg b w)
  = log Stop (log Close (fst (try_except (attempt cfg b) (on_exception cfg b) (opened cfg w)))).
Proof.
  intros H1 H2 H3 H4. unfold crawl.
  rewrite (bind_run _ _ w (log Start w) tt) by (rewrite page_call_run, H1; reflexivity).
  rewrite fst_try_finally, page_call_run. cbn [fst]. f_equal.
  rewrite (bind_run _ _ _ (log (NewContext (viewport cfg) (user_agent cfg))
                             (log Launch (log Start w))) tt).
  2:{ unfold create_browser_context.
      rewrite (bind_run _ _ _ (log Launch (log Start w)) tt)
        by (rewrite page_call_run, H2; reflexivity).
      rewrite page_call_run, H3. reflexivity. }
  rewrite (bind_run _ _ _ _ tt) by (rewrite page_call_run, H4; reflexivity).
  rewrite (bind_run _ _ _ (opened cfg w) tt) by reflexivity.
  rewrite fst_try_finally, page_call_run. reflexivity.
Qed.

Definition is_close (c : call) : bool := match c with Close => true | _ => false end.
Definition is_stop (c : call) : bool := match c with Stop => true | _ => false end.

(** How often the browser was closed and the driver stopped. *)
Definition closes (w : world) : nat := List.length (List.filter is_close (calls w)).
Definition stops (w : world) : nat := List.length (List.filter is_stop (calls w)).

Lemma attempt_none_called P cfg b :
  (forall c, on_page c = true -> P c = false) ->
  respects (none_called P) (try_except (attempt cfg b) (on_exception cfg b)).
Proof.
  intros HP. apply respects_guarded_attempt; [exact _ | | reflexivity | reflexivity].
  intros c w Hc. apply none_called_log, HP, Hc.
Qed.

Lemma save_none_called P cfg b d :
  (forall p, P (OpenWrite p) = false) -> respects (none_called P) (save cfg b d).
Proof.
  intros HP. unfold save. cbv zeta.
  walk_with ltac:(first
    [ apply respects_json_dump;
      [exact _ | intros ?; apply none_called_log, HP | intros ? ?; reflexivity]
    | apply respects_print; reflexivity ]).
Qed.

Lemma count_after_crawl P target b w :
  dirs_ready w ->
  start b = Ok tt -> launch b = Ok tt -> new_context b = Ok tt -> new_page b = Ok tt ->
  (forall c, on_page c = true -> P c = false) ->
  (forall p, P (OpenWrite p) = false) ->
  P (Mkdir "output") = false -> P (Mkdir "screenshots") = false ->
  P Start = false -> P Launch = false ->
  (forall v a, P (NewContext v a) = false) -> P NewPage = false ->
  List.filter P (calls (fst (main target b w)))
  = List.filter P (calls w) ++ List.filter P [Close; Stop].
Proof.
  intros Hd H1 H2 H3 H4 Hpage Hwrite Ho Hs Hstart Hlaunch Hctx Hnew.
  rewrite (main_from_dirs _ _ _ Hd).
  pose proof (respects_rest (none_called P) (map_error Browser (crawl (CONFIG target) b)) _
                (fun d => save_none_called P (CONFIG target) b d Hwrite) (with_dirs w)) as Hrest.
  unfold none_called in Hrest. rewrite Hrest. clear Hrest.
  assert (E : fst (map_error Browser (crawl (CONFIG target) b) (with_dirs w))
              = fst (crawl (CONFIG target) b (with_dirs w))).
  { unfold map_error. destruct (crawl _ _ _) as [w' [d|e]]; reflexivity. }
  rewrite E, crawl_opened by assumption.
  cbn [log calls]. rewrite <- app_assoc, List.filter_app.
  pose proof (attempt_none_called P (CONFIG target) b Hpage (opened (CONFIG target) (with_dirs w)))
    as Hpg.
  unfold none_called in Hpg. rewrite Hpg. clear Hpg.
  unfold opened, say, log, with_dirs. cbn [calls].
  rewrite !List.filter_app. cbn [List.filter].
  rewrite Ho, Hs, Hstart, Hlaunch, Hctx, Hnew. cbn [app]. rewrite !app_nil_r.
  destruct (P Close), (P Stop); reflexivity.
Qed.

(** X1: [main] closes the browser whenever it has opened the page: once, on
    every way out of the [try] (a record extracted, an [Exception] turned
    into an error record, anything else passing through), and the
    playwright driver is stopped once as well. *)
Theorem browser_closed_exactly_once (target : option str) (b : browser) (w : world) :
  dirs_ready w ->
  start b = Ok tt -> launch b = Ok tt -> new_context b = Ok tt -> new_page b = Ok tt ->
  closes (fst (main target b w)) = S (closes w)
  /\ stops (fst (main target b w)) = S (stops w).
Proof.
  intros Hd H1 H2 H3 H4. unfold closes, stops.
  rewrite !(count_after_crawl _ target b w Hd H1 H2 H3 H4);
    try reflexivity; try (intros [] ?; (reflexivity || discriminate)).
  cbn [List.filter is_close is_stop]. rewrite !length_app. cbn [List.length]. lia.
Qed.

(** A run interrupted while the page loads, by something that is not an
    [Exception]. *)
Definition interrupted : browser :=
  sample (Raise {| class := NotException; message := u "KeyboardInterrupt" |})
         (Ok (u "Threads")) [] [] (u "about:blank").

Lemma dirs_ready_empty : dirs_ready empty_world.
Proof. split; left; apply lookup_empty. Qed.

Lemma browser_closed_exactly_once_witness :
  closes (fst (main None interrupted empty_world)) = S (closes empty_world)
  /\ stops (fst (main None interrupted empty_world)) = S (stops empty_world).
Proof.
  apply (browser_closed_exactly_once None interrupted empty_world);
    [exact dirs_ready_empty | reflexivity ..].
Defined.

(** ** The files [main] writes *)

(** The paths of the two result files. *)
Definition output_file (b : browser) : string :=
  path_join "output" ("threads_" +:+ timestamp b +:+ ".json").
Definition latest_file : string := path_join "output" "latest.json".







(** ** [handle_popups] *)

(** The calls of one pass of the loop over the selectors. *)
Definition popup_calls (b : browser) (i : nat) (selector : str) : list call :=
  IsVisible selector ::
  match is_visible b i with
  | Ok true =>
      Click selector ::
      match click b i with
      | Ok _ => [WaitForTimeout 500]
      | Raise _ => []
      end
  | _ => []
  end.

Fixpoint popups_trace (b : browser) (i : nat) (selectors : list str) : list call :=
  match selectors with
  | [] => []
  | selector :: rest => popup_calls b i selector ++ popups_trace b (S i) rest
  end.

Lemma handle_popup_run b i selector w :
  handle_popup b i selector w
  = ({| fs := fs w; calls := calls w ++ popup_calls b i selector; stdout := stdout w |}, Ok tt).
Proof.
  unfold handle_popup, popup_calls, try_except.
  rewrite (surjective_pairing (bind _ _ w)).
  unfold bind at 1. rewrite page_call_run.
  destruct (is_visible b i) as [[|]|e]; [|reflexivity..].
  unfold bind. rewrite !page_call_run.
  destruct (click b i) as [[]|e]; [destruct (popup_pause b i) as [[]|e]|];
    unfold log, ret; cbn [fs calls stdout]; repeat rewrite <- app_assoc; reflexivity.
Qed.

Lemma handle_popups_from_run b selectors :
  forall i w,
    handle_popups_from b i selectors w
    = ({| fs := fs w; calls := calls w ++ popups_trace b i selectors; stdout := stdout w |}, Ok tt).
Proof.
  induction selectors as [|s rest IH]; intros i w; cbn [handle_popups_from popups_trace].
  - rewrite app_nil_r. destruct w; reflexivity.
  - unfold bind. rewrite handle_popup_run, IH. cbn [fs calls stdout].
    rewrite <- app_assoc. reflexivity.
Qed.

Definition is_visibility_check (c : call) : bool :=
  match c with IsVisible _ => true | _ => false end.

Definition is_click (c : call) : bool :=
  match c with Click _ => true | _ => false end.

(** The clicks on the selectors that were reported visible, in order. *)
Fixpoint clicks (b : browser) (i : nat) (selectors : list str) : list call :=
  match selectors with
  | [] => []
  | selector :: rest =>
      match is_visible b i with
      | Ok true => [Click selector]
      | _ => []
      end ++ clicks b (S i) rest
  end.

Lemma popups_trace_checks b selectors :
  forall i, List.filter is_visibility_check (popups_trace b i selectors) = map IsVisible selectors.
Proof.
  induction selectors as [|s rest IH]; intros i; cbn [popups_trace map]; [reflexivity|].
  rewrite List.filter_app, IH. unfold popup_calls.
  destruct (is_visible b i) as [[|]|e]; [destruct (click b i)|..]; reflexivity.
Qed.

Lemma popups_trace_clicks b selectors :
  forall i, List.filter is_click (popups_trace b i selectors) = clicks b i selectors.
Proof.
  induction selectors as [|s rest IH]; intros i; cbn [popups_trace clicks]; [reflexivity|].
  rewrite List.filter_app, IH. unfold popup_calls.
  destruct (is_visible b i) as [[|]|e]; [destruct (click b i)|..]; reflexivity.
Qed.

(** X3: [handle_popups] never raises, whatever the page does to its calls:
    it returns after asking once for each of the six selectors, in the
    order of the list, and has clicked exactly the selectors reported
    visible; it writes no file and prints nothing. *)
Theorem handle_popups_never_raises (b : browser) (w : world) :
  snd (handle_popups b w) = Ok tt
  /\ List.filter is_visibility_check (calls (fst (handle_popups b w)))
     = List.filter is_visibility_check (calls w) ++ map IsVisible popup_selectors
  /\ List.filter is_click (calls (fst (handle_popups b w)))
     = List.filter is_click (calls w) ++ clicks b 0 popup_selectors
  /\ fs (fst (handle_popups b w)) = fs w
  /\ stdout (fst (handle_popups b w)) = stdout w.
Proof.
  unfold handle_popups. rewrite handle_popups_from_run. cbn [fst snd fs calls stdout].
  rewrite !List.filter_app, popups_trace_checks, popups_trace_clicks. auto.
Qed.

(** ** What the body of the [try] can raise *)












(** What leaves the two [finally] blocks when the [try] ended with [r]: an
    exception of [browser.close()] or of the driver's exit replaces it. *)
Definition after_teardown {A} (b : browser) (r : result exn A) : result exn A :=
  match stop b with
  | Raise e => Raise e
  | Ok _ =>
      match close b with
      | Raise e => Raise e
      | Ok _ => r
      end
  end.

Lemma crawl_run cfg b w :
  start b = Ok tt -> launch b = Ok tt -> new_context b = Ok tt -> new_page b = Ok tt ->
  crawl cfg b w
  = (log Stop (log Close (fst (try_except (attempt cfg b) (on_exception cfg b) (opened cfg w)))),
     after_teardown b (snd (try_except (attempt cfg b) (on_exception cfg b) (opened cfg w)))).
Proof.
  intros H1 H2 H3 H4. unfold crawl, after_teardown.
  rewrite (bind_run _ _ w (log Start w) tt) by (rewrite page_call_run, H1; reflexivity).
  rewrite try_finally_run, page_call_run. cbn [fst snd].
  rewrite (bind_run _ _ _ (log (NewContext (viewport cfg) (user_agent cfg))
                             (log Launch (log Start w))) tt).
  2:{ unfold create_browser_context.
      rewrite (bind_run _ _ _ (log Launch (log Start w)) tt)
        by (rewrite page_call_run, H2; reflexivity).
      rewrite page_call_run, H3. reflexivity. }
  rewrite (bind_run _ _ _ _ tt) by (rewrite page_call_run, H4; reflexivity).
  rewrite (bind_run _ _ _ (opened cfg w) tt) by reflexivity.
  rewrite try_finally_run, page_call_run. cbn [fst snd].
  destruct (stop b) as [[]|e2], (close b) as [[]|e1]; reflexivity.
Qed.

(** ** Saving the record *)






(** The page code writes screenshots only. *)
Lemma guarded_attempt_files cfg b w p :
  ~ (exists name, p = path_join (screenshot_dir cfg) name) ->
  fs (fst (try_except (attempt cfg b) (on_exception cfg b) w)) !! p = fs w !! p.
Proof.
  intros Hp.
  assert (H : respects
                (same_files_outside (fun p => exists name, p = path_join (screenshot_dir cfg) name))
                (try_except (attempt cfg b) (on_exception cfg b))).
  { apply respects_guarded_attempt;
      [exact _ | intros ? ? _; apply same_files_log | intros ? ?; apply same_files_say |].
    intros s png w0. apply same_files_insert. eexists. reflexivity. }
  apply (H w p Hp).
Qed.

Lemma output_file_apart b name :
  output_file b <> "output" /\ output_file b <> "screenshots"
  /\ output_file b <> path_join "screenshots" name.
Proof. unfold output_file. cbn. repeat split; discriminate. Qed.

Lemma latest_file_apart b name :
  latest_file <> "output" /\ latest_file <> "screenshots"
  /\ latest_file <> path_join "screenshots" name /\ latest_file <> output_file b.
Proof. unfold output_file. cbn. repeat split; discriminate. Qed.

(** The files of the state in which the record is saved. *)
Lemma files_after_crawl target b w p :
  p <> "output" -> p <> "screenshots" -> (forall name, p <> path_join "screenshots" name) ->
  fs (fst (try_except (attempt (CONFIG target) b) (on_exception (CONFIG target) b)
             (opened (CONFIG target) (with_dirs w)))) !! p
  = fs w !! p.
Proof.
  intros H1 H2 H3. rewrite guarded_attempt_files.
  - cbn [fs opened say log with_dirs]. rewrite !lookup_insert_ne by congruence. reflexivity.
  - intros [name ->]. exact (H3 name eq_refl).
Qed.



(** A run in which the title cannot be read. *)
Definition untitled : browser :=
  sample (Ok tt) (Raise {| class := OtherException; message := u "Target closed" |})
         [1000; 1000] [] (u "https://www.threads.com/").


(** A page whose one post is cut by [substring(0, 500)] between the two
    halves of an emoji: 499 letters, then U+1F600 as a surrogate pair. *)
Definition emoji_at_the_cut : browser :=
  calm [1000; 1000] [Some (repeat 97%N 499 ++ [55357; 56832]%N)] (u "https://www.threads.com/").

(** On that page the run extracts its record and [main] raises from the
    first [json.dump]: the file named after the time stamp is left with the
    text before the post, and [output/latest.json] is not written. *)
Example cut_emoji_is_not_saved :
  snd (main None emoji_at_the_cut empty_world) = Raise (Os UnicodeEncodeError)
  /\ fs (fst (main None emoji_at_the_cut empty_world)) !! latest_file = None
  /\ exists written_text,
       fs (fst (main None emoji_at_the_cut empty_world)) !! output_file emoji_at_the_cut
       = Some (File written_text)
       /\ written_text <> []
       /\ encodes written_text = true.
Proof.
  vm_compute. split; [reflexivity|]. split; [reflexivity|].
  eexists. split; [reflexivity|]. split; [discriminate | reflexivity].
Qed.

(** A page on which every popup call fails and the network never gets
    idle; every other call succeeds. *)
Definition restless : browser := {|
  start := Ok tt;
  launch := Ok tt;
  new_context := Ok tt;
  new_page := Ok tt;
  goto := Ok tt;
  is_visible := fun i =>
    if Nat.even i then Ok true
    else Raise {| class := OtherException; message := u "Execution context was destroyed" |};
  click := fun _ =>
    Raise {| class := PlaywrightTimeout; message := u "Timeout 30000ms exceeded" |};
  popup_pause := fun _ => Ok tt;
  wait_for_load_state :=
    Raise {| class := PlaywrightTimeout; message := u "Timeout 15000ms exceeded" |};
  screenshot := fun _ => Ok [];
  scroll_to := fun _ => Ok tt;
  wait_for_timeout := fun _ => Ok tt;
  scroll_height := fun _ => Ok 1000;
  title := Ok (u "Threads");
  page_url := u "https://www.threads.com/";
  inner_texts := Ok [Some (u "A first post, long enough to be kept")];
  content := Ok (u "<html><body></body></html>");
  close := Ok tt;
  stop := Ok tt;
  timestamp := "20240101_000000";
  utc_now := u "2024-01-01T00:00:00+00:00"
|}.



(** X6: when [main] returns, the file named after the time stamp and
    [output/latest.json] hold the same text: the JSON of the record
    returned. *)
Theorem result_files_agree (target : option str) (b : browser) (w : world) (d : dict) :
  snd (main target b w) = Ok d ->
  fs (fst (main target b w)) !! output_file b = Some (File (json_dumps (JDict d)))
  /\ fs (fst (main target b w)) !! latest_file = Some (File (json_dumps (JDict d))).
Proof.
  destruct (main target b w) as [w' r] eqn:Hmain. cbn [fst snd]. intros ->.
  rewrite main_parts in Hmain. unfold save in Hmain.
  do 3 (apply bind_ok in Hmain as (? & ? & _ & Hmain)).
  apply bind_ok in Hmain as ([] & w1 & Hfirst & Hmain).
  apply bind_ok in Hmain as ([] & w2 & Hsecond & Hmain).
  apply bind_ok in Hmain as ([] & w3 & Hprint & Hmain).
  cbn in Hmain, Hprint. inversion Hmain; subst. inversion Hprint; subst.
  apply map_error_ok_state, TextFacts.json_dump_ok in Hfirst, Hsecond.
  cbn [fs say]. rewrite Hsecond, Hfirst.
  split; [|apply lookup_insert_eq].
  rewrite lookup_insert_ne by (cbn; discriminate). apply lookup_insert_eq.
Qed.

Lemma result_files_agree_witness :
  fs (fst (main None untitled empty_world)) !! output_file untitled
  = Some (File (json_dumps (JDict (error_record (CONFIG None) untitled
       {| class := OtherException; message := u "Target closed" |}))))
  /\ fs (fst (main None untitled empty_world)) !! latest_file
     = Some (File (json_dumps (JDict (error_record (CONFIG None) untitled
          {| class := OtherException; message := u "Target closed" |})))).
Proof.
  apply (result_files_agree None untitled empty_world). vm_compute. reflexivity.
Defined.

(** X7: what is not an [Exception] is not turned into a record.  When the
    body of the [try] raises such an [e], [main] raises too - [e] itself
    unless closing the browser or the driver raises in turn - after closing
    the browser, and leaves both result files as they were. *)
Theorem interruption_is_not_recorded
    (target : option str) (b : browser) (w : world) (e : exn) :
  dirs_ready w ->
  start b = Ok tt -> launch b = Ok tt -> new_context b = Ok tt -> new_page b = Ok tt ->
  snd (attempt (CONFIG target) b (opened (CONFIG target) (with_dirs w))) = Raise e ->
  is_Exception e = false ->
  (exists e', snd (main target b w) = Raise (Browser e')
              /\ (close b = Ok tt -> stop b = Ok tt -> e' = e))
  /\ fs (fst (main target b w)) !! output_file b = fs w !! output_file b
  /\ fs (fst (main target b w)) !! latest_file = fs w !! latest_file.
Proof.
  intros Hd H1 H2 H3 H4 Hat He.
  pose proof (files_after_crawl target b w) as Hfiles.
  assert (HG : snd (try_except (attempt (CONFIG target) b) (on_exception (CONFIG target) b)
                      (opened (CONFIG target) (with_dirs w))) = Raise e).
  { unfold try_except.
    destruct (attempt _ _ _) as [w1 [d|e0]]; cbn [snd] in Hat; [discriminate|].
    inversion Hat; subst e0. unfold on_exception. rewrite He. reflexivity. }
  destruct (output_file_apart b EmptyString) as (A1 & A2 & _).
  destruct (latest_file_apart b EmptyString) as (B1 & B2 & _).
  rewrite (main_from_dirs _ _ _ Hd). unfold bind, map_error.
  rewrite crawl_run by assumption. rewrite HG. unfold after_teardown.
  destruct (stop b) as [[]|e2], (close b) as [[]|e1]; cbn [fst snd fs log];
    (split; [eexists; split; [reflexivity | congruence] |]);
    (split; apply Hfiles; auto; intros name;
       first [apply (output_file_apart b name) | apply (latest_file_apart b name)]).
Qed.

Lemma interruption_is_not_recorded_witness :
  (exists e', snd (main None interrupted empty_world) = Raise (Browser e')
              /\ (close interrupted = Ok tt -> stop interrupted = Ok tt ->
                  e' = {| class := NotException; message := u "KeyboardInterrupt" |}))
  /\ fs (fst (main None interrupted empty_world)) !! output_file interrupted
     = fs empty_world !! output_file interrupted
  /\ fs (fst (main None interrupted empty_world)) !! latest_file = fs empty_world !! latest_file.
Proof.
  apply (interruption_is_not_recorded None interrupted empty_world);
    [exact dirs_ready_empty | reflexivity ..].
Defined.

Lemma closes_log c w : is_close c = false -> closes (log c w) = closes w.
Proof.
  intros H. unfold closes, log. cbn [calls]. rewrite List.filter_app. cbn [List.filter].
  rewrite H, app_nil_r. reflexivity.
Qed.

(** The browser cannot be brought to an open page: [e] is raised on the
    way. *)
Inductive setup_fails (b : browser) (e : exn) : Prop :=
| at_start : start b = Raise e -> setup_fails b e
| at_launch : start b = Ok tt -> launch b = Raise e -> setup_fails b e
| at_new_context :
    start b = Ok tt -> launch b = Ok tt -> new_context b = Raise e -> setup_fails b e
| at_new_page :
    start b = Ok tt -> launch b = Ok tt -> new_context b = Ok tt -> new_page b = Raise e ->
    setup_fails b e.

Lemma crawl_setup_fails cfg b w e :
  setup_fails b e ->
  exists w' e',
    crawl cfg b w = (w', Raise e') /\ (stop b = Ok tt -> e' = e)
    /\ closes w' = closes w /\ fs w' = fs w.
Proof.
  intros Hfail. unfold crawl.
  destruct Hfail as [H1|H1 H2|H1 H2 H3|H1 H2 H3 H4].
  - unfold bind. rewrite page_call_run, H1.
    eexists _, _. split; [reflexivity|]. rewrite closes_log by reflexivity. auto.
  - rewrite (bind_run _ _ _ (log Start w) tt) by (rewrite page_call_run, H1; reflexivity).
    rewrite try_finally_run, page_call_run.
    unfold create_browser_context, bind. rewrite H2.
    repeat (rewrite page_call_run; cbv beta iota). cbn [fst snd].
    destruct (stop b) as [[]|e2]; eexists _, _; (split; [reflexivity|]);
      rewrite !closes_log by reflexivity; (split; [intros ?; congruence | auto]).
  - rewrite (bind_run _ _ _ (log Start w) tt) by (rewrite page_call_run, H1; reflexivity).
    rewrite try_finally_run, page_call_run.
    unfold create_browser_context, bind. rewrite H2, H3.
    repeat (rewrite page_call_run; cbv beta iota). cbn [fst snd].
    destruct (stop b) as [[]|e2]; eexists _, _; (split; [reflexivity|]);
      rewrite !closes_log by reflexivity; (split; [intros ?; congruence | auto]).
  - rewrite (bind_run _ _ _ (log Start w) tt) by (rewrite page_call_run, H1; reflexivity).
    rewrite try_finally_run, page_call_run.
    unfold create_browser_context, bind. rewrite H2, H3, H4.
    repeat (rewrite page_call_run; cbv beta iota). cbn [fst snd].
    destruct (stop b) as [[]|e2]; eexists _, _; (split; [reflexivity|]);
      rewrite !closes_log by reflexivity; (split; [intros ?; congruence | auto]).
Qed.

(** X8: an exception raised while the browser is set up - by the driver,
    the launch, the new context or the new page - is outside the [try]:
    [main] raises it (unless stopping the driver raises in turn), whatever
    its class, never calls [browser.close()] and leaves both result files
    as they were. *)
Theorem setup_failure_is_not_recorded
    (target : option str) (b : browser) (w : world) (e : exn) :
  dirs_ready w -> setup_fails b e ->
  (exists e', snd (main target b w) = Raise (Browser e') /\ (stop b = Ok tt -> e' = e))
  /\ closes (fst (main target b w)) = closes w
  /\ fs (fst (main target b w)) !! output_file b = fs w !! output_file b
  /\ fs (fst (main target b w)) !! latest_file = fs w !! latest_file.
Proof.
  intros Hd Hfail.
  destruct (output_file_apart b EmptyString) as (A1 & A2 & _).
  destruct (latest_file_apart b EmptyString) as (B1 & B2 & _).
  destruct (crawl_setup_fails (CONFIG target) b (with_dirs w) e Hfail)
    as (w' & e' & Hcrawl & He & Hcl & Hfs).
  rewrite (main_from_dirs _ _ _ Hd). unfold bind, map_error. rewrite Hcrawl. cbn [fst snd].
  split; [exists e'; auto|]. rewrite Hcl, Hfs. cbn [fs with_dirs].
  rewrite !lookup_insert_ne by congruence.
  split; [|auto]. unfold closes, with_dirs. cbn [calls]. rewrite List.filter_app. cbn.
  rewrite app_nil_r. reflexivity.
Qed.

(** A machine on which the browser cannot be launched. *)
Definition no_browser : browser := {|
  start := Ok tt;
  launch := Raise {| class := OtherException; message := u "Executable does not exist" |};
  new_context := Ok tt;
  new_page := Ok tt;
  goto := Ok tt;
  is_visible := fun _ => Ok false;
  click := fun _ => Ok tt;
  popup_pause := fun _ => Ok tt;
  wait_for_load_state := Ok tt;
  screenshot := fun _ => Ok [];
  scroll_to := fun _ => Ok tt;
  wait_for_timeout := fun _ => Ok tt;
  scroll_height := fun _ => Ok 1000;
  title := Ok (u "Threads");
  page_url := u "about:blank";
  inner_texts := Ok [];
  content := Ok [];
  close := Ok tt;
  stop := Ok tt;
  timestamp := "20240101_000000";
  utc_now := u "2024-01-01T00:00:00+00:00"
|}.

Lemma setup_failure_is_not_recorded_witness :
  (exists e', snd (main None no_browser empty_world) = Raise (Browser e')
              /\ (stop no_browser = Ok tt ->
                  e' = {| class := OtherException; message := u "Executable does not exist" |}))
  /\ closes (fst (main None no_browser empty_world)) = closes empty_world
  /\ fs (fst (main None no_browser empty_world)) !! output_file no_browser
     = fs empty_world !! output_file no_browser
  /\ fs (fst (main None no_browser empty_world)) !! latest_file = fs empty_world !! latest_file.
Proof.
  apply (setup_failure_is_not_recorded None no_browser empty_world);
    [exact dirs_ready_empty | apply at_launch; reflexivity].
Defined.

Lemma main_blocked target b w c :
  fs w !! "output" = Some (File c) \/ fs w !! "screenshots" = Some (File c) ->
  exists w' made,
    main target b w = (w', Raise (Os FileExistsError))
    /\ calls w' = calls w ++ map Mkdir made.
Proof.
  intros H. rewrite main_parts.
  assert (Hout : forall n, fs w !! "output" = Some n -> n <> Dir ->
            exists w' made,
              bind (map_error Os (mkdir_exist_ok "output"))
                (fun _ => bind (map_error Os (mkdir_exist_ok "screenshots"))
                   (fun _ => bind (map_error Browser (crawl (CONFIG target) b))
                               (save (CONFIG target) b))) w = (w', Raise (Os FileExistsError))
              /\ calls w' = calls w ++ map Mkdir made).
  { intros n Hn Hkind. unfold bind at 1. unfold map_error at 1.
    rewrite (mkdir_blocked _ _ _ Hn Hkind).
    eexists _, ["output"]. split; reflexivity. }
  destruct H as [H|H]; [exact (Hout _ H ltac:(discriminate))|].
  assert (Hscreens : dir_or_absent w "output" ->
            exists w' made,
              bind (map_error Os (mkdir_exist_ok "output"))
                (fun _ => bind (map_error Os (mkdir_exist_ok "screenshots"))
                   (fun _ => bind (map_error Browser (crawl (CONFIG target) b))
                               (save (CONFIG target) b))) w = (w', Raise (Os FileExistsError))
              /\ calls w' = calls w ++ map Mkdir made).
  { intros Ho. unfold bind at 1. unfold map_error at 1.
    rewrite mkdir_here by (reflexivity || exact Ho).
    unfold bind at 1. unfold map_error at 1. rewrite (mkdir_blocked _ _ (File c)).
    - eexists _, ["output"; "screenshots"]. split; [reflexivity|].
      cbn [fst calls log map]. rewrite <- app_assoc. reflexivity.
    - cbn [fs]. rewrite lookup_insert_ne by discriminate. exact H.
    - discriminate. }
  destruct (fs w !! "output") as [[|c'| |]|] eqn:Ho.
  - apply Hscreens. right. exact Ho.
  - exact (Hout _ eq_refl ltac:(discriminate)).
  - exact (Hout _ eq_refl ltac:(discriminate)).
  - exact (Hout _ eq_refl ltac:(discriminate)).
  - apply Hscreens. left. exact Ho.
Qed.

(** X9: when [output] or [screenshots] exists as a regular file, [main]
    raises [FileExistsError] from its [mkdir], having made no call but
    [mkdir]: the browser is not started. *)
Theorem main_needs_its_directories
    (target : option str) (b : browser) (w : world) (c : str) :
  fs w !! "output" = Some (File c) \/ fs w !! "screenshots" = Some (File c) ->
  snd (main target b w) = Raise (Os FileExistsError)
  /\ exists made, calls (fst (main target b w)) = calls w ++ map Mkdir made.
Proof.
  intros H. destruct (main_blocked target b w c H) as (w' & made & -> & Hcalls).
  split; [reflexivity | exists made; exact Hcalls].
Qed.

(** A working directory in which [output] is a regular file. *)
Definition output_is_a_file : world :=
  {| fs := {[ "output" := File (u "notes") ]}; calls := []; stdout := [] |}.

Lemma main_needs_its_directories_witness :
  snd (main None interrupted output_is_a_file) = Raise (Os FileExistsError)
  /\ exists made, calls (fst (main None interrupted output_is_a_file))
                  = calls output_is_a_file ++ map Mkdir made.
Proof.
  apply (main_needs_its_directories None interrupted output_is_a_file (u "notes")).
  left. reflexivity.
Defined.

(** ** The scroll loop, pass by pass *)

Lemma measurements_log c w :
  measurements (log c w) = (measurements w + if is_measurement c then 1 else 0)%nat.
Proof.
  unfold measurements, log; cbn. rewrite filter_app, length_app; cbn.
  destruct (is_measurement c); reflexivity.
Qed.

Lemma measurements_say line w : measurements (say line w) = measurements w.
Proof. reflexivity. Qed.

(** The height measured last after [j] passes from index [a]. *)
Definition last_height (h : nat -> Z) (a j : nat) (prev : Z) : Z :=
  match j with
  | O => prev
  | S j' => h (a + j')%nat
  end.

(** [j] passes whose page calls succeed and whose heights [h] all differ
    from the one before: the loop goes on with what is left. *)
Lemma scroll_loop_passes b max_scrolls pause_ms (h : nat -> Z) rest :
  forall j a prev w,
    (forall i, (a <= i < a + j)%nat ->
               scroll_to b i = Ok tt /\ wait_for_timeout b i = Ok tt
               /\ scroll_height b i = Ok (h i)) ->
    ((0 < j)%nat -> h a <> prev) ->
    (forall i, (a <= i)%nat -> (S i < a + j)%nat -> h (S i) <> h i) ->
    exists w',
      scroll_loop b max_scrolls pause_ms (seq a j ++ rest) prev w
      = scroll_loop b max_scrolls pause_ms rest (last_height h a j prev) w'
      /\ scrolls w' = (scrolls w + j)%nat
      /\ measurements w' = (measurements w + j)%nat.
Proof.
  induction j as [|j IH]; intros a prev w Hcalls Hfirst Hnext.
  - exists w. cbn [seq app last_height]. rewrite !Nat.add_0_r. auto.
  - cbn [seq app]. rewrite scroll_loop_cons.
    destruct (Hcalls a ltac:(lia)) as (-> & -> & ->). cbv zeta.
    destruct (Z.eqb_spec (h a) prev) as [Heq|_]; [destruct (Hfirst ltac:(lia) Heq)|].
    edestruct (IH (S a) (h a)) as (w' & -> & Hs & Hm).
    + intros i Hi. apply Hcalls. lia.
    + intros Hj. apply Hnext; lia.
    + intros i Hi HS. apply Hnext; lia.
    + exists w'. split; [|split].
      * f_equal. destruct j; cbn [last_height]; f_equal; lia.
      * rewrite Hs, scrolls_say, !scrolls_log. cbn. lia.
      * rewrite Hm, measurements_say, !measurements_log. cbn. lia.
Qed.

(** X10: while the height keeps changing the loop does not stop early: with
    its page calls succeeding and every height different from the one
    before (the first from -1), it makes all [max_scrolls] passes and
    returns. *)
Theorem scroll_uses_whole_budget
    (b : browser) (max_scrolls pause_ms : Z) (w : world) (h : nat -> Z) :
  (forall i, (i < Z.to_nat max_scrolls)%nat ->
             scroll_to b i = Ok tt /\ wait_for_timeout b i = Ok tt
             /\ scroll_height b i = Ok (h i)) ->
  h 0%nat <> -1 ->
  (forall i, (S i < Z.to_nat max_scrolls)%nat -> h (S i) <> h i) ->
  snd (scroll_for_content b max_scrolls pause_ms w) = Ok tt
  /\ scrolls (fst (scroll_for_content b max_scrolls pause_ms w))
     = (scrolls w + Z.to_nat max_scrolls)%nat
  /\ measurements (fst (scroll_for_content b max_scrolls pause_ms w))
     = (measurements w + Z.to_nat max_scrolls)%nat.
Proof.
  intros Hcalls Hfirst Hnext. unfold scroll_for_content.
  destruct (scroll_loop_passes b max_scrolls pause_ms h [] (Z.to_nat max_scrolls) 0 (-1) w)
    as (w' & Hrun & Hs & Hm).
  - intros i Hi. apply Hcalls. lia.
  - intros _. exact Hfirst.
  - intros i _ Hi. apply Hnext. lia.
  - rewrite app_nil_r in Hrun. rewrite Hrun. cbn [scroll_loop ret fst snd]. auto.
Qed.

Lemma scroll_uses_whole_budget_witness :
  snd (scroll_for_content (calm [100; 200; 300; 400; 500] [] []) 5 2000 empty_world) = Ok tt
  /\ scrolls (fst (scroll_for_content (calm [100; 200; 300; 400; 500] [] []) 5 2000 empty_world))
     = (scrolls empty_world + Z.to_nat 5)%nat
  /\ measurements
       (fst (scroll_for_content (calm [100; 200; 300; 400; 500] [] []) 5 2000 empty_world))
     = (measurements empty_world + Z.to_nat 5)%nat.
Proof.
  apply (scroll_uses_whole_budget (calm [100; 200; 300; 400; 500] [] []) 5 2000 empty_world
           (fun i => nth i [100; 200; 300; 400; 500] 0)).
  - intros i _. repeat split.
  - discriminate.
  - intros i Hi. change (Z.to_nat 5) with 5%nat in Hi.
    do 4 (destruct i as [|i]; [discriminate|]). lia.
Defined.

(** X11: the loop stops at the first height that repeats the one before, and
    not earlier: with its page calls succeeding, heights that change up to
    pass [k + 1] and the height of pass [k + 2] equal to that of pass
    [k + 1], it makes exactly [k + 2] passes. *)
Theorem scroll_stops_at_first_repeat
    (b : browser) (max_scrolls pause_ms : Z) (w : world) (h : nat -> Z) (k : nat) :
  (S k < Z.to_nat max_scrolls)%nat ->
  (forall i, (i <= S k)%nat ->
             scroll_to b i = Ok tt /\ wait_for_timeout b i = Ok tt
             /\ scroll_height b i = Ok (h i)) ->
  h 0%nat <> -1 ->
  (forall i, (i < k)%nat -> h (S i) <> h i) ->
  h (S k) = h k ->
  snd (scroll_for_content b max_scrolls pause_ms w) = Ok tt
  /\ scrolls (fst (scroll_for_content b max_scrolls pause_ms w)) = (scrolls w + (k + 2))%nat
  /\ measurements (fst (scroll_for_content b max_scrolls pause_ms w))
     = (measurements w + (k + 2))%nat.
Proof.
  intros Hk Hcalls Hfirst Hnext Hrepeat. unfold scroll_for_content.
  replace (Z.to_nat max_scrolls) with (S k + S (Z.to_nat max_scrolls - S (S k)))%nat by lia.
  rewrite seq_app. cbn [seq Nat.add].
  change (0 :: seq 1 k)%nat with (seq 0 (S k)).
  destruct (scroll_loop_passes b max_scrolls pause_ms h
              (S k :: seq (S (S k)) (Z.to_nat max_scrolls - S (S k))) (S k) 0 (-1) w)
    as (w' & Hrun & Hs & Hm).
  - intros i Hi. apply Hcalls. lia.
  - intros _. exact Hfirst.
  - intros i _ Hi. apply Hnext. lia.
  - rewrite Hrun, scroll_loop_cons.
    destruct (Hcalls (S k) ltac:(lia)) as (-> & -> & ->). cbv zeta.
    cbn [last_height Nat.add]. rewrite Hrepeat, Z.eqb_refl. cbn [fst snd].
    split; [reflexivity|]. split.
    + rewrite scrolls_say, !scrolls_log, Hs. cbn. lia.
    + rewrite measurements_say, !measurements_log, Hm. cbn. lia.
Qed.

Lemma scroll_stops_at_first_repeat_witness :
  snd (scroll_for_content (calm [1000; 2000; 2000] [] []) 5 2000 empty_world) = Ok tt
  /\ scrolls (fst (scroll_for_content (calm [1000; 2000; 2000] [] []) 5 2000 empty_world))
     = (scrolls empty_world + (1 + 2))%nat
  /\ measurements (fst (scroll_for_content (calm [1000; 2000; 2000] [] []) 5 2000 empty_world))
     = (measurements empty_world + (1 + 2))%nat.
Proof.
  apply (scroll_stops_at_first_repeat (calm [1000; 2000; 2000] [] []) 5 2000 empty_world
           (fun i => nth i [1000; 2000; 2000] 0) 1).
  - change (Z.to_nat 5) with 5%nat. lia.
  - intros i _. repeat split.
  - discriminate.
  - intros i Hi. destruct i as [|i]; [discriminate | lia].
  - reflexivity.
Defined.

(** ** The posts the page script keeps *)

Lemma trim_start_head s :
  match trim_start s with
  | [] => True
  | c :: _ => js_space c = false
  end.
Proof.
  induction s as [|c s IH]; cbn [trim_start]; [exact I|].
  destruct (js_space c) eqn:E; [exact IH | exact E].
Qed.

Lemma trim_start_suffix s : exists dropped, s = dropped ++ trim_start s.
Proof.
  induction s as [|c s [d IH]]; cbn [trim_start]; [exists []; reflexivity|].
  destruct (js_space c).
  - exists (c :: d). cbn [app]. f_equal. exact IH.
  - exists []. reflexivity.
Qed.

(** A trimmed text does not start with white space. *)
Lemma js_trim_head s :
  match js_trim s with
  | [] => True
  | c :: _ => js_space c = false
  end.
Proof.
  unfold js_trim. destruct (trim_start_suffix (rev (trim_start s))) as [d Hd].
  apply (f_equal (@rev N)) in Hd. rewrite rev_involutive, rev_app_distr in Hd.
  pose proof (trim_start_head s) as Hh. rewrite Hd in Hh.
  destruct (rev (trim_start (rev (trim_start s)))) as [|c r]; [exact I | exact Hh].
Qed.

Lemma push_post_kept el :
  Forall (fun p => (10 < List.length p <= 500)%nat
                   /\ exists c rest, p = c :: rest /\ js_space c = false)
         (push_post el).
Proof.
  destruct el as [t|]; cbn [push_post]; [|constructor]. cbv zeta.
  destruct (negb _ && _) eqn:E; constructor; [|constructor].
  apply andb_prop in E as [_ E]. apply Nat.ltb_lt in E.
  unfold substring0. rewrite length_firstn. split; [lia|].
  pose proof (js_trim_head t) as Hh.
  destruct (js_trim t) as [|c r]; [cbn in E; lia|].
  exists c, (firstn 499 r). split; [reflexivity | exact Hh].
Qed.

(** X12: every text the page script returns has more than 10 and at most 500
    UTF-16 code units and does not begin with white space: the texts are
    trimmed, and the short ones are dropped, before they are cut. *)
Theorem posts_are_long_and_trimmed (elements : list (option jsstr)) :
  Forall (fun p => (10 < List.length p <= 500)%nat
                   /\ exists c rest, p = c :: rest /\ js_space c = false)
         (posts_script elements).
Proof.
  unfold posts_script, slice0. apply Forall_take, Forall_flat_map.
  apply List.Forall_forall. intros el _. apply push_post_kept.
Qed.

End ScraperMore.

(* ===================================================================== *)
(** * More on the Reporter *)
(* ===================================================================== *)

Module ReportMore.
Import Py Jinja Report ReportSpec Effects.

(** Split a goal about the nodes of a literal list into one per node. *)
Ltac split_nodes :=
  unfold nodes_ok;
  let n := fresh "n" in
  let H := fresh "Hin" in
  intros n H; cbn [In] in H;
  repeat (destruct H as [<-|H]); try contradiction.

Ltac simple_node :=
  first [ apply data_ok | apply output_name_ok | apply output_upper_ok ].

(** ** The two templates side by side *)

Section Templates.
Context {unicode : Unicode}.
Variable D : dict.

Let top : frame := {| locals := []; context := D; loop_index := None |}.

Lemma concat_map_ok_inv {A} (f : A -> result error str) l :
  is_ok (concat_map f l) = true -> forall x, In x l -> is_ok (f x) = true.
Proof.
  induction l as [|y l IH]; cbn [concat_map In]; [contradiction|].
  destruct (f y) as [out|e] eqn:Hy; [|discriminate].
  destruct (concat_map f l) as [outs|e]; [|discriminate].
  intros _ x [<-|Hx]; [rewrite Hy; reflexivity | apply IH; auto].
Qed.

Lemma render_ok_inv t :
  is_ok (render t D) = true -> dict_get (u "self") D = None /\ nodes_ok top t.
Proof.
  unfold render. destruct (dict_get (u "self") D); [discriminate|].
  intros H. split; [reflexivity|]. intros n Hn. apply (concat_map_ok_inv _ _ H n Hn).
Qed.

Lemma sized_of_slice fr x k :
  is_ok (render_node (Output (Slice (Name x) k)) fr) = true -> sized (resolve fr x).
Proof.
  cbn [render_node eval]. destruct (resolve fr x) as [[]|]; cbn [slice]; try discriminate;
    intros _; [left | right]; eexists; reflexivity.
Qed.

Lemma in_combine_ex {A B} (item : B) (l : list B) :
  forall idx : list A, List.length idx = List.length l -> In item l ->
                       exists i, In (i, item) (combine idx l).
Proof.
  induction l as [|y l IH]; intros [|i idx] Hlen Hin; cbn in *; try contradiction;
    try discriminate.
  destruct Hin as [->|Hin].
  - exists i. left. reflexivity.
  - destruct (IH idx ltac:(lia) Hin) as [j Hj]. exists j. right. exact Hj.
Qed.

Lemma in_numbered_ex item l : In item l -> exists i, In (i, item) (numbered l).
Proof.
  apply in_combine_ex. rewrite length_map, length_seq. reflexivity.
Qed.

(** The body of the Markdown loop renders on every post that [post[:n]]
    can be taken of. *)
Lemma markdown_post_ok i item :
  sized (Val item) ->
  nodes_ok (enter_loop top (u "post") (i, item))
    [Data (u "
### Post "); Output LoopIndex; Data (u "
"); Output (Slice (Name (u "post")) 200); If (Greater (Filter (Name (u "post")) length) 200)
        [Data (u "...")]
        []; Data (u "

")].
Proof.
  intros Hitem.
  assert (Hpost : sized (resolve (enter_loop top (u "post") (i, item)) (u "post"))).
  { exact Hitem. }
  split_nodes; try simple_node.
  - eapply output_loop_index_ok. reflexivity.
  - apply output_slice_ok, Hpost.
  - apply if_longer_ok; [exact Hpost | |]; split_nodes; simple_node.
Qed.

(** Where every node of the HTML template renders, every node of the
    Markdown template does. *)
Lemma markdown_nodes_follow : nodes_ok top HTML_TEMPLATE -> nodes_ok top MARKDOWN_TEMPLATE.
Proof.
  intros Hhtml. unfold MARKDOWN_TEMPLATE. split_nodes; try simple_node.
  - apply Hhtml. apply (nth_error_In HTML_TEMPLATE 11). reflexivity.
  - assert (Hfor : is_ok (render_node (nth 13 HTML_TEMPLATE (Data [])) top) = true).
    { apply Hhtml. apply (nth_error_In HTML_TEMPLATE 13). reflexivity. }
    cbn [nth HTML_TEMPLATE] in Hfor. cbn [render_node eval] in Hfor |- *.
    destruct (resolve top (u "posts")) as [[| | | |s|l|d]|]; cbn [slice] in Hfor |- *;
      try discriminate.
    + cbn [items_of]. apply concat_map_ok. intros [i item] Hin.
      apply in_numbered, in_map_iff in Hin as (c & <- & _).
      apply concat_map_ok, markdown_post_ok. left. eexists. reflexivity.
    + cbn [items_of] in Hfor |- *. apply concat_map_ok. intros [i item] Hin.
      apply in_numbered in Hin.
      assert (H20 : In item (firstn 20 l)).
      { apply (in_firstn item 10). rewrite firstn_firstn. exact Hin. }
      apply in_numbered_ex in H20 as [j Hj].
      pose proof (concat_map_ok_inv _ _ Hfor (j, item) Hj) as Hbody.
      apply concat_map_ok, markdown_post_ok.
      apply (sized_of_slice (enter_loop top (u "post") (j, item)) (u "post") 300).
      apply (concat_map_ok_inv _ _ Hbody). right. left. reflexivity.
Qed.

End Templates.


(** ** The text of the reports *)

Lemma concat_map_step {A} (f : A -> result error str) x rest out outs :
  f x = Ok out -> concat_map f rest = Ok outs -> concat_map f (x :: rest) = Ok (out ++ outs).
Proof. intros Hx Hrest. cbn [concat_map]. rewrite Hx, Hrest. reflexivity. Qed.

Lemma concat_map_last {A} (f : A -> result error str) x out :
  f x = Ok out -> concat_map f [x] = Ok out.
Proof. intros Hx. cbn [concat_map]. rewrite Hx, app_nil_r. reflexivity. Qed.

Lemma flat_map_combine_snd {A B} (G : B -> str) (items : list B) :
  forall idx : list A,
    List.length idx = List.length items ->
    flat_map (fun ip => G (snd ip)) (combine idx items) = flat_map G items.
Proof.
  induction items as [|p items IH]; intros [|i idx] Hlen; try reflexivity; try discriminate.
  cbn [combine flat_map snd]. rewrite IH by (cbn in Hlen; lia). reflexivity.
Qed.

(** Render a literal list of nodes one by one. *)
Ltac unroll :=
  repeat first [ eapply concat_map_last | eapply concat_map_step ].

Section Text.
Context {unicode : Unicode}.
Variable D : dict.
Variable l : list str.
Variable n : Z.
Hypothesis Hself : dict_get (u "self") D = None.
Hypothesis Hposts : dict_get (u "posts") D = Some (JList (map JStr l)).
Hypothesis Hlength : dict_get (u "html_length") D = Some (JInt n).
Hypothesis Hn : Z.abs n < 2 ^ 1000.

Let top : frame := {| locals := []; context := D; loop_index := None |}.

(** [{{ k }}]: [str] of the field, nothing when it is absent. *)
Definition shown (data : dict) (k : str) : str :=
  match dict_get k data with
  | Some v => py_str v
  | None => []
  end.

(** [{{ (html_length / 1024) | round(1) }}]. *)
Definition kilobytes (size : Z) : str :=
  match int_true_div size 1024 with
  | Ok x =>
      match float_round x 1 with
      | Ok y => float_repr y
      | Raise _ => []
      end
  | Raise _ => []
  end.

(** The dots after a post cut to [k] characters. *)
Definition dots (k : Z) (post : str) : str :=
  if k <? Z.of_nat (List.length post) then u "..." else [].

(** One pass of the Markdown loop. *)
Definition markdown_post (i_post : Z * str) : str :=
  u "
### Post " ++ int_str (fst i_post) ++ u "
"
    ++ firstn 200 (snd i_post) ++ dots 200 (snd i_post) ++ u "

".

(** The items of a loop with their [loop.index]. *)
Definition counted {A} (items : list A) : list (Z * A) :=
  combine (map Z.of_nat (seq 1 (List.length items))) items.

Definition markdown_text (data : dict) (size : Z) (posts : list str) : str :=
  u "# Threads Crawl Report

**Date:** " ++ shown data (u "date")
  ++ u "  
**URL:** " ++ shown data (u "url")
  ++ u "  
**Status:** " ++ shown data (u "status")
  ++ u "

## Summary

| Metric | Value |
|--------|-------|
| Posts Captured | " ++ shown data (u "posts_count")
  ++ u " |
| Page Size | " ++ kilobytes size
  ++ u " KB |
| Scraped At | " ++ shown data (u "scraped_at")
  ++ u " |

## Sample Content

" ++ flat_map markdown_post (counted (firstn 10 posts))
  ++ u "

---
*Report generated automatically by GitHub Actions*".

(** One pass of the HTML loop, and the line that counts the posts not
    shown. *)
Definition html_post (post : str) : str :=
  q "
        <div class=`post`>" ++ firstn 300 post ++ dots 300 post ++ u "</div>
        ".

Definition more_posts (posts : list str) : str :=
  if 20 <? Z.of_nat (List.length posts)
  then q "
        <p style=`color: #888; text-align: center;`>... and "
       ++ int_str (Z.of_nat (List.length posts) - 20)
       ++ u " more posts</p>
        "
  else [].

(** A loop over strings, pass by pass. *)
Lemma concat_map_strings (F : Z * json -> result error str) (G : Z * str -> str) posts :
  (forall i p, F (i, JStr p) = Ok (G (i, p))) ->
  forall idx, concat_map F (combine idx (map JStr posts)) = Ok (flat_map G (combine idx posts)).
Proof.
  intros HF. induction posts as [|p posts IH]; intros [|i idx]; try reflexivity.
  cbn [map combine flat_map]. apply concat_map_step; [apply HF | apply IH].
Qed.

Lemma output_name_text x : render_node (Output (Name x)) top = Ok (shown D x).
Proof.
  cbn [render_node eval]. unfold resolve, shown, top. cbn [locals context dict_get].
  destruct (dict_get x D); reflexivity.
Qed.

Lemma output_kilobytes_text :
  render_node (Output (Filter (DivBy (Name (u "html_length")) 1024) (round 1))) top
  = Ok (kilobytes n).
Proof.
  cbn [render_node eval]. unfold resolve, top. cbn [locals context dict_get].
  rewrite Hlength. cbn [div_by]. unfold kilobytes.
  destruct (FloatFacts.int_true_div_below n 1024 1000 ltac:(lia) ltac:(lia) Hn)
    as (y & -> & Hy).
  cbn [float_value apply_filter].
  destruct (FloatFacts.float_round_below y 1001 ltac:(lia) Hy) as (z & ->).
  reflexivity.
Qed.

Lemma if_longer_text fr x k p text :
  resolve fr x = Val (JStr p) ->
  render_node (If (Greater (Filter (Name x) length) k) [Data text] []) fr
  = Ok (if k <? Z.of_nat (List.length p) then text else []).
Proof.
  intros Hx. cbn [render_node eval]. rewrite Hx. cbn [apply_filter greater truth].
  destruct (k <? _); cbn [concat_map render_node]; rewrite ?app_nil_r; reflexivity.
Qed.

Lemma output_slice_text fr x k p :
  resolve fr x = Val (JStr p) ->
  render_node (Output (Slice (Name x) k)) fr = Ok (firstn k p).
Proof. intros Hx. cbn [render_node eval]. rewrite Hx. reflexivity. Qed.

Lemma posts_resolved : resolve top (u "posts") = Val (JList (map JStr l)).
Proof. unfold resolve, top. cbn [locals context dict_get]. rewrite Hposts. reflexivity. Qed.

Lemma markdown_loop_text :
  render_node (nth 13 MARKDOWN_TEMPLATE (Data [])) top
  = Ok (flat_map markdown_post (counted (firstn 10 l))).
Proof.
  cbn [nth MARKDOWN_TEMPLATE render_node eval]. rewrite posts_resolved. cbn [slice items_of].
  rewrite firstn_map. unfold numbered, counted. rewrite length_map.
  apply concat_map_strings. intros i p. unfold markdown_post. cbn [fst snd].
  unroll;
    first [ apply (if_longer_text _ (u "post") 200 p); reflexivity
          | apply output_slice_text; reflexivity
          | reflexivity ].
Qed.

Lemma html_loop_text :
  render_node (nth 13 HTML_TEMPLATE (Data [])) top = Ok (flat_map html_post (firstn 20 l)).
Proof.
  cbn [nth HTML_TEMPLATE render_node eval]. rewrite posts_resolved. cbn [slice items_of].
  rewrite firstn_map. unfold numbered. rewrite length_map.
  rewrite (concat_map_strings _ (fun ip => html_post (snd ip))).
  - apply f_equal, flat_map_combine_snd. rewrite length_map, length_seq. reflexivity.
  - intros i p. unfold html_post. cbn [fst snd].
    unroll;
      first [ apply (if_longer_text _ (u "post") 300 p); reflexivity
            | apply output_slice_text; reflexivity
            | reflexivity ].
Qed.

(** The class of the status card. *)
Definition status_class (data : dict) : str :=
  match dict_get (u "status") data with
  | Some (JStr s) => if str_eqb s (u "success") then u "status-success" else u "status-error"
  | _ => u "status-error"
  end.

Definition html_text (data : dict) (size : Z) (posts : list str) : str :=
  q "
<!DOCTYPE html>
<html lang=`ko`>
<head>
    <meta charset=`UTF-8`>
    <meta name=`viewport` content=`width=device-width, initial-scale=1.0`>
    <title>Threads Crawl Report - " ++ shown data (u "date")
  ++ q "</title>
    <style>
        body { font-family: -apple-system, BlinkMacSystemFont, 'Segoe UI', Roboto, sans-serif; max-width: 900px; margin: 0 auto; padding: 20px; background: #f5f5f5; }
        .header { background: linear-gradient(135deg, #667eea 0%, #764ba2 100%); color: white; padding: 30px; border-radius: 12px; margin-bottom: 20px; }
        .stats { display: grid; grid-template-columns: repeat(auto-fit, minmax(150px, 1fr)); gap: 15px; margin-bottom: 20px; }
        .stat-card { background: white; padding: 20px; border-radius: 8px; text-align: center; box-shadow: 0 2px 4px rgba(0,0,0,0.1); }
        .stat-value { font-size: 2em; font-weight: bold; color: #667eea; }
        .stat-label { color: #666; margin-top: 5px; }
        .posts { background: white; border-radius: 8px; padding: 20px; }
        .post { border-bottom: 1px solid #eee; padding: 15px 0; }
        .post:last-child { border-bottom: none; }
        .status-success { color: #10b981; }
        .status-error { color: #ef4444; }
        .timestamp { color: #888; font-size: 0.9em; }
    </style>
</head>
<body>
    <div class=`header`>
        <h1>📊 Threads Crawl Report</h1>
        <p class=`timestamp`>Generated: " ++ shown data (u "scraped_at")
  ++ q "</p>
    </div>
    
    <div class=`stats`>
        <div class=`stat-card`>
            <div class=`stat-value " ++ status_class data
  ++ q "`>
                " ++ Py.upper (shown data (u "status"))
  ++ q "
            </div>
            <div class=`stat-label`>Status</div>
        </div>
        <div class=`stat-card`>
            <div class=`stat-value`>" ++ shown data (u "posts_count")
  ++ q "</div>
            <div class=`stat-label`>Posts Captured</div>
        </div>
        <div class=`stat-card`>
            <div class=`stat-value`>" ++ kilobytes size
  ++ q "KB</div>
            <div class=`stat-label`>Page Size</div>
        </div>
    </div>
    
    <div class=`posts`>
        <h2>📝 Captured Content</h2>
        " ++ flat_map html_post (firstn 20 posts)
  ++ u "
        " ++ more_posts posts
  ++ u "
    </div>
</body>
</html>".

Lemma status_class_text :
  render_node (nth 5 HTML_TEMPLATE (Data [])) top = Ok (status_class D).
Proof.
  cbn [nth HTML_TEMPLATE render_node eval]. unfold resolve, status_class, top.
  cbn [locals context dict_get].
  destruct (dict_get (u "status") D) as [[| | | |s| |]|]; cbn [equals_str truth];
    try destruct (str_eqb s (u "success"));
    cbn [concat_map render_node]; rewrite app_nil_r; reflexivity.
Qed.

Lemma output_upper_text x :
  render_node (Output (Filter (Name x) upper)) top = Ok (Py.upper (shown D x)).
Proof.
  cbn [render_node eval apply_filter to_str py_str]. unfold resolve, shown, top.
  cbn [locals context dict_get]. destruct (dict_get x D); reflexivity.
Qed.

Lemma more_posts_text :
  render_node (nth 15 HTML_TEMPLATE (Data [])) top = Ok (more_posts l).
Proof.
  cbn [nth HTML_TEMPLATE render_node eval]. rewrite posts_resolved.
  cbn [apply_filter greater truth]. rewrite length_map. unfold more_posts.
  destruct (20 <? _); [|reflexivity].
  unroll; try reflexivity.
  cbn [render_node eval]. rewrite posts_resolved. cbn [apply_filter minus to_str py_str py_repr].
  rewrite length_map. reflexivity.
Qed.

End Text.

Section Reporter.
Context {unicode : Unicode}.
Variable json_load : str -> result error json.
Variable now : str.

(** ** The files the Reporter writes *)



(** ** A run on a usable input *)

(** The state the Reporter is in when it has read its input: [reports] is
    a directory. *)
Definition loaded (w : world) : world :=
  {| fs := <["reports" := Dir]> (fs w);
     calls := calls w ++ [Mkdir "reports"; Exists "output/latest.json";
                          OpenRead "output/latest.json"];
     stdout := stdout w |}.

(** The states it leaves: when the HTML page cannot be encoded, when only
    the Markdown text cannot, and when both reports are written. *)
Definition no_page (w : world) : world := written "reports/index.html" [] (loaded w).

Definition page_only (html : str) (w : world) : world :=
  written "reports/report.md" []
    (say (u "✓ Generated: " ++ u "reports/index.html")
       (written "reports/index.html" html (loaded w))).

Definition reported (html md : str) (w : world) : world :=
  say (u "✓ Generated: " ++ u "reports/report.md")
    (written "reports/report.md" md
       (say (u "✓ Generated: " ++ u "reports/index.html")
          (written "reports/index.html" html (loaded w)))).

(** Up to the reading of the input. *)
Lemma generate_reports_loaded w text :
  fs w !! "output/latest.json" = Some (File text) ->
  dir_or_absent w "reports" ->
  generate_reports json_load now w
  = (v <- lift (json_load text) ;;
     match v with
     | JDict data =>
         let data := with_defaults now data in
         html_content <- lift (render HTML_TEMPLATE data) ;;
         write_text "reports/index.html" html_content ;;;
         print (u "✓ Generated: " ++ u "reports/index.html") ;;;
         md_content <- lift (render MARKDOWN_TEMPLATE data) ;;
         write_text "reports/report.md" md_content ;;;
         print (u "✓ Generated: " ++ u "reports/report.md")
     | _ => raise TypeError
     end)%py (loaded w).
Proof.
  intros Hin Hdir.
  unfold generate_reports. cbv zeta.
  rewrite (bind_run _ _ _ _ tt (mkdir_here "reports" w eq_refl Hdir)).
  change (path_join OUTPUT_DIR "latest.json") with "output/latest.json".
  change (path_join REPORTS_DIR "index.html") with "reports/index.html".
  change (path_join REPORTS_DIR "report.md") with "reports/report.md".
  erewrite bind_run.
  2:{ apply (path_exists_run _ _ text). cbn [fs]. rewrite lookup_insert_ne by discriminate.
      exact Hin. }
  cbn [negb].
  erewrite bind_run.
  2:{ apply read_text_run. cbn [fs log]. rewrite lookup_insert_ne by discriminate. exact Hin. }
  unfold loaded, log. cbn [fs calls stdout]. repeat rewrite <- app_assoc. reflexivity.
Qed.

Lemma generate_reports_run w text data html md :
  fs w !! "output/latest.json" = Some (File text) ->
  json_load text = Ok (JDict data) ->
  render HTML_TEMPLATE (with_defaults now data) = Ok html ->
  render MARKDOWN_TEMPLATE (with_defaults now data) = Ok md ->
  dir_or_absent w "reports" ->
  file_or_absent w "reports/index.html" ->
  file_or_absent w "reports/report.md" ->
  generate_reports json_load now w
  = if encodes html
    then if encodes md
         then (reported html md w, Ok tt)
         else (page_only html w, Raise UnicodeEncodeError)
    else (no_page w, Raise UnicodeEncodeError).
Proof.
  intros Hin Hload Hhtml Hmd Hdir Hindex Hreport.
  rewrite (generate_reports_loaded w text Hin Hdir).
  unfold bind at 1. unfold lift at 1. rewrite Hload. cbv zeta.
  unfold bind at 1. unfold lift at 1. rewrite Hhtml.
  assert (Hpage : file_or_absent (loaded w) "reports/index.html").
  { unfold file_or_absent, loaded. cbn [fs]. rewrite lookup_insert_ne by discriminate.
    exact Hindex. }
  assert (Hpage_dir : parent_check "reports/index.html" (fs (loaded w)) = Ok tt).
  { unfold parent_check. change (dirname "reports/index.html") with "reports".
    cbn [String.eqb Ascii.eqb Bool.eqb fs loaded]. rewrite lookup_insert_eq. reflexivity. }
  destruct (encodes html) eqn:Ehtml.
  2:{ unfold bind at 1. rewrite write_text_fails by assumption. reflexivity. }
  erewrite bind_run by (apply write_text_run; assumption).
  erewrite bind_run by reflexivity.
  unfold bind at 1. unfold lift at 1. rewrite Hmd.
  set (w1 := say _ (written "reports/index.html" html (loaded w))).
  assert (Htext : file_or_absent w1 "reports/report.md").
  { unfold file_or_absent, w1, loaded. cbn [fs say written].
    rewrite !lookup_insert_ne by discriminate. exact Hreport. }
  assert (Htext_dir : parent_check "reports/report.md" (fs w1) = Ok tt).
  { unfold parent_check. change (dirname "reports/report.md") with "reports".
    cbn [String.eqb Ascii.eqb Bool.eqb fs w1 say written loaded].
    rewrite lookup_insert_ne by discriminate. rewrite lookup_insert_eq. reflexivity. }
  destruct (encodes md) eqn:Emd.
  2:{ unfold bind at 1. rewrite write_text_fails by assumption. reflexivity. }
  erewrite bind_run by (apply write_text_run; assumption).
  reflexivity.
Qed.

(** ** A run on an unusable input *)

(** The text of [output/latest.json] cannot be made into an HTML page:
    [json.load] raises, or what it returns is not an object, or the HTML
    template raises on it. *)
Inductive unusable (text : str) (e : error) : Prop :=
| not_json : json_load text = Raise e -> unusable text e
| not_an_object v :
    json_load text = Ok v -> (forall data, v <> JDict data) -> e = TypeError -> unusable text e
| not_rendered data :
    json_load text = Ok (JDict data) ->
    render HTML_TEMPLATE (with_defaults now data) = Raise e -> unusable text e.

Lemma generate_reports_unusable w text e :
  fs w !! "output/latest.json" = Some (File text) ->
  dir_or_absent w "reports" ->
  unusable text e ->
  generate_reports json_load now w = (loaded w, Raise e).
Proof.
  intros Hin Hdir Hbad.
  rewrite (generate_reports_loaded w text Hin Hdir).
  unfold bind at 1. unfold lift at 1.
  destruct Hbad as [H|v H Hv ->|data H Hr].
  - rewrite H. reflexivity.
  - rewrite H. destruct v; try reflexivity. destruct (Hv d eq_refl).
  - rewrite H. cbv zeta. unfold bind at 1. unfold lift at 1. rewrite Hr. reflexivity.
Qed.

End Reporter.

(** A small record, and stand-ins for [json.load]: one that reads it from
    any text and one that rejects every text. *)
Definition short_record : dict :=
  [ (u "url", JStr (u "https://www.threads.com/"));
    (u "status", JStr (u "success"));
    (u "posts_count", JInt 1);
    (u "posts", JList [JStr (u "A first post, long enough to be kept")]);
    (u "html_length", JInt 2048) ].

Definition loads_short_record : str -> result error json := fun _ => Ok (JDict short_record).
Definition undecodable : str -> result error json := fun _ => Raise JSONDecodeError.

(** The text a template renders to (empty when it raises). *)
Definition rendered {unicode : Unicode} (t : template) (data : dict) : str :=
  match render t data with
  | Ok text => text
  | Raise _ => []
  end.

(** A working directory that holds a result file. *)
Definition crawled : world :=
  {| fs := {[ "output/latest.json" := File (u "{}") ]}; calls := []; stdout := [] |}.

(** X13: the text of the Markdown report.  On a context whose [posts] is a
    list of strings and whose [html_length] is an integer it is the fixed
    text with the fields filled in, then the first 10 posts only, each
    under a heading numbered from 1, cut to 200 characters and followed by
    "..." exactly when it was longer. *)
Theorem markdown_report_text
    (unicode : Unicode) (data : dict) (posts : list str) (size : Z) :
  dict_get (u "self") data = None ->
  dict_get (u "posts") data = Some (JList (map JStr posts)) ->
  dict_get (u "html_length") data = Some (JInt size) ->
  Z.abs size < 2 ^ 1000 ->
  render MARKDOWN_TEMPLATE data = Ok (markdown_text data size posts).
Proof.
  intros Hself Hposts Hlength Hsize. unfold render. rewrite Hself.
  assert (Hloop := markdown_loop_text data posts Hposts).
  cbn [nth MARKDOWN_TEMPLATE] in Hloop.
  unfold MARKDOWN_TEMPLATE, markdown_text.
  unroll;
    first [ apply output_name_text | apply output_kilobytes_text; assumption
          | exact Hloop | reflexivity ].
Qed.

Lemma markdown_report_text_witness :
  render (unicode := ascii_tables) MARKDOWN_TEMPLATE
    (with_defaults (u "2024-01-01 00:00") short_record)
  = Ok (markdown_text (unicode := ascii_tables)
          (with_defaults (u "2024-01-01 00:00") short_record) 2048
          [u "A first post, long enough to be kept"]).
Proof.
  apply (markdown_report_text ascii_tables (with_defaults (u "2024-01-01 00:00") short_record)
           [u "A first post, long enough to be kept"] 2048); vm_compute; reflexivity.
Defined.

(** X14: the text of the HTML report.  On such a context it is the fixed
    page with the fields filled in - the status in capitals, its card of
    class "status-success" only for the status "success" - then the first
    20 posts only, each cut to 300 characters and followed by "..."
    exactly when it was longer, and the line "... and N more posts"
    exactly when there are more than 20 posts, with N the number left
    out. *)
Theorem html_report_text
    (unicode : Unicode) (data : dict) (posts : list str) (size : Z) :
  dict_get (u "self") data = None ->
  dict_get (u "posts") data = Some (JList (map JStr posts)) ->
  dict_get (u "html_length") data = Some (JInt size) ->
  Z.abs size < 2 ^ 1000 ->
  render HTML_TEMPLATE data = Ok (html_text data size posts).
Proof.
  intros Hself Hposts Hlength Hsize. unfold render. rewrite Hself.
  assert (Hloop := html_loop_text data posts Hposts). cbn [nth HTML_TEMPLATE] in Hloop.
  assert (Hstatus := status_class_text data). cbn [nth HTML_TEMPLATE] in Hstatus.
  assert (Hmore := more_posts_text data posts Hposts). cbn [nth HTML_TEMPLATE] in Hmore.
  unfold HTML_TEMPLATE, html_text.
  unroll;
    first [ apply output_name_text | apply output_upper_text
          | apply output_kilobytes_text; assumption
          | exact Hloop | exact Hstatus | exact Hmore | reflexivity ].
Qed.

Lemma html_report_text_witness :
  render (unicode := ascii_tables) HTML_TEMPLATE
    (with_defaults (u "2024-01-01 00:00") short_record)
  = Ok (html_text (unicode := ascii_tables)
          (with_defaults (u "2024-01-01 00:00") short_record) 2048
          [u "A first post, long enough to be kept"]).
Proof.
  apply (html_report_text ascii_tables (with_defaults (u "2024-01-01 00:00") short_record)
           [u "A first post, long enough to be kept"] 2048); vm_compute; reflexivity.
Defined.

(** X15: the fields the templates see.  [date] is the time of the report,
    also when the input has a [date] of its own; every other field of the
    input is passed on unchanged; and nothing is added but [date] and the
    four defaults. *)
Theorem defaults_keep_the_input (now : str) (data : dict) :
  dict_get (u "date") (with_defaults now data) = Some (JStr now)
  /\ (forall k v, k <> u "date" -> dict_get k data = Some v ->
                  dict_get k (with_defaults now data) = Some v)
  /\ (forall k, dict_get k data = None -> dict_get k (with_defaults now data) <> None ->
                In k [u "date"; u "posts"; u "posts_count"; u "html_length"; u "status"]).
Proof.
  split; [|split].
  - rewrite with_defaults_get, str_eqb_refl. reflexivity.
  - intros k v Hk Hv. rewrite with_defaults_get, Hv.
    destruct (str_eqb (u "date") k) eqn:E; [|reflexivity].
    apply str_eqb_eq in E. congruence.
  - intros k Hk. rewrite with_defaults_get, Hk. cbn [In].
    destruct (str_eqb (u "date") k) eqn:E1; [apply str_eqb_eq in E1; auto|].
    destruct (str_eqb (u "posts") k) eqn:E2; [apply str_eqb_eq in E2; auto|].
    destruct (str_eqb (u "posts_count") k) eqn:E3; [apply str_eqb_eq in E3; auto|].
    destruct (str_eqb (u "html_length") k) eqn:E4; [apply str_eqb_eq in E4; auto|].
    destruct (str_eqb (u "status") k) eqn:E5; [apply str_eqb_eq in E5; auto 6|].
    intros H. destruct (H eq_refl).
Qed.

(** X16: the Reporter can render whatever the Fetcher returns.  For every
    record that [main] returns - extracted or made from an exception - of a
    page whose HTML has fewer than [2^1000] characters, both templates
    render on the record with its defaults. *)
Theorem fetched_record_renders
    (unicode : Unicode) (now : str) (target : option str) (b : Scraper.browser)
    (w : world) (d : dict) :
  snd (Scraper.main target b w) = Ok d ->
  (forall html, Scraper.content b = Ok html -> Z.of_nat (List.length html) < 2 ^ 1000) ->
  is_ok (render HTML_TEMPLATE (with_defaults now d)) = true
  /\ is_ok (render MARKDOWN_TEMPLATE (with_defaults now d)) = true.
Proof.
  intros Hmain Hsize.
  apply ScraperSpec.main_ok in Hmain as [t texts html Ht Htx Hc ->|e w1 Hat He ->].
  - apply (templates_ok _ (map Scraper.of_utf16 (Scraper.posts_script texts))
             (Scraper.len html)).
    + rewrite with_defaults_get. keys. reflexivity.
    + rewrite with_defaults_get. keys. reflexivity.
    + unfold Scraper.len. specialize (Hsize html Hc). lia.
    + rewrite with_defaults_get. keys. reflexivity.
  - apply (templates_ok _ [] 0).
    + rewrite with_defaults_get. keys. reflexivity.
    + rewrite with_defaults_get. keys. reflexivity.
    + apply Z.pow_pos_nonneg; lia.
    + rewrite with_defaults_get. keys. reflexivity.
Qed.

Lemma fetched_record_renders_witness :
  is_ok (render (unicode := ascii_tables) HTML_TEMPLATE
           (with_defaults (u "2024-01-01 00:00")
              (ScraperSpec.success_record ScraperMore.restless (u "Threads")
                 [Some (u "A first post, long enough to be kept")]
                 (u "<html><body></body></html>")))) = true
  /\ is_ok (render (unicode := ascii_tables) MARKDOWN_TEMPLATE
              (with_defaults (u "2024-01-01 00:00")
                 (ScraperSpec.success_record ScraperMore.restless (u "Threads")
                    [Some (u "A first post, long enough to be kept")]
                    (u "<html><body></body></html>")))) = true.
Proof.
  apply (fetched_record_renders ascii_tables (u "2024-01-01 00:00") None ScraperMore.restless
           Scraper.empty_world
           (ScraperSpec.success_record ScraperMore.restless (u "Threads")
              [Some (u "A first post, long enough to be kept")]
              (u "<html><body></body></html>"))).
  - vm_compute. reflexivity.
  - intros html H. vm_compute in H. injection H as <-. vm_compute. reflexivity.
Defined.

(** X17: the Markdown template renders on every context on which the HTML
    template does - whatever the fields hold - so a rendering error never
    leaves [index.html] written without [report.md]. *)
Theorem markdown_renders_when_html_does (unicode : Unicode) (data : dict) :
  is_ok (render HTML_TEMPLATE data) = true -> is_ok (render MARKDOWN_TEMPLATE data) = true.
Proof.
  intros Hhtml. apply render_ok_inv in Hhtml as [Hself Hnodes].
  unfold render. rewrite Hself.
  apply concat_map_ok, markdown_nodes_follow, Hnodes.
Qed.

Lemma markdown_renders_when_html_does_witness :
  is_ok (render (unicode := ascii_tables) MARKDOWN_TEMPLATE
           (with_defaults (u "2024-01-01 00:00") short_record)) = true.
Proof.
  apply (markdown_renders_when_html_does ascii_tables
           (with_defaults (u "2024-01-01 00:00") short_record)).
  vm_compute. reflexivity.
Defined.

(** X18: when [output/latest.json] holds a JSON object on which the HTML
    template renders, [reports] is absent or a directory and each of the
    two report files is absent or a regular file, the Markdown template
    renders too, and the run ends in one of three ways.  When both texts
    can be encoded as UTF-8 the Reporter returns, [reports/index.html] and
    [reports/report.md] hold the two rendered texts, and it has printed
    one line for each.  When the HTML text cannot be encoded (it holds a
    surrogate code point) the Reporter raises [UnicodeEncodeError] from the
    first [f.write]: [reports/index.html] is left empty, [reports/report.md]
    is as it was and nothing is printed.  When only the Markdown text
    cannot, it raises [UnicodeEncodeError] from the second [f.write]:
    [reports/index.html] holds the page, its line is printed, and
    [reports/report.md] is left empty. *)
Theorem reports_written
    (unicode : Unicode) (json_load : str -> result error json) (now : str)
    (w : world) (text : str) (data : dict) (html : str) :
  fs w !! "output/latest.json" = Some (File text) ->
  json_load text = Ok (JDict data) ->
  render HTML_TEMPLATE (with_defaults now data) = Ok html ->
  fs w !! "reports" = None \/ fs w !! "reports" = Some Dir ->
  file_or_absent w "reports/index.html" ->
  file_or_absent w "reports/report.md" ->
  exists md,
    render MARKDOWN_TEMPLATE (with_defaults now data) = Ok md
    /\ (encodes html = true -> encodes md = true ->
        snd (generate_reports json_load now w) = Ok tt
        /\ fs (fst (generate_reports json_load now w)) !! "reports/index.html"
           = Some (File html)
        /\ fs (fst (generate_reports json_load now w)) !! "reports/report.md"
           = Some (File md)
        /\ stdout (fst (generate_reports json_load now w))
           = stdout w ++ [u "✓ Generated: " ++ u "reports/index.html";
                          u "✓ Generated: " ++ u "reports/report.md"])
    /\ (encodes html = false ->
        snd (generate_reports json_load now w) = Raise UnicodeEncodeError
        /\ fs (fst (generate_reports json_load now w)) !! "reports/index.html"
           = Some (File [])
        /\ fs (fst (generate_reports json_load now w)) !! "reports/report.md"
           = fs w !! "reports/report.md"
        /\ stdout (fst (generate_reports json_load now w)) = stdout w)
    /\ (encodes html = true -> encodes md = false ->
        snd (generate_reports json_load now w) = Raise UnicodeEncodeError
        /\ fs (fst (generate_reports json_load now w)) !! "reports/index.html"
           = Some (File html)
        /\ fs (fst (generate_reports json_load now w)) !! "reports/report.md"
           = Some (File [])
        /\ stdout (fst (generate_reports json_load now w))
           = stdout w ++ [u "✓ Generated: " ++ u "reports/index.html"]).
Proof.
  intros Hin Hload Hhtml Hdir Hindex Hreport.
  assert (Hmd : is_ok (render MARKDOWN_TEMPLATE (with_defaults now data)) = true).
  { assert (Hok : is_ok (render HTML_TEMPLATE (with_defaults now data)) = true)
      by (rewrite Hhtml; reflexivity).
    apply render_ok_inv in Hok as [Hself Hnodes].
    unfold render. rewrite Hself. apply concat_map_ok, markdown_nodes_follow, Hnodes. }
  destruct (render MARKDOWN_TEMPLATE (with_defaults now data)) as [md|] eqn:Emd; [|discriminate].
  exists md. split; [reflexivity|].
  rewrite (generate_reports_run json_load now w text data html md) by assumption.
  split; [|split].
  - intros -> ->. cbn [fst snd fs stdout reported say written loaded].
    split; [reflexivity|]. split; [|split; [apply lookup_insert_eq|]].
    + rewrite lookup_insert_ne by discriminate. apply lookup_insert_eq.
    + rewrite <- app_assoc. reflexivity.
  - intros ->. cbn [fst snd fs stdout no_page written loaded].
    split; [reflexivity|]. split; [apply lookup_insert_eq|]. split; [|reflexivity].
    rewrite !lookup_insert_ne by discriminate. reflexivity.
  - intros -> ->. cbn [fst snd fs stdout page_only say written loaded].
    split; [reflexivity|]. split; [|split; [apply lookup_insert_eq | reflexivity]].
    rewrite lookup_insert_ne by discriminate. apply lookup_insert_eq.
Qed.

(** The Reporter run on the small record. *)
Definition short_run : world * result error unit :=
  generate_reports (unicode := ascii_tables) loads_short_record (u "2024-01-01 00:00") crawled.

(** The page made of the small record. *)
Definition short_page : str :=
  rendered (unicode := ascii_tables) HTML_TEMPLATE
    (with_defaults (u "2024-01-01 00:00") short_record).

Lemma reports_written_witness :
  exists md,
    render (unicode := ascii_tables) MARKDOWN_TEMPLATE
      (with_defaults (u "2024-01-01 00:00") short_record) = Ok md
    /\ (encodes short_page = true -> encodes md = true ->
        snd short_run = Ok tt
        /\ fs (fst short_run) !! "reports/index.html" = Some (File short_page)
        /\ fs (fst short_run) !! "reports/report.md" = Some (File md)
        /\ stdout (fst short_run)
           = stdout crawled ++ [u "✓ Generated: " ++ u "reports/index.html";
                                u "✓ Generated: " ++ u "reports/report.md"])
    /\ (encodes short_page = false ->
        snd short_run = Raise UnicodeEncodeError
        /\ fs (fst short_run) !! "reports/index.html" = Some (File [])
        /\ fs (fst short_run) !! "reports/report.md" = fs crawled !! "reports/report.md"
        /\ stdout (fst short_run) = stdout crawled)
    /\ (encodes short_page = true -> encodes md = false ->
        snd short_run = Raise UnicodeEncodeError
        /\ fs (fst short_run) !! "reports/index.html" = Some (File short_page)
        /\ fs (fst short_run) !! "reports/report.md" = Some (File [])
        /\ stdout (fst short_run)
           = stdout crawled ++ [u "✓ Generated: " ++ u "reports/index.html"]).
Proof.
  apply (reports_written ascii_tables loads_short_record (u "2024-01-01 00:00") crawled
           (u "{}") short_record short_page).
  - reflexivity.
  - reflexivity.
  - vm_compute. reflexivity.
  - left. vm_compute. reflexivity.
  - left. vm_compute. reflexivity.
  - left. vm_compute. reflexivity.
Defined.

(** A record whose [url] is a lone surrogate, as [json.load] returns it for
    the escape [\ud83d], and a stand-in that reads it from any text. *)
Definition surrogate_record : dict :=
  [ (u "url", JStr [55357%N]); (u "status", JStr (u "success")) ].

Definition loads_surrogate_record : str -> result error json :=
  fun _ => Ok (JDict surrogate_record).

(** On that record both templates render; the page, which does not show
    the [url], is written, and the Markdown text, which does, cannot be:
    the Reporter raises after writing [reports/index.html] and leaves
    [reports/report.md] empty. *)
Example surrogate_is_not_reported :
  snd (generate_reports (unicode := ascii_tables) loads_surrogate_record
         (u "2024-01-01 00:00") crawled) = Raise UnicodeEncodeError
  /\ fs (fst (generate_reports (unicode := ascii_tables) loads_surrogate_record
                (u "2024-01-01 00:00") crawled)) !! "reports/index.html"
     = Some (File (rendered (unicode := ascii_tables) HTML_TEMPLATE
                     (with_defaults (u "2024-01-01 00:00") surrogate_record)))
  /\ fs (fst (generate_reports (unicode := ascii_tables) loads_surrogate_record
                (u "2024-01-01 00:00") crawled)) !! "reports/report.md" = Some (File []).
Proof. vm_compute. repeat split. Qed.

(** X19: when [reports] is absent or a directory and the text of
    [output/latest.json] cannot be made into the HTML page - [json.load]
    raises, the JSON is not an object, or the HTML template raises - the
    Reporter raises that error having opened no file for writing; only the
    directory [reports] may be new. *)
Theorem unusable_input_writes_nothing
    (unicode : Unicode) (json_load : str -> result error json) (now : str)
    (w : world) (text : str) (e : error) :
  fs w !! "output/latest.json" = Some (File text) ->
  fs w !! "reports" = None \/ fs w !! "reports" = Some Dir ->
  unusable json_load now text e ->
  snd (generate_reports json_load now w) = Raise e
  /\ calls (fst (generate_reports json_load now w))
     = calls w ++ [Mkdir "reports"; Exists "output/latest.json"; OpenRead "output/latest.json"]
  /\ (forall p, p <> "reports" -> fs (fst (generate_reports json_load now w)) !! p = fs w !! p).
Proof.
  intros Hin Hdir Hbad. rewrite (generate_reports_unusable json_load now w text e) by assumption.
  cbn [fst snd fs calls loaded]. split; [reflexivity|]. split; [reflexivity|].
  intros p Hp. apply lookup_insert_ne. congruence.
Qed.

Lemma unusable_input_writes_nothing_witness :
  snd (generate_reports (unicode := ascii_tables) undecodable (u "2024-01-01 00:00") crawled)
  = Raise JSONDecodeError
  /\ calls (fst (generate_reports (unicode := ascii_tables) undecodable
                   (u "2024-01-01 00:00") crawled))
     = calls crawled ++ [Mkdir "reports"; Exists "output/latest.json";
                         OpenRead "output/latest.json"]
  /\ (forall p, p <> "reports" ->
                fs (fst (generate_reports (unicode := ascii_tables) undecodable
                           (u "2024-01-01 00:00") crawled)) !! p = fs crawled !! p).
Proof.
  apply (unusable_input_writes_nothing ascii_tables undecodable (u "2024-01-01 00:00") crawled
           (u "{}") JSONDecodeError).
  - reflexivity.
  - left. vm_compute. reflexivity.
  - apply not_json. reflexivity.
Defined.



End ReportMore.
